(** * Hackathon planner: budget snapshot, entity normalizers, document
    reconciler and manual trip sync.

    A shallow embedding of the TypeScript sources:
    - [utils/budget.ts]            ([Budget])
    - [App.tsx], manual-sync generation ([Normalize], [App])
    - [components/DestinationView.tsx] ([DestinationView])
    - [components/BudgetCalculator.tsx] ([BudgetCalculator])
    - [components/FlightManager.tsx], [components/AccommodationManager.tsx]
      ([Bulk], [FlightManager], [AccommodationManager])

    Modelling conventions.
    - A JavaScript [number] that the typed code computes with is an exact
      rational ([Qc]); rounding of IEEE doubles is outside the model, and so
      are the overflow and the underflow of [Number(s)] on a numeral with a
      large exponent.  A number inside an untyped value may also be [NaN]
      or an infinity, so that [Number.isFinite] keeps its meaning.
    - A [Record<string, number>] is a [gmap string Qc]; [Object.entries] is
      [map_to_list].  Property names are ordinary keys: the name
      [__proto__], which an assignment treats apart, is outside the model.
    - A string is a sequence of ASCII characters.
    - A function that can throw returns a [Result].
    - [Date.now()] and [Math.random()] are read from a [Host], indexed by the
      position of the array element being processed.
    - A sync handler is a function of the state of the component and of the
      [World] it meets: the remote store, a rejected read or write, the
      answer of the user and the clock.  It returns the next state, the
      store and the events in the order they happened.  The [store] of an
      outcome holds a document as the handler wrote it; what the remote
      database keeps of a written document, which is the document without
      its [null]s, empty arrays and empty objects, is [kept];
      [snapshot.exists()] is [snapshot.val() !== null].
    - [uuidv4()] and [createAttemptId()] are arguments of the handlers that
      call them.
    - [Array.prototype.sort] is stable, and with a comparator [a.k - b.k] on
      finite numbers it orders by [k]; it is written as an insertion sort.
    - A handler of a component returns the calls of the [on...] properties
      it makes, in order; the view turns each call into an updater of the
      destination. *)

From Stdlib Require Import QArith Qcanon Qround Ascii String.
From stdpp Require Import gmap strings list fin_maps numbers pretty.

Set Warnings "-register-all".
Set Default Proof Using "Type".

(** ** JavaScript values *)

Module Js.

(** The integer [z] as a number. *)
Definition num (z : Z) : Qc := Q2Qc (inject_Z z).

(** [Math.floor] and [Math.max] on finite numbers. *)
Definition Math_floor (x : Qc) : Qc := num (Qfloor x).
Definition Math_max (a b : Qc) : Qc := if bool_decide (a ≤ b)%Qc then b else a.

(** [a > b], [a >= b] on finite numbers. *)
Definition gtb (a b : Qc) : bool := bool_decide (b < a)%Qc.
Definition geb (a b : Qc) : bool := bool_decide (b ≤ a)%Qc.

Inductive JNumber :=
  | JFinite (q : Qc)
  | JNaN
  | JPosInf
  | JNegInf.

(** A value of type [unknown]: what [JSON.parse], the local store or the
    remote store hands over, and [undefined] for a property that is absent. *)
Inductive JValue :=
  | JUndefined
  | JNull
  | JBool (b : bool)
  | JNum (n : JNumber)
  | JStr (s : string)
  | JArr (l : list JValue)
  | JObj (m : gmap string JValue).

(** [typeof v] *)
Definition typeOf (v : JValue) : string :=
  match v with
  | JUndefined => "undefined"
  | JNull => "object"
  | JBool _ => "boolean"
  | JNum _ => "number"
  | JStr _ => "string"
  | JArr _ => "object"
  | JObj _ => "object"
  end.

(** [Array.isArray(v)] *)
Definition isArray (v : JValue) : bool :=
  match v with JArr _ => true | _ => false end.

(** Truthiness, as [!v] and [v ? _ : _] read it. *)
Definition truthy (v : JValue) : bool :=
  match v with
  | JUndefined | JNull => false
  | JBool b => b
  | JNum (JFinite q) => negb (bool_decide (q = 0%Qc))
  | JNum JNaN => false
  | JNum _ => true
  | JStr s => negb (String.eqb s "")
  | JArr _ | JObj _ => true
  end.

(** The guard that opens every record normalizer:
    [!v || typeof v !== 'object' || Array.isArray(v)]. *)
Definition notPlainObject (v : JValue) : bool :=
  negb (truthy v) || negb (String.eqb (typeOf v) "object") || isArray v.

(** ** Exceptions *)

Inductive Result (A : Type) :=
  | Ok (a : A)
  | TypeError.
Arguments Ok {A} a.
Arguments TypeError {A}.

Definition bind {A B} (r : Result A) (k : A → Result B) : Result B :=
  match r with Ok a => k a | TypeError => TypeError end.

#[export] Instance Result_ret : MRet Result := @Ok.
#[export] Instance Result_bind : MBind Result := λ A B k r, bind r k.

(** [v.k]: reading a property of [null] or [undefined] throws; a
    primitive or an array has none of the properties this program reads. *)
Definition getProp (v : JValue) (k : string) : Result JValue :=
  match v with
  | JUndefined | JNull => TypeError
  | JObj m => Ok (default JUndefined (m !! k))
  | _ => Ok JUndefined
  end.

(** [v?.k] *)
Definition optProp (v : JValue) (k : string) : JValue :=
  match v with
  | JObj m => default JUndefined (m !! k)
  | _ => JUndefined
  end.

(** [m.k] for a value already known to be a plain object. *)
Definition field (m : gmap string JValue) (k : string) : JValue :=
  default JUndefined (m !! k).

(** The properties of [v] when the guard lets it through. *)
Definition asObject (v : JValue) : option (gmap string JValue) :=
  if notPlainObject v then None
  else match v with JObj m => Some m | _ => None end.

(** [v] when [typeof v === 'string']. *)
Definition asString (v : JValue) : option string :=
  match v with JStr s => Some s | _ => None end.

(** [v] when [typeof v === 'number' && Number.isFinite(v)]. *)
Definition asFinite (v : JValue) : option Qc :=
  match v with JNum (JFinite q) => Some q | _ => None end.

(** [s || ''] for an optional string. *)
Definition orEmpty (o : option string) : string :=
  match o with
  | Some s => if String.eqb s "" then "" else s
  | None => ""
  end.

(** ** Strings *)

(** The ASCII members of WhiteSpace and LineTerminator. *)
Definition isWhiteSpace (c : ascii) : bool :=
  let n := nat_of_ascii c in
  (n =? 9)%nat || (n =? 10)%nat || (n =? 11)%nat || (n =? 12)%nat
  || (n =? 13)%nat || (n =? 32)%nat.

Fixpoint trimStart (s : string) : string :=
  match s with
  | EmptyString => EmptyString
  | String c s' => if isWhiteSpace c then trimStart s' else s
  end.

Fixpoint trimEnd (s : string) : string :=
  match s with
  | EmptyString => EmptyString
  | String c s' =>
      match trimEnd s' with
      | EmptyString => if isWhiteSpace c then EmptyString else String c EmptyString
      | t => String c t
      end
  end.

(** [s.trim()] *)
Definition trim (s : string) : string := trimEnd (trimStart s).

(** Every character of [s] is white space. *)
Fixpoint allWhiteSpace (s : string) : bool :=
  match s with
  | EmptyString => true
  | String c s' => isWhiteSpace c && allWhiteSpace s'
  end.

(** [s.trim()] used as a condition. *)
Definition nonBlank (s : string) : bool := negb (String.eqb (trim s) "").

(** ** [Number(s)] on a string

    StringToNumber: white space is trimmed; the empty string is [0]; a
    literal is [Infinity] with an optional sign, a signed decimal literal
    with optional fraction and exponent, or an unsigned binary, octal or
    hexadecimal integer; anything else is [NaN]. *)

Definition digitValue (base : N) (c : ascii) : option N :=
  let n := N_of_ascii c in
  let d :=
    if (48 <=? n)%N && (n <=? 57)%N then Some (n - 48)%N
    else if (97 <=? n)%N && (n <=? 122)%N then Some (n - 87)%N
    else if (65 <=? n)%N && (n <=? 90)%N then Some (n - 55)%N
    else None in
  match d with
  | Some v => if (v <? base)%N then Some v else None
  | None => None
  end.

(** The longest run of digits that [s] starts with: its value, its
    length and the rest of [s]. *)
Fixpoint readDigits (base : N) (s : string) (acc : N) (len : nat)
  : N * nat * string :=
  match s with
  | EmptyString => (acc, len, EmptyString)
  | String c s' =>
      match digitValue base c with
      | Some v => readDigits base s' (acc * base + v)%N (S len)
      | None => (acc, len, s)
      end
  end.

Definition scale10 (m : Z) (e : Z) : Qc :=
  Q2Qc (inject_Z m * Qpower (inject_Z 10) e).

(** ExponentPart, which must reach the end of the literal. *)
Definition readExponent (s : string) : option Z :=
  match s with
  | EmptyString => Some 0%Z
  | String c r =>
      if Ascii.eqb c "e" || Ascii.eqb c "E" then
        let '(neg, r') :=
          match r with
          | String "+" r' => (false, r')
          | String "-" r' => (true, r')
          | _ => (false, r)
          end in
        match readDigits 10 r' 0 0 with
        | (_, O, _) => None
        | (v, _, EmptyString) =>
            Some (if neg : bool then (- Z.of_N v)%Z else Z.of_N v)
        | _ => None
        end
      else None
  end.

Definition unsignedDecimal (s : string) : option Qc :=
  let '(ip, n1, r1) := readDigits 10 s 0 0 in
  let '(fp, n2, r2) :=
    match r1 with
    | String "." r => readDigits 10 r ip 0
    | _ => (ip, O, r1)
    end in
  match (n1 + n2)%nat with
  | O => None
  | _ =>
      match readExponent r2 with
      | Some e => Some (scale10 (Z.of_N fp) (e - Z.of_nat n2))
      | None => None
      end
  end.

Definition radixInteger (base : N) (s : string) : JNumber :=
  match readDigits base s 0 0 with
  | (_, O, _) => JNaN
  | (v, _, EmptyString) => JFinite (num (Z.of_N v))
  | _ => JNaN
  end.

Definition strDecimalLiteral (s : string) : JNumber :=
  let '(neg, r) :=
    match s with
    | String "+" r => (false, r)
    | String "-" r => (true, r)
    | _ => (false, s)
    end in
  if String.eqb r "Infinity" then (if neg : bool then JNegInf else JPosInf)
  else match unsignedDecimal r with
       | Some q => JFinite (if neg then (- q)%Qc else q)
       | None => JNaN
       end.

Definition stringToNumber (s : string) : JNumber :=
  match trim s with
  | EmptyString => JFinite 0%Qc
  | String "0" (String c r) as t =>
      if Ascii.eqb c "x" || Ascii.eqb c "X" then radixInteger 16 r
      else if Ascii.eqb c "o" || Ascii.eqb c "O" then radixInteger 8 r
      else if Ascii.eqb c "b" || Ascii.eqb c "B" then radixInteger 2 r
      else strDecimalLiteral t
  | t => strDecimalLiteral t
  end.

End Js.

Import Js.

(** ** The data model ([types.ts]) *)

Module Flight.
Record t := mk {
  id : string;
  link : string;
  description : string;
  startDate : string;
  endDate : string;
  pricePerPerson : Qc
}.
End Flight.

Module Accommodation.
Record t := mk {
  id : string;
  link : string;
  description : string;
  totalPrice : Qc;
  startDate : string;
  endDate : string
}.
End Accommodation.

Module ExtraCost.
Record t := mk {
  description : string;
  value : Qc
}.
End ExtraCost.

Module BudgetAttempt.
Record t := mk {
  id : string;
  name : string;
  createdAt : Qc;
  flightAssignments : gmap string Qc;
  selectedAccommodationId : string;
  totalCost : Qc;
  remaining : Qc;
  perPersonTotal : Qc
}.
End BudgetAttempt.

Module BudgetEstimatorState.
Record t := mk {
  flightAssignments : gmap string Qc;
  selectedAccommodationId : string;
  fixedAttemptId : string;
  attempts : list BudgetAttempt.t
}.
End BudgetEstimatorState.

(** [Partial<Flight>] and [Partial<Accommodation>], with the fields a quick-add
    form fills in. *)
Module FlightDraft.
Record t := mk {
  link : option string;
  description : option string;
  startDate : option string;
  endDate : option string;
  pricePerPerson : option Qc
}.
End FlightDraft.

Module AccommodationDraft.
Record t := mk {
  link : option string;
  description : option string;
  startDate : option string;
  endDate : option string;
  totalPrice : option Qc
}.
End AccommodationDraft.

Module Destination.
Record t := mk {
  id : string;
  name : string;
  latitude : Qc;
  longitude : Qc;
  notes : string;
  extraCosts : list ExtraCost.t;
  budgetEstimator : BudgetEstimatorState.t;
  flightDraft : FlightDraft.t;
  accommodationDraft : AccommodationDraft.t;
  flights : list Flight.t;
  accommodations : list Accommodation.t
}.
End Destination.

Module PlannerSettings.
Record t := mk {
  totalBudget : Qc;
  peopleCount : Qc
}.
End PlannerSettings.

(** ** The budget snapshot calculator ([utils/budget.ts]) *)

Module Budget.

Local Open Scope Qc_scope.

Record BudgetSnapshot := mkSnapshot {
  assignedPeopleCount : Qc;
  flightCost : Qc;
  accommodationCost : Qc;
  extraCostsCost : Qc;
  totalCost : Qc;
  remaining : Qc;
  perPersonTotal : Qc;
  perPersonRemaining : Qc;
  isOverAssigned : bool
}.

Record SnapshotInput := mkInput {
  flights : list Flight.t;
  accommodations : list Accommodation.t;
  flightAssignments : gmap string Qc;
  selectedAccommodationId : string;
  extraCosts : list ExtraCost.t;
  settings : PlannerSettings.t
}.

Definition calculateBudgetSnapshot (input : SnapshotInput) : BudgetSnapshot :=
  let accommodation :=
    find (λ item, String.eqb (Accommodation.id item) (selectedAccommodationId input))
         (accommodations input) in
  let accommodationCost :=
    match accommodation with
    | Some a => Accommodation.totalPrice a
    | None => 0
    end in
  let flightCost :=
    foldl (λ total '(flightId, count),
             let flight :=
               find (λ item, String.eqb (Flight.id item) flightId) (flights input) in
             total + match flight with
                     | Some f => Flight.pricePerPerson f * count
                     | None => 0
                     end)
          0 (map_to_list (flightAssignments input)) in
  let assignedPeopleCount :=
    foldl (λ total '(flightId, count),
             if existsb (λ item, String.eqb (Flight.id item) flightId) (flights input)
             then total + count else total)
          0 (map_to_list (flightAssignments input)) in
  let extraCostsCost :=
    foldl (λ total extraCost, total + ExtraCost.value extraCost) 0 (extraCosts input) in
  let totalCost := flightCost + accommodationCost + extraCostsCost in
  let remaining := PlannerSettings.totalBudget (settings input) - totalCost in
  let safePeopleCount := Math_max 1 (PlannerSettings.peopleCount (settings input)) in
  {| assignedPeopleCount := assignedPeopleCount;
     flightCost := flightCost;
     accommodationCost := accommodationCost;
     extraCostsCost := extraCostsCost;
     totalCost := totalCost;
     remaining := remaining;
     perPersonTotal := totalCost / safePeopleCount;
     perPersonRemaining := remaining / safePeopleCount;
     isOverAssigned :=
       gtb assignedPeopleCount (PlannerSettings.peopleCount (settings input)) |}.

End Budget.

(** ** Typed values as the runtime objects they are *)

Module ToJs.

Definition number (q : Qc) : JValue := JNum (JFinite q).

Definition object (fields : list (string * JValue)) : JValue :=
  JObj (list_to_map fields).

Definition record (m : gmap string Qc) : JValue := JObj (number <$> m).

Definition flight (f : Flight.t) : JValue :=
  object [("id", JStr (Flight.id f));
          ("link", JStr (Flight.link f));
          ("description", JStr (Flight.description f));
          ("startDate", JStr (Flight.startDate f));
          ("endDate", JStr (Flight.endDate f));
          ("pricePerPerson", number (Flight.pricePerPerson f))].

Definition accommodation (a : Accommodation.t) : JValue :=
  object [("id", JStr (Accommodation.id a));
          ("link", JStr (Accommodation.link a));
          ("description", JStr (Accommodation.description a));
          ("totalPrice", number (Accommodation.totalPrice a));
          ("startDate", JStr (Accommodation.startDate a));
          ("endDate", JStr (Accommodation.endDate a))].

Definition extraCost (e : ExtraCost.t) : JValue :=
  object [("description", JStr (ExtraCost.description e));
          ("value", number (ExtraCost.value e))].

Definition budgetAttempt (a : BudgetAttempt.t) : JValue :=
  object [("id", JStr (BudgetAttempt.id a));
          ("name", JStr (BudgetAttempt.name a));
          ("createdAt", number (BudgetAttempt.createdAt a));
          ("flightAssignments", record (BudgetAttempt.flightAssignments a));
          ("selectedAccommodationId", JStr (BudgetAttempt.selectedAccommodationId a));
          ("totalCost", number (BudgetAttempt.totalCost a));
          ("remaining", number (BudgetAttempt.remaining a));
          ("perPersonTotal", number (BudgetAttempt.perPersonTotal a))].

Definition budgetEstimator (b : BudgetEstimatorState.t) : JValue :=
  object [("flightAssignments", record (BudgetEstimatorState.flightAssignments b));
          ("selectedAccommodationId", JStr (BudgetEstimatorState.selectedAccommodationId b));
          ("fixedAttemptId", JStr (BudgetEstimatorState.fixedAttemptId b));
          ("attempts", JArr (budgetAttempt <$> BudgetEstimatorState.attempts b))].

(** A draft has exactly the properties that are filled in. *)
Definition present {A} (k : string) (f : A → JValue) (o : option A)
  : list (string * JValue) :=
  match o with Some a => [(k, f a)] | None => [] end.

Definition flightDraft (d : FlightDraft.t) : JValue :=
  object (present "link" JStr (FlightDraft.link d)
          ++ present "description" JStr (FlightDraft.description d)
          ++ present "startDate" JStr (FlightDraft.startDate d)
          ++ present "endDate" JStr (FlightDraft.endDate d)
          ++ present "pricePerPerson" number (FlightDraft.pricePerPerson d)).

Definition accommodationDraft (d : AccommodationDraft.t) : JValue :=
  object (present "link" JStr (AccommodationDraft.link d)
          ++ present "description" JStr (AccommodationDraft.description d)
          ++ present "startDate" JStr (AccommodationDraft.startDate d)
          ++ present "endDate" JStr (AccommodationDraft.endDate d)
          ++ present "totalPrice" number (AccommodationDraft.totalPrice d)).

Definition destination (d : Destination.t) : JValue :=
  object [("id", JStr (Destination.id d));
          ("name", JStr (Destination.name d));
          ("latitude", number (Destination.latitude d));
          ("longitude", number (Destination.longitude d));
          ("notes", JStr (Destination.notes d));
          ("extraCosts", JArr (extraCost <$> Destination.extraCosts d));
          ("budgetEstimator", budgetEstimator (Destination.budgetEstimator d));
          ("flightDraft", flightDraft (Destination.flightDraft d));
          ("accommodationDraft", accommodationDraft (Destination.accommodationDraft d));
          ("flights", JArr (flight <$> Destination.flights d));
          ("accommodations", JArr (accommodation <$> Destination.accommodations d))].

Definition settings (s : PlannerSettings.t) : JValue :=
  object [("totalBudget", number (PlannerSettings.totalBudget s));
          ("peopleCount", number (PlannerSettings.peopleCount s))].

End ToJs.

(** ** The host: clock, random source, number formatting *)

Record Host := mkHost {
  (** [Date.now()] while array element [i] is processed *)
  dateNow : nat → Qc;
  (** [Math.random().toString(36).slice(2, 8)] while element [i] is processed *)
  randomSuffix : nat → string;
  (** a number inside a template literal *)
  numberToString : Qc → string
}.

(** ** Entity normalizers ([App.tsx]) *)

Module Normalize.

Local Open Scope Qc_scope.

Definition DEFAULT_SETTINGS : PlannerSettings.t :=
  {| PlannerSettings.totalBudget := num 5000; PlannerSettings.peopleCount := num 5 |}.

Definition parseTimestamp (value : JValue) : option Qc :=
  match asFinite value with
  | Some q => if geb 0 q then None else Some q
  | None => None
  end.

Definition normalizeExtraCosts (extraCosts : JValue) : Result (list ExtraCost.t) :=
  match extraCosts with
  | JNum n =>
      Ok match n with
         | JFinite q =>
             if gtb q 0
             then [ {| ExtraCost.description := "General extra cost";
                       ExtraCost.value := q |} ]
             else []
         | _ => []
         end
  | JArr l =>
      mapped ← mapM (λ extraCost,
                  d ← getProp extraCost "description";
                  let description := default "" (asString d) in
                  parsedValue ← getProp extraCost "value";
                  let value :=
                    match asFinite parsedValue with
                    | Some q => if geb q 0 then q else 0
                    | None => 0
                    end in
                  Ok {| ExtraCost.description := description;
                        ExtraCost.value := value |}) l;
      Ok (List.filter
            (λ extraCost, nonBlank (ExtraCost.description extraCost)
                          || gtb (ExtraCost.value extraCost) 0)
            mapped)
  | _ => Ok []
  end.

Definition normalizeFlightAssignments (flightAssignments : JValue) : gmap string Qc :=
  match asObject flightAssignments with
  | None => ∅
  | Some entries =>
      foldl (λ acc '(flightId, count),
               match asFinite count with
               | Some c => if geb c 0 then <[flightId := Math_floor c]> acc else acc
               | None => acc
               end)
            ∅ (map_to_list entries)
  end.

Definition normalizeBudgetAttempts (host : Host) (attempts : JValue)
  : list BudgetAttempt.t :=
  match attempts with
  | JArr l =>
      take 40
        (omap (λ x, x)
           (imap (λ i attempt,
              match asObject attempt with
              | None => None
              | Some typedAttempt =>
                  let createdAt :=
                    default (dateNow host i) (asFinite (field typedAttempt "createdAt")) in
                  let totalCost := default 0 (asFinite (field typedAttempt "totalCost")) in
                  let remaining := default 0 (asFinite (field typedAttempt "remaining")) in
                  let perPersonTotal :=
                    default 0 (asFinite (field typedAttempt "perPersonTotal")) in
                  let generated :=
                    numberToString host createdAt +:+ "-" +:+ randomSuffix host i in
                  Some {|
                    BudgetAttempt.id :=
                      match asString (field typedAttempt "id") with
                      | Some s => if nonBlank s then s else generated
                      | None => generated
                      end;
                    BudgetAttempt.name :=
                      match asString (field typedAttempt "name") with
                      | Some s => if nonBlank s then s else "Saved attempt"
                      | None => "Saved attempt"
                      end;
                    BudgetAttempt.createdAt := createdAt;
                    BudgetAttempt.flightAssignments :=
                      normalizeFlightAssignments (field typedAttempt "flightAssignments");
                    BudgetAttempt.selectedAccommodationId :=
                      default "" (asString (field typedAttempt "selectedAccommodationId"));
                    BudgetAttempt.totalCost := totalCost;
                    BudgetAttempt.remaining := remaining;
                    BudgetAttempt.perPersonTotal := perPersonTotal
                  |}
              end) l))
  | _ => []
  end.

Definition normalizeBudgetEstimator (host : Host) (budgetEstimator : JValue)
  : BudgetEstimatorState.t :=
  let attempts := normalizeBudgetAttempts host (optProp budgetEstimator "attempts") in
  let fixedAttemptId := default "" (asString (optProp budgetEstimator "fixedAttemptId")) in
  let preferredAttempt :=
    match find (λ attempt, String.eqb (BudgetAttempt.id attempt) fixedAttemptId) attempts with
    | Some attempt => Some attempt
    | None => head attempts
    end in
  let normalizedAttempts :=
    match preferredAttempt with Some attempt => [attempt] | None => [] end in
  let normalizedFixedAttemptId := orEmpty (BudgetAttempt.id <$> head normalizedAttempts) in
  {| BudgetEstimatorState.flightAssignments :=
       normalizeFlightAssignments (optProp budgetEstimator "flightAssignments");
     BudgetEstimatorState.selectedAccommodationId :=
       default "" (asString (optProp budgetEstimator "selectedAccommodationId"));
     BudgetEstimatorState.fixedAttemptId := normalizedFixedAttemptId;
     BudgetEstimatorState.attempts := normalizedAttempts |}.

(** A draft price: a finite number [>= 0], else the property is left out. *)
Definition draftPrice (v : JValue) : option Qc :=
  match asFinite v with
  | Some q => if geb q 0 then Some q else None
  | None => None
  end.

Definition normalizeFlightDraft (flightDraft : JValue) : FlightDraft.t :=
  match asObject flightDraft with
  | None => FlightDraft.mk None None None None None
  | Some typedDraft =>
      {| FlightDraft.link := asString (field typedDraft "link");
         FlightDraft.description := asString (field typedDraft "description");
         FlightDraft.startDate := asString (field typedDraft "startDate");
         FlightDraft.endDate := asString (field typedDraft "endDate");
         FlightDraft.pricePerPerson := draftPrice (field typedDraft "pricePerPerson") |}
  end.

Definition normalizeAccommodationDraft (accommodationDraft : JValue)
  : AccommodationDraft.t :=
  match asObject accommodationDraft with
  | None => AccommodationDraft.mk None None None None None
  | Some typedDraft =>
      {| AccommodationDraft.link := asString (field typedDraft "link");
         AccommodationDraft.description := asString (field typedDraft "description");
         AccommodationDraft.startDate := asString (field typedDraft "startDate");
         AccommodationDraft.endDate := asString (field typedDraft "endDate");
         AccommodationDraft.totalPrice := draftPrice (field typedDraft "totalPrice") |}
  end.

(** [LegacyDestination]: a destination whose five newer properties are
    still of type [unknown]. *)
Record LegacyDestination := mkLegacy {
  id : string;
  name : string;
  latitude : Qc;
  longitude : Qc;
  notes : JValue;
  extraCosts : JValue;
  budgetEstimator : JValue;
  flightDraft : JValue;
  accommodationDraft : JValue;
  flights : list Flight.t;
  accommodations : list Accommodation.t
}.

Definition normalizeDestination (host : Host) (destination : LegacyDestination)
  : Result Destination.t :=
  normalizedExtraCosts ← normalizeExtraCosts (extraCosts destination);
  Ok {| Destination.id := id destination;
        Destination.name := name destination;
        Destination.latitude := latitude destination;
        Destination.longitude := longitude destination;
        Destination.notes := default "" (asString (notes destination));
        Destination.extraCosts := normalizedExtraCosts;
        Destination.budgetEstimator :=
          normalizeBudgetEstimator host (budgetEstimator destination);
        Destination.flightDraft := normalizeFlightDraft (flightDraft destination);
        Destination.accommodationDraft :=
          normalizeAccommodationDraft (accommodationDraft destination);
        Destination.flights := flights destination;
        Destination.accommodations := accommodations destination |}.

Definition parseNumberValue (value : JValue) : option Qc :=
  match value with
  | JNum (JFinite q) => Some q
  | JStr s =>
      if negb (String.eqb (trim s) "") then
        match stringToNumber s with
        | JFinite parsed => Some parsed
        | _ => None
        end
      else None
  | _ => None
  end.

(** The price of a list item: the parsed price when it is [>= 0], else [0]. *)
Definition listPrice (v : JValue) : Qc :=
  match parseNumberValue v with
  | Some parsedPrice => if geb parsedPrice 0 then parsedPrice else 0
  | None => 0
  end.

Definition normalizeFlightList (flights : JValue) : list Flight.t :=
  match flights with
  | JArr l =>
      omap (λ flight,
              match asObject flight with
              | None => None
              | Some typedFlight =>
                  match asString (field typedFlight "id") with
                  | Some flightId =>
                      if nonBlank flightId then
                        Some {|
                          Flight.id := flightId;
                          Flight.link := default "" (asString (field typedFlight "link"));
                          Flight.description :=
                            default "" (asString (field typedFlight "description"));
                          Flight.startDate :=
                            default "" (asString (field typedFlight "startDate"));
                          Flight.endDate :=
                            default "" (asString (field typedFlight "endDate"));
                          Flight.pricePerPerson :=
                            listPrice (field typedFlight "pricePerPerson")
                        |}
                      else None
                  | None => None
                  end
              end) l
  | _ => []
  end.

Definition normalizeAccommodationList (accommodations : JValue)
  : list Accommodation.t :=
  match accommodations with
  | JArr l =>
      omap (λ accommodation,
              match asObject accommodation with
              | None => None
              | Some typedAccommodation =>
                  match asString (field typedAccommodation "id") with
                  | Some accommodationId =>
                      if nonBlank accommodationId then
                        Some {|
                          Accommodation.id := accommodationId;
                          Accommodation.link :=
                            default "" (asString (field typedAccommodation "link"));
                          Accommodation.description :=
                            default "" (asString (field typedAccommodation "description"));
                          Accommodation.startDate :=
                            default "" (asString (field typedAccommodation "startDate"));
                          Accommodation.endDate :=
                            default "" (asString (field typedAccommodation "endDate"));
                          Accommodation.totalPrice :=
                            listPrice (field typedAccommodation "totalPrice")
                        |}
                      else None
                  | None => None
                  end
              end) l
  | _ => []
  end.

Definition normalizeDestinationCandidate (host : Host) (candidate : JValue)
  : Result (option Destination.t) :=
  match asObject candidate with
  | None => Ok None
  | Some parsed =>
      match asString (field parsed "id"), asString (field parsed "name") with
      | Some parsedId, Some parsedName =>
          if negb (nonBlank parsedId) || negb (nonBlank parsedName) then Ok None
          else
            match parseNumberValue (field parsed "latitude"),
                  parseNumberValue (field parsed "longitude") with
            | Some latitude, Some longitude =>
                let legacyDestination :=
                  {| id := parsedId;
                     name := parsedName;
                     latitude := latitude;
                     longitude := longitude;
                     notes := field parsed "notes";
                     extraCosts := field parsed "extraCosts";
                     budgetEstimator := field parsed "budgetEstimator";
                     flightDraft := field parsed "flightDraft";
                     accommodationDraft := field parsed "accommodationDraft";
                     flights := normalizeFlightList (field parsed "flights");
                     accommodations :=
                       normalizeAccommodationList (field parsed "accommodations") |} in
                normalized ← normalizeDestination host legacyDestination;
                Ok (Some normalized)
            | _, _ => Ok None
            end
      | _, _ => Ok None
      end
  end.

Definition normalizeSettings (candidate : JValue) (fallback : PlannerSettings.t)
  : PlannerSettings.t :=
  match asObject candidate with
  | None => fallback
  | Some parsed =>
      let totalBudget :=
        match asFinite (field parsed "totalBudget") with
        | Some q => if geb q 0 then q else PlannerSettings.totalBudget fallback
        | None => PlannerSettings.totalBudget fallback
        end in
      let peopleCount :=
        match asFinite (field parsed "peopleCount") with
        | Some q => if gtb q 0 then Math_floor q else PlannerSettings.peopleCount fallback
        | None => PlannerSettings.peopleCount fallback
        end in
      {| PlannerSettings.totalBudget := totalBudget;
         PlannerSettings.peopleCount := peopleCount |}
  end.

(** What [parseTripSyncPayload] returns when it does not return [null]. *)
Record ParsedPayload := mkParsed {
  destinations : list Destination.t;
  settings : PlannerSettings.t;
  remoteUpdatedAt : option Qc
}.

(** [hosts j] is the host as seen while destination [j] is normalized. *)
Definition parseTripSyncPayload (hosts : nat → Host) (payload : JValue)
    (fallbackSettings : PlannerSettings.t) : Result (option ParsedPayload) :=
  match asObject payload with
  | None => Ok None
  | Some typedPayload =>
      match field typedPayload "destinations" with
      | JArr candidates =>
          mapped ← mapM (λ x, x)
                     (imap (λ j destination,
                              normalizeDestinationCandidate (hosts j) destination)
                           candidates);
          let destinations := omap (λ x, x) mapped in
          if (0 <? length candidates)%nat && (length destinations =? 0)%nat
          then Ok None
          else Ok (Some {|
                 destinations := destinations;
                 settings := normalizeSettings (field typedPayload "settings") fallbackSettings;
                 remoteUpdatedAt :=
                   parseTimestamp (optProp (field typedPayload "meta") "updatedAt")
               |})
      | _ => Ok None
      end
  end.

End Normalize.

(** ** The validity checks and the repair of the stored destinations ([App.tsx]) *)

Module Validate.

Local Open Scope Qc_scope.

(** [l.some(f)] for a callback that can throw: the elements after the first
    hit are not looked at. *)
Fixpoint someM {A} (f : A → Result bool) (l : list A) : Result bool :=
  match l with
  | [] => Ok false
  | x :: l' => hit ← f x; if hit : bool then Ok true else someM f l'
  end.

(** [typeof v !== 'number' || !Number.isFinite(v) || v < 0] *)
Definition notAmount (v : JValue) : bool :=
  match asFinite v with
  | Some q => gtb 0 q
  | None => true
  end.

(** [typeof v !== 'number' || !Number.isFinite(v)] *)
Definition notFinite (v : JValue) : bool :=
  match asFinite v with Some _ => false | None => true end.

(** [typeof v !== 'string'] *)
Definition notString (v : JValue) : bool :=
  match asString v with Some _ => false | None => true end.

Definition hasInvalidExtraCosts (extraCosts : JValue) : Result bool :=
  match extraCosts with
  | JArr l =>
      someM (λ extraCost,
               d ← getProp extraCost "description";
               if notString d then Ok true
               else v ← getProp extraCost "value"; Ok (notAmount v)) l
  | _ => Ok true
  end.

Definition hasInvalidFlightAssignments (flightAssignments : JValue) : bool :=
  match asObject flightAssignments with
  | None => true
  | Some entries => existsb (λ entry, notAmount entry.2) (map_to_list entries)
  end.

Definition hasInvalidBudgetAttempts (attempts : JValue) : bool :=
  match attempts with
  | JArr l =>
      if (1 <? length l)%nat then true
      else
        existsb (λ attempt,
                   match asObject attempt with
                   | None => true
                   | Some typedAttempt =>
                       notString (field typedAttempt "id")
                       || notString (field typedAttempt "name")
                       || notFinite (field typedAttempt "createdAt")
                       || notString (field typedAttempt "selectedAccommodationId")
                       || hasInvalidFlightAssignments (field typedAttempt "flightAssignments")
                       || notFinite (field typedAttempt "totalCost")
                       || notFinite (field typedAttempt "remaining")
                       || notFinite (field typedAttempt "perPersonTotal")
                   end) l
  | _ => true
  end.

Definition hasInvalidBudgetEstimator (budgetEstimator : JValue) : bool :=
  match asObject budgetEstimator with
  | None => true
  | Some typedBudgetEstimator =>
      bool_decide (is_Some (typedBudgetEstimator !! "changeHistory"))
      || notString (field typedBudgetEstimator "selectedAccommodationId")
      || hasInvalidFlightAssignments (field typedBudgetEstimator "flightAssignments")
      || notString (field typedBudgetEstimator "fixedAttemptId")
      || hasInvalidBudgetAttempts (field typedBudgetEstimator "attempts")
  end.

(** The check of one entry of a draft, [priceKey] being its price property. *)
Definition invalidDraftEntry (priceKey : string) (entry : string * JValue) : bool :=
  if String.eqb entry.1 priceKey then notAmount entry.2
  else if String.eqb entry.1 "link" || String.eqb entry.1 "description"
          || String.eqb entry.1 "startDate" || String.eqb entry.1 "endDate"
       then notString entry.2
       else true.

Definition hasInvalidFlightDraft (flightDraft : JValue) : bool :=
  match asObject flightDraft with
  | None => true
  | Some typedDraft => existsb (invalidDraftEntry "pricePerPerson") (map_to_list typedDraft)
  end.

Definition hasInvalidAccommodationDraft (accommodationDraft : JValue) : bool :=
  match asObject accommodationDraft with
  | None => true
  | Some typedDraft => existsb (invalidDraftEntry "totalPrice") (map_to_list typedDraft)
  end.

(** The callback of [hasMissingFields]. *)
Definition missesFields (legacyDestination : Normalize.LegacyDestination) : Result bool :=
  if notString (Normalize.notes legacyDestination) then Ok true
  else
    invalidExtraCosts ← hasInvalidExtraCosts (Normalize.extraCosts legacyDestination);
    Ok (invalidExtraCosts
        || hasInvalidBudgetEstimator (Normalize.budgetEstimator legacyDestination)
        || hasInvalidFlightDraft (Normalize.flightDraft legacyDestination)
        || hasInvalidAccommodationDraft (Normalize.accommodationDraft legacyDestination)).

(** The effect that repairs the stored destinations: the list it stores, or
    [None] when it stores nothing.  [hosts j] is the host as seen while
    destination [j] is normalized. *)
Definition repairEffect (hosts : nat → Host) (destinations : list Normalize.LegacyDestination)
  : Result (option (list Destination.t)) :=
  hasMissingFields ← someM missesFields destinations;
  if hasMissingFields : bool then
    repaired ← mapM (λ x, x)
                 (imap (λ j destination, Normalize.normalizeDestination (hosts j) destination)
                       destinations);
    Ok (Some repaired)
  else Ok None.

End Validate.

(** ** The budget panel ([components/BudgetCalculator.tsx]) *)

Module BudgetCalculator.

Local Open Scope Qc_scope.

Record Props := mkProps {
  flights : list Flight.t;
  accommodations : list Accommodation.t;
  settings : PlannerSettings.t;
  extraCosts : list ExtraCost.t;
  flightAssignments : gmap string Qc;
  selectedAccommodationId : string;
  attempts : list BudgetAttempt.t;
  fixedAttemptId : string
}.

(** A call of one of the [on...Change] properties. *)
Inductive Callback :=
  | onExtraCostsChange (value : list ExtraCost.t)
  | onFlightAssignmentsChange (value : gmap string Qc)
  | onSelectedAccommodationChange (value : string)
  | onAttemptsChange (value : list BudgetAttempt.t)
  | onFixedAttemptIdChange (value : string).

Definition snapshot (props : Props) : Budget.BudgetSnapshot :=
  Budget.calculateBudgetSnapshot
    {| Budget.flights := flights props;
       Budget.accommodations := accommodations props;
       Budget.flightAssignments := flightAssignments props;
       Budget.selectedAccommodationId := selectedAccommodationId props;
       Budget.extraCosts := extraCosts props;
       Budget.settings := settings props |}.

(** [attempts.find(...) ?? attempts[0] ?? null] *)
Definition savedAttempt (props : Props) : option BudgetAttempt.t :=
  match find (λ attempt, String.eqb (BudgetAttempt.id attempt) (fixedAttemptId props))
             (attempts props) with
  | Some attempt => Some attempt
  | None => head (attempts props)
  end.

Definition handleAssignmentChange (props : Props) (flightId : string) (count : Qc)
  : list Callback :=
  if gtb 0 count then []
  else
    let nextAssignments :=
      if bool_decide (count = 0)
      then delete flightId (flightAssignments props)
      else <[flightId := count]> (flightAssignments props) in
    [onFlightAssignmentsChange nextAssignments].

(** [newId] is what [createAttemptId()] returns, [now] what [Date.now()] does. *)
Definition saveBaseline (newId : string) (now : Qc) (props : Props) : list Callback :=
  match savedAttempt props with
  | Some _ => []
  | None =>
      let newAttempt :=
        {| BudgetAttempt.id := newId;
           BudgetAttempt.name := "Saved baseline";
           BudgetAttempt.createdAt := now;
           BudgetAttempt.flightAssignments := flightAssignments props;
           BudgetAttempt.selectedAccommodationId := selectedAccommodationId props;
           BudgetAttempt.totalCost := Budget.totalCost (snapshot props);
           BudgetAttempt.remaining := Budget.remaining (snapshot props);
           BudgetAttempt.perPersonTotal := Budget.perPersonTotal (snapshot props) |} in
      [onAttemptsChange [newAttempt]; onFixedAttemptIdChange (BudgetAttempt.id newAttempt)]
  end.

Definition applySavedBaseline (props : Props) : list Callback :=
  match savedAttempt props with
  | None => []
  | Some saved =>
      [onFlightAssignmentsChange (BudgetAttempt.flightAssignments saved);
       onSelectedAccommodationChange (BudgetAttempt.selectedAccommodationId saved)]
  end.

Definition replaceSavedWithCurrent (now : Qc) (props : Props) : list Callback :=
  match savedAttempt props with
  | None => []
  | Some saved =>
      let updatedAttempt :=
        {| BudgetAttempt.id := BudgetAttempt.id saved;
           BudgetAttempt.name := "Saved baseline";
           BudgetAttempt.createdAt := now;
           BudgetAttempt.flightAssignments := flightAssignments props;
           BudgetAttempt.selectedAccommodationId := selectedAccommodationId props;
           BudgetAttempt.totalCost := Budget.totalCost (snapshot props);
           BudgetAttempt.remaining := Budget.remaining (snapshot props);
           BudgetAttempt.perPersonTotal := Budget.perPersonTotal (snapshot props) |} in
      [onAttemptsChange [updatedAttempt];
       onFixedAttemptIdChange (BudgetAttempt.id updatedAttempt)]
  end.

Definition clearSavedBaseline (props : Props) : list Callback :=
  [onAttemptsChange []; onFixedAttemptIdChange ""].

Definition areAssignmentsEqual (left right : gmap string Qc) : bool :=
  let leftEntries := List.filter (λ '(_, count), gtb count 0) (map_to_list left) in
  let rightEntries := List.filter (λ '(_, count), gtb count 0) (map_to_list right) in
  if negb (length leftEntries =? length rightEntries)%nat then false
  else forallb (λ '(flightId, count), bool_decide (right !! flightId = Some count))
               leftEntries.

Definition hasUnsavedChanges (props : Props) : bool :=
  match savedAttempt props with
  | Some saved =>
      negb (String.eqb (BudgetAttempt.selectedAccommodationId saved)
                       (selectedAccommodationId props))
      || negb (areAssignmentsEqual (BudgetAttempt.flightAssignments saved)
                                   (flightAssignments props))
      || negb (bool_decide (BudgetAttempt.totalCost saved = Budget.totalCost (snapshot props)))
  | None => false
  end.

Definition handleAddExtraCost (props : Props) : list Callback :=
  [onExtraCostsChange
     (extraCosts props ++ [ {| ExtraCost.description := ""; ExtraCost.value := 0 |} ])].

(** [Partial<ExtraCost>] *)
Record ExtraCostUpdates := mkUpdates {
  newDescription : option string;
  newValue : option Qc
}.

Definition handleExtraCostChange (props : Props) (index : nat) (updates : ExtraCostUpdates)
  : list Callback :=
  let updatedExtraCosts :=
    imap (λ currentIndex extraCost,
            if negb (currentIndex =? index)%nat then extraCost
            else {| ExtraCost.description :=
                      default (ExtraCost.description extraCost) (newDescription updates);
                    ExtraCost.value :=
                      default (ExtraCost.value extraCost) (newValue updates) |})
         (extraCosts props) in
  [onExtraCostsChange updatedExtraCosts].

Definition handleRemoveExtraCost (props : Props) (index : nat) : list Callback :=
  [onExtraCostsChange
     (omap (λ x, x)
        (imap (λ currentIndex extraCost,
                 if negb (currentIndex =? index)%nat then Some extraCost else None)
              (extraCosts props)))].

End BudgetCalculator.

(** ** The document reconciler ([components/DestinationView.tsx]) *)

Module DestinationView.

Local Open Scope Qc_scope.

(** An updater, as handed to [onUpdate(destination.id, updater)]. *)
Definition Updater := Destination.t → Destination.t.

Definition withBudgetEstimator (d : Destination.t) (b : BudgetEstimatorState.t)
  : Destination.t :=
  {| Destination.id := Destination.id d;
     Destination.name := Destination.name d;
     Destination.latitude := Destination.latitude d;
     Destination.longitude := Destination.longitude d;
     Destination.notes := Destination.notes d;
     Destination.extraCosts := Destination.extraCosts d;
     Destination.budgetEstimator := b;
     Destination.flightDraft := Destination.flightDraft d;
     Destination.accommodationDraft := Destination.accommodationDraft d;
     Destination.flights := Destination.flights d;
     Destination.accommodations := Destination.accommodations d |}.

(** The [reduce] that copies the entries whose key is a valid flight id. *)
Definition keepValid (validFlightIds : gset string) (assignments : gmap string Qc)
  : gmap string Qc :=
  foldl (λ acc '(flightId, count),
           if bool_decide (flightId ∈ validFlightIds)
           then <[flightId := count]> acc else acc)
        ∅ (map_to_list assignments).

Definition handleFlightsChange (settings : PlannerSettings.t) (flights : list Flight.t)
  : Updater := λ currentDestination,
  let estimator := Destination.budgetEstimator currentDestination in
  let validFlightIds : gset string := list_to_set (Flight.id <$> flights) in
  let nextFlightAssignments :=
    keepValid validFlightIds (BudgetEstimatorState.flightAssignments estimator) in
  let nextAttempts :=
    (λ attempt,
       let nextAttemptAssignments :=
         keepValid validFlightIds (BudgetAttempt.flightAssignments attempt) in
       let nextSnapshot :=
         Budget.calculateBudgetSnapshot
           {| Budget.flights := flights;
              Budget.accommodations := Destination.accommodations currentDestination;
              Budget.flightAssignments := nextAttemptAssignments;
              Budget.selectedAccommodationId :=
                BudgetAttempt.selectedAccommodationId attempt;
              Budget.extraCosts := Destination.extraCosts currentDestination;
              Budget.settings := settings |} in
       {| BudgetAttempt.id := BudgetAttempt.id attempt;
          BudgetAttempt.name := BudgetAttempt.name attempt;
          BudgetAttempt.createdAt := BudgetAttempt.createdAt attempt;
          BudgetAttempt.flightAssignments := nextAttemptAssignments;
          BudgetAttempt.selectedAccommodationId :=
            BudgetAttempt.selectedAccommodationId attempt;
          BudgetAttempt.totalCost := Budget.totalCost nextSnapshot;
          BudgetAttempt.remaining := Budget.remaining nextSnapshot;
          BudgetAttempt.perPersonTotal := Budget.perPersonTotal nextSnapshot |})
    <$> take 1 (BudgetEstimatorState.attempts estimator) in
  let fixedAttemptId := orEmpty (BudgetAttempt.id <$> head nextAttempts) in
  {| Destination.id := Destination.id currentDestination;
     Destination.name := Destination.name currentDestination;
     Destination.latitude := Destination.latitude currentDestination;
     Destination.longitude := Destination.longitude currentDestination;
     Destination.notes := Destination.notes currentDestination;
     Destination.extraCosts := Destination.extraCosts currentDestination;
     Destination.budgetEstimator :=
       {| BudgetEstimatorState.flightAssignments := nextFlightAssignments;
          BudgetEstimatorState.selectedAccommodationId :=
            BudgetEstimatorState.selectedAccommodationId estimator;
          BudgetEstimatorState.fixedAttemptId := fixedAttemptId;
          BudgetEstimatorState.attempts := nextAttempts |};
     Destination.flightDraft := Destination.flightDraft currentDestination;
     Destination.accommodationDraft := Destination.accommodationDraft currentDestination;
     Destination.flights := flights;
     Destination.accommodations := Destination.accommodations currentDestination |}.

Definition handleAccChange (settings : PlannerSettings.t)
    (accommodations : list Accommodation.t) : Updater := λ currentDestination,
  let estimator := Destination.budgetEstimator currentDestination in
  let selectedAccommodationId :=
    if existsb (λ accommodation,
                  String.eqb (Accommodation.id accommodation)
                             (BudgetEstimatorState.selectedAccommodationId estimator))
               accommodations
    then BudgetEstimatorState.selectedAccommodationId estimator
    else "" in
  let validAccommodationIds : gset string :=
    list_to_set (Accommodation.id <$> accommodations) in
  let nextAttempts :=
    (λ attempt,
       let nextAttemptAccommodationId :=
         if bool_decide (BudgetAttempt.selectedAccommodationId attempt ∈ validAccommodationIds)
         then BudgetAttempt.selectedAccommodationId attempt
         else "" in
       let nextSnapshot :=
         Budget.calculateBudgetSnapshot
           {| Budget.flights := Destination.flights currentDestination;
              Budget.accommodations := accommodations;
              Budget.flightAssignments := BudgetAttempt.flightAssignments attempt;
              Budget.selectedAccommodationId := nextAttemptAccommodationId;
              Budget.extraCosts := Destination.extraCosts currentDestination;
              Budget.settings := settings |} in
       {| BudgetAttempt.id := BudgetAttempt.id attempt;
          BudgetAttempt.name := BudgetAttempt.name attempt;
          BudgetAttempt.createdAt := BudgetAttempt.createdAt attempt;
          BudgetAttempt.flightAssignments := BudgetAttempt.flightAssignments attempt;
          BudgetAttempt.selectedAccommodationId := nextAttemptAccommodationId;
          BudgetAttempt.totalCost := Budget.totalCost nextSnapshot;
          BudgetAttempt.remaining := Budget.remaining nextSnapshot;
          BudgetAttempt.perPersonTotal := Budget.perPersonTotal nextSnapshot |})
    <$> take 1 (BudgetEstimatorState.attempts estimator) in
  let fixedAttemptId := orEmpty (BudgetAttempt.id <$> head nextAttempts) in
  {| Destination.id := Destination.id currentDestination;
     Destination.name := Destination.name currentDestination;
     Destination.latitude := Destination.latitude currentDestination;
     Destination.longitude := Destination.longitude currentDestination;
     Destination.notes := Destination.notes currentDestination;
     Destination.extraCosts := Destination.extraCosts currentDestination;
     Destination.budgetEstimator :=
       {| BudgetEstimatorState.flightAssignments :=
            BudgetEstimatorState.flightAssignments estimator;
          BudgetEstimatorState.selectedAccommodationId := selectedAccommodationId;
          BudgetEstimatorState.fixedAttemptId := fixedAttemptId;
          BudgetEstimatorState.attempts := nextAttempts |};
     Destination.flightDraft := Destination.flightDraft currentDestination;
     Destination.accommodationDraft := Destination.accommodationDraft currentDestination;
     Destination.flights := Destination.flights currentDestination;
     Destination.accommodations := accommodations |}.

Definition handleExtraCostsChange (extraCosts : list ExtraCost.t) : Updater :=
  λ currentDestination,
  {| Destination.id := Destination.id currentDestination;
     Destination.name := Destination.name currentDestination;
     Destination.latitude := Destination.latitude currentDestination;
     Destination.longitude := Destination.longitude currentDestination;
     Destination.notes := Destination.notes currentDestination;
     Destination.extraCosts := extraCosts;
     Destination.budgetEstimator := Destination.budgetEstimator currentDestination;
     Destination.flightDraft := Destination.flightDraft currentDestination;
     Destination.accommodationDraft := Destination.accommodationDraft currentDestination;
     Destination.flights := Destination.flights currentDestination;
     Destination.accommodations := Destination.accommodations currentDestination |}.

Definition handleFlightAssignmentsChange (flightAssignments : gmap string Qc) : Updater :=
  λ currentDestination,
  let estimator := Destination.budgetEstimator currentDestination in
  withBudgetEstimator currentDestination
    {| BudgetEstimatorState.flightAssignments := flightAssignments;
       BudgetEstimatorState.selectedAccommodationId :=
         BudgetEstimatorState.selectedAccommodationId estimator;
       BudgetEstimatorState.fixedAttemptId := BudgetEstimatorState.fixedAttemptId estimator;
       BudgetEstimatorState.attempts := BudgetEstimatorState.attempts estimator |}.

Definition handleSelectedAccommodationChange (selectedAccommodationId : string) : Updater :=
  λ currentDestination,
  let estimator := Destination.budgetEstimator currentDestination in
  withBudgetEstimator currentDestination
    {| BudgetEstimatorState.flightAssignments :=
         BudgetEstimatorState.flightAssignments estimator;
       BudgetEstimatorState.selectedAccommodationId := selectedAccommodationId;
       BudgetEstimatorState.fixedAttemptId := BudgetEstimatorState.fixedAttemptId estimator;
       BudgetEstimatorState.attempts := BudgetEstimatorState.attempts estimator |}.

Definition handleAttemptsChange (attempts : list BudgetAttempt.t) : Updater :=
  let nextAttempts := take 1 attempts in
  λ currentDestination,
  let estimator := Destination.budgetEstimator currentDestination in
  withBudgetEstimator currentDestination
    {| BudgetEstimatorState.flightAssignments :=
         BudgetEstimatorState.flightAssignments estimator;
       BudgetEstimatorState.selectedAccommodationId :=
         BudgetEstimatorState.selectedAccommodationId estimator;
       BudgetEstimatorState.fixedAttemptId :=
         orEmpty (BudgetAttempt.id <$> head nextAttempts);
       BudgetEstimatorState.attempts := nextAttempts |}.

Definition handleFixedAttemptIdChange (fixedAttemptId : string) : Updater :=
  λ currentDestination,
  let estimator := Destination.budgetEstimator currentDestination in
  withBudgetEstimator currentDestination
    {| BudgetEstimatorState.flightAssignments :=
         BudgetEstimatorState.flightAssignments estimator;
       BudgetEstimatorState.selectedAccommodationId :=
         BudgetEstimatorState.selectedAccommodationId estimator;
       BudgetEstimatorState.fixedAttemptId :=
         if negb (String.eqb fixedAttemptId "")
            && existsb (λ attempt, String.eqb (BudgetAttempt.id attempt) fixedAttemptId)
                       (BudgetEstimatorState.attempts estimator)
         then fixedAttemptId else "";
       BudgetEstimatorState.attempts := BudgetEstimatorState.attempts estimator |}.

(** The properties the view hands to the budget panel. *)
Definition budgetCalculatorProps (settings : PlannerSettings.t) (destination : Destination.t)
  : BudgetCalculator.Props :=
  let estimator := Destination.budgetEstimator destination in
  {| BudgetCalculator.flights := Destination.flights destination;
     BudgetCalculator.accommodations := Destination.accommodations destination;
     BudgetCalculator.settings := settings;
     BudgetCalculator.extraCosts := Destination.extraCosts destination;
     BudgetCalculator.flightAssignments := BudgetEstimatorState.flightAssignments estimator;
     BudgetCalculator.selectedAccommodationId :=
       BudgetEstimatorState.selectedAccommodationId estimator;
     BudgetCalculator.attempts := BudgetEstimatorState.attempts estimator;
     BudgetCalculator.fixedAttemptId := BudgetEstimatorState.fixedAttemptId estimator |}.

(** The handler each callback of the panel is bound to. *)
Definition handler (callback : BudgetCalculator.Callback) : Updater :=
  match callback with
  | BudgetCalculator.onExtraCostsChange v => handleExtraCostsChange v
  | BudgetCalculator.onFlightAssignmentsChange v => handleFlightAssignmentsChange v
  | BudgetCalculator.onSelectedAccommodationChange v => handleSelectedAccommodationChange v
  | BudgetCalculator.onAttemptsChange v => handleAttemptsChange v
  | BudgetCalculator.onFixedAttemptIdChange v => handleFixedAttemptIdChange v
  end.

Definition handleNotesChange (notes : string) : Updater := λ currentDestination,
  {| Destination.id := Destination.id currentDestination;
     Destination.name := Destination.name currentDestination;
     Destination.latitude := Destination.latitude currentDestination;
     Destination.longitude := Destination.longitude currentDestination;
     Destination.notes := notes;
     Destination.extraCosts := Destination.extraCosts currentDestination;
     Destination.budgetEstimator := Destination.budgetEstimator currentDestination;
     Destination.flightDraft := Destination.flightDraft currentDestination;
     Destination.accommodationDraft := Destination.accommodationDraft currentDestination;
     Destination.flights := Destination.flights currentDestination;
     Destination.accommodations := Destination.accommodations currentDestination |}.

Definition handleFlightDraftChange (flightDraft : FlightDraft.t) : Updater :=
  λ currentDestination,
  {| Destination.id := Destination.id currentDestination;
     Destination.name := Destination.name currentDestination;
     Destination.latitude := Destination.latitude currentDestination;
     Destination.longitude := Destination.longitude currentDestination;
     Destination.notes := Destination.notes currentDestination;
     Destination.extraCosts := Destination.extraCosts currentDestination;
     Destination.budgetEstimator := Destination.budgetEstimator currentDestination;
     Destination.flightDraft := flightDraft;
     Destination.accommodationDraft := Destination.accommodationDraft currentDestination;
     Destination.flights := Destination.flights currentDestination;
     Destination.accommodations := Destination.accommodations currentDestination |}.

Definition handleAccommodationDraftChange (accommodationDraft : AccommodationDraft.t)
  : Updater := λ currentDestination,
  {| Destination.id := Destination.id currentDestination;
     Destination.name := Destination.name currentDestination;
     Destination.latitude := Destination.latitude currentDestination;
     Destination.longitude := Destination.longitude currentDestination;
     Destination.notes := Destination.notes currentDestination;
     Destination.extraCosts := Destination.extraCosts currentDestination;
     Destination.budgetEstimator := Destination.budgetEstimator currentDestination;
     Destination.flightDraft := Destination.flightDraft currentDestination;
     Destination.accommodationDraft := accommodationDraft;
     Destination.flights := Destination.flights currentDestination;
     Destination.accommodations := Destination.accommodations currentDestination |}.

Definition budgetSnapshot (settings : PlannerSettings.t) (destination : Destination.t)
  : Budget.BudgetSnapshot :=
  Budget.calculateBudgetSnapshot
    {| Budget.flights := Destination.flights destination;
       Budget.accommodations := Destination.accommodations destination;
       Budget.flightAssignments :=
         BudgetEstimatorState.flightAssignments (Destination.budgetEstimator destination);
       Budget.selectedAccommodationId :=
         BudgetEstimatorState.selectedAccommodationId (Destination.budgetEstimator destination);
       Budget.extraCosts := Destination.extraCosts destination;
       Budget.settings := settings |}.

(** [[...l].sort((a, b) => key(a) - key(b))]: the sort is stable, so an
    element goes in front of the first later element whose key is not
    smaller. *)
Fixpoint insertBy {A} (key : A → Qc) (x : A) (sorted : list A) : list A :=
  match sorted with
  | [] => [x]
  | y :: rest =>
      if geb (key y) (key x) then x :: sorted else y :: insertBy key x rest
  end.

Definition sortBy {A} (key : A → Qc) (l : list A) : list A :=
  foldr (insertBy key) [] l.

Definition cheapestFlight (destination : Destination.t) : option Flight.t :=
  head (sortBy Flight.pricePerPerson (Destination.flights destination)).

Definition cheapestAccommodation (destination : Destination.t) : option Accommodation.t :=
  head (sortBy Accommodation.totalPrice (Destination.accommodations destination)).

Record FlightsSummary := mkSummary {
  assignedTravelers : Qc;
  optionCount : nat;
  averagePerPerson : Qc
}.

(** [assignedFlights]: the [map] pairs each count with the flight its key
    names, the [filter] keeps the pairs that have a flight and a count [> 0]. *)
Definition assignedFlights (destination : Destination.t) : list (Flight.t * Qc) :=
  omap (λ '(flightId, count),
          match find (λ flight, String.eqb (Flight.id flight) flightId)
                     (Destination.flights destination) with
          | Some flight => if gtb count 0 then Some (flight, count) else None
          | None => None
          end)
       (map_to_list
          (BudgetEstimatorState.flightAssignments (Destination.budgetEstimator destination))).

Definition assignedFlightsSummary (destination : Destination.t) : FlightsSummary :=
  let assigned := assignedFlights destination in
  let assignedTravelers := foldl (λ total entry, total + entry.2) 0 assigned in
  let weightedTotal :=
    foldl (λ total entry, total + Flight.pricePerPerson entry.1 * entry.2) 0 assigned in
  {| assignedTravelers := assignedTravelers;
     optionCount := length assigned;
     averagePerPerson :=
       if gtb assignedTravelers 0 then weightedTotal / assignedTravelers else 0 |}.

End DestinationView.

(** ** The option managers ([components/FlightManager.tsx],
       [components/AccommodationManager.tsx]) *)

Module Bulk.

(** [s.split(c)] for a separator of one character. *)
Fixpoint split (separator : ascii) (s : string) : list string :=
  match s with
  | EmptyString => [EmptyString]
  | String c s' =>
      if Ascii.eqb c separator then EmptyString :: split separator s'
      else match split separator s' with
           | part :: parts => String c part :: parts
           | [] => [String c EmptyString]
           end
  end.

(** One line of a bulk input, before the price is looked at. *)
Record Row := mkRow {
  lineNumber : nat;
  description : string;
  rawPrice : string;
  link : string;
  startDate : string;
  endDate : string
}.

(** The lines that are not blank, trimmed and numbered from 1, each cut at
    its commas into trimmed parts; a part that is missing is ['']. *)
Definition rows (bulkInput : string) : list Row :=
  omap (λ x, x)
    (imap (λ index line,
             let line := trim line in
             if String.eqb line "" then None
             else
               let parts := trim <$> split "," line in
               Some {| lineNumber := index + 1;
                       description := default "" (parts !! 0%nat);
                       rawPrice := default "" (parts !! 1%nat);
                       link := default "" (parts !! 2%nat);
                       startDate := default "" (parts !! 3%nat);
                       endDate := default "" (parts !! 4%nat) |})
          (split "010" bulkInput)).

(** [!link || !Number.isFinite(price) || price <= 0] *)
Definition rejected (link : string) (price : JNumber) : bool :=
  String.eqb link ""
  || match price with
     | JFinite q => geb 0 q
     | _ => true
     end.

(** [Number.isFinite(price) ? price : 0] *)
Definition finiteOrZero (price : JNumber) : Qc :=
  match price with JFinite q => q | _ => 0%Qc end.

Definition expected : string := "Expected: description, price, link, startDate, endDate".

End Bulk.

Module FlightManager.

Local Open Scope Qc_scope.

Record Props := mkProps {
  flights : list Flight.t;
  draft : FlightDraft.t
}.

Inductive Callback :=
  | onChange (flights : list Flight.t)
  | onDraftChange (draft : FlightDraft.t).

Record ParsedBulkFlight := mkParsed {
  lineNumber : nat;
  description : string;
  pricePerPerson : Qc;
  link : string;
  startDate : string;
  endDate : string;
  error : string
}.

Definition parseBulkFlights (bulkInput : string) : list ParsedBulkFlight :=
  (λ row,
     let pricePerPerson := stringToNumber (Bulk.rawPrice row) in
     {| lineNumber := Bulk.lineNumber row;
        description := Bulk.description row;
        pricePerPerson := Bulk.finiteOrZero pricePerPerson;
        link := Bulk.link row;
        startDate := Bulk.startDate row;
        endDate := Bulk.endDate row;
        error := if Bulk.rejected (Bulk.link row) pricePerPerson then Bulk.expected else "" |})
  <$> Bulk.rows bulkInput.

(** [newId] is what [uuidv4()] returns. *)
Definition handleAdd (newId : string) (props : Props) : list Callback :=
  match FlightDraft.link (draft props), FlightDraft.pricePerPerson (draft props) with
  | Some draftLink, Some draftPrice =>
      if negb (String.eqb draftLink "") && gtb draftPrice 0 then
        let flight :=
          {| Flight.id := newId;
             Flight.link := draftLink;
             Flight.description := orEmpty (FlightDraft.description (draft props));
             Flight.startDate := orEmpty (FlightDraft.startDate (draft props));
             Flight.endDate := orEmpty (FlightDraft.endDate (draft props));
             Flight.pricePerPerson := draftPrice |} in
        [onChange (flights props ++ [flight]);
         onDraftChange (FlightDraft.mk None None None None None)]
      else []
  | _, _ => []
  end.

Definition handleRemove (props : Props) (id : string) : list Callback :=
  [onChange (List.filter (λ flight, negb (String.eqb (Flight.id flight) id)) (flights props))].

Definition handleDuplicate (newId : string) (props : Props) (flight : Flight.t)
  : list Callback :=
  [onChange
     (flights props ++
      [ {| Flight.id := newId;
           Flight.link := Flight.link flight;
           Flight.description :=
             if String.eqb (Flight.description flight) "" then "Flight Option (Copy)"
             else Flight.description flight +:+ " (Copy)";
           Flight.startDate := Flight.startDate flight;
           Flight.endDate := Flight.endDate flight;
           Flight.pricePerPerson := Flight.pricePerPerson flight |} ])].

(** [newIds i] is what [uuidv4()] returns for the valid row of index [i]. *)
Definition handleBulkImport (newIds : nat → string) (props : Props) (bulkInput : string)
  : list Callback :=
  let validBulkFlights :=
    List.filter (λ row, String.eqb (error row) "") (parseBulkFlights bulkInput) in
  if (length validBulkFlights =? 0)%nat then []
  else
    let importedFlights :=
      imap (λ i row,
              {| Flight.id := newIds i;
                 Flight.link := link row;
                 Flight.description := description row;
                 Flight.startDate := startDate row;
                 Flight.endDate := endDate row;
                 Flight.pricePerPerson := pricePerPerson row |})
           validBulkFlights in
    [onChange (flights props ++ importedFlights)].

(** [Partial<Flight>] as the edit form holds it. *)
Record EditForm := mkForm {
  formId : option string;
  formLink : option string;
  formDescription : option string;
  formStartDate : option string;
  formEndDate : option string;
  formPrice : option Qc
}.

(** [startEdit]: the id under edit and the form. *)
Definition startEdit (flight : Flight.t) : option string * EditForm :=
  (Some (Flight.id flight),
   {| formId := Some (Flight.id flight);
      formLink := Some (Flight.link flight);
      formDescription := Some (Flight.description flight);
      formStartDate := Some (Flight.startDate flight);
      formEndDate := Some (Flight.endDate flight);
      formPrice := Some (Flight.pricePerPerson flight) |}).

(** [setEditForm({ ...editForm, pricePerPerson: Number(e.target.value) })]
    for a text that reads as the finite number [price]. *)
Definition editPrice (price : Qc) (editForm : EditForm) : EditForm :=
  {| formId := formId editForm;
     formLink := formLink editForm;
     formDescription := formDescription editForm;
     formStartDate := formStartDate editForm;
     formEndDate := formEndDate editForm;
     formPrice := Some price |}.

Definition saveEdit (editingId : option string) (editForm : EditForm) (props : Props)
  : list Callback :=
  match editingId, formLink editForm, formPrice editForm with
  | Some editing, Some formLink', Some formPrice' =>
      if negb (String.eqb editing "") && negb (String.eqb formLink' "")
         && negb (bool_decide (formPrice' = 0))
      then
        let updatedFlights :=
          (λ flight,
             if negb (String.eqb (Flight.id flight) editing) then flight
             else {| Flight.id := default (Flight.id flight) (formId editForm);
                     Flight.link := formLink';
                     Flight.description :=
                       default (Flight.description flight) (formDescription editForm);
                     Flight.startDate :=
                       default (Flight.startDate flight) (formStartDate editForm);
                     Flight.endDate := default (Flight.endDate flight) (formEndDate editForm);
                     Flight.pricePerPerson := formPrice' |})
          <$> flights props in
        [onChange updatedFlights]
      else []
  | _, _, _ => []
  end.

End FlightManager.

Module AccommodationManager.

Local Open Scope Qc_scope.

Record Props := mkProps {
  accommodations : list Accommodation.t;
  draft : AccommodationDraft.t
}.

Inductive Callback :=
  | onChange (accommodations : list Accommodation.t)
  | onDraftChange (draft : AccommodationDraft.t).

Record ParsedBulkAccommodation := mkParsed {
  lineNumber : nat;
  description : string;
  totalPrice : Qc;
  link : string;
  startDate : string;
  endDate : string;
  error : string
}.

Definition parseBulkAccommodations (bulkInput : string) : list ParsedBulkAccommodation :=
  (λ row,
     let totalPrice := stringToNumber (Bulk.rawPrice row) in
     {| lineNumber := Bulk.lineNumber row;
        description := Bulk.description row;
        totalPrice := Bulk.finiteOrZero totalPrice;
        link := Bulk.link row;
        startDate := Bulk.startDate row;
        endDate := Bulk.endDate row;
        error := if Bulk.rejected (Bulk.link row) totalPrice then Bulk.expected else "" |})
  <$> Bulk.rows bulkInput.

Definition handleAdd (newId : string) (props : Props) : list Callback :=
  match AccommodationDraft.link (draft props), AccommodationDraft.totalPrice (draft props) with
  | Some draftLink, Some draftPrice =>
      if negb (String.eqb draftLink "") && gtb draftPrice 0 then
        let acc :=
          {| Accommodation.id := newId;
             Accommodation.link := draftLink;
             Accommodation.description := orEmpty (AccommodationDraft.description (draft props));
             Accommodation.totalPrice := draftPrice;
             Accommodation.startDate := orEmpty (AccommodationDraft.startDate (draft props));
             Accommodation.endDate := orEmpty (AccommodationDraft.endDate (draft props)) |} in
        [onChange (accommodations props ++ [acc]);
         onDraftChange (AccommodationDraft.mk None None None None None)]
      else []
  | _, _ => []
  end.

Definition handleRemove (props : Props) (id : string) : list Callback :=
  [onChange (List.filter (λ accommodation, negb (String.eqb (Accommodation.id accommodation) id))
                         (accommodations props))].

Definition handleDuplicate (newId : string) (props : Props) (accommodation : Accommodation.t)
  : list Callback :=
  [onChange
     (accommodations props ++
      [ {| Accommodation.id := newId;
           Accommodation.link := Accommodation.link accommodation;
           Accommodation.description :=
             if String.eqb (Accommodation.description accommodation) ""
             then "Accommodation (Copy)"
             else Accommodation.description accommodation +:+ " (Copy)";
           Accommodation.totalPrice := Accommodation.totalPrice accommodation;
           Accommodation.startDate := Accommodation.startDate accommodation;
           Accommodation.endDate := Accommodation.endDate accommodation |} ])].

Definition handleBulkImport (newIds : nat → string) (props : Props) (bulkInput : string)
  : list Callback :=
  let validBulkAccommodations :=
    List.filter (λ row, String.eqb (error row) "") (parseBulkAccommodations bulkInput) in
  if (length validBulkAccommodations =? 0)%nat then []
  else
    let importedAccommodations :=
      imap (λ i row,
              {| Accommodation.id := newIds i;
                 Accommodation.link := link row;
                 Accommodation.description := description row;
                 Accommodation.totalPrice := totalPrice row;
                 Accommodation.startDate := startDate row;
                 Accommodation.endDate := endDate row |})
           validBulkAccommodations in
    [onChange (accommodations props ++ importedAccommodations)].

End AccommodationManager.

(** The handler each callback of a manager is bound to in the view. *)
Definition flightManagerHandler (settings : PlannerSettings.t)
    (callback : FlightManager.Callback) : DestinationView.Updater :=
  match callback with
  | FlightManager.onChange flights => DestinationView.handleFlightsChange settings flights
  | FlightManager.onDraftChange draft => DestinationView.handleFlightDraftChange draft
  end.

Definition accommodationManagerHandler (settings : PlannerSettings.t)
    (callback : AccommodationManager.Callback) : DestinationView.Updater :=
  match callback with
  | AccommodationManager.onChange accommodations =>
      DestinationView.handleAccChange settings accommodations
  | AccommodationManager.onDraftChange draft =>
      DestinationView.handleAccommodationDraftChange draft
  end.

(** The properties the view hands to the managers. *)
Definition flightManagerProps (destination : Destination.t) : FlightManager.Props :=
  {| FlightManager.flights := Destination.flights destination;
     FlightManager.draft := Destination.flightDraft destination |}.

Definition accommodationManagerProps (destination : Destination.t)
  : AccommodationManager.Props :=
  {| AccommodationManager.accommodations := Destination.accommodations destination;
     AccommodationManager.draft := Destination.accommodationDraft destination |}.

(** ** The planner store and manual trip sync ([App.tsx]) *)

Module App.

Local Open Scope Qc_scope.

Definition TRIP_CODE_MIN_LENGTH : nat := 4.
Definition TRIP_CODE_MAX_LENGTH : nat := 12.

Definition toUpperCase (c : ascii) : ascii :=
  let n := nat_of_ascii c in
  if (97 <=? n)%nat && (n <=? 122)%nat then ascii_of_nat (n - 32) else c.

(** [[A-Z0-9]] *)
Definition isCodeCharacter (c : ascii) : bool :=
  let n := nat_of_ascii c in
  ((65 <=? n)%nat && (n <=? 90)%nat) || ((48 <=? n)%nat && (n <=? 57)%nat).

Definition normalizeTripCode (value : string) : string :=
  string_of_list_ascii
    (take TRIP_CODE_MAX_LENGTH
       (List.filter isCodeCharacter (toUpperCase <$> list_ascii_of_string value))).

Inductive SyncStatusKind := neutral | success | warning | error.

Record SyncStatus := mkStatus { kind : SyncStatusKind; message : string }.

(** The state of the component, with the entries it keeps in the local store. *)
Record State := mkState {
  destinations : list Destination.t;
  settings : PlannerSettings.t;
  tripCode : string;
  lastKnownRemoteByCode : gmap string Qc;
  lastLocalPushByCode : gmap string Qc;
  syncStatus : SyncStatus;
  isPushing : bool;
  latestRemoteUpdatedAt : option Qc;
  syncClientId : string
}.

Definition handleUpdateDestination (destinationId : string)
    (updater : DestinationView.Updater) (previousDestinations : list Destination.t)
  : list Destination.t :=
  (λ destination,
     if String.eqb (Destination.id destination) destinationId
     then updater destination else destination) <$> previousDestinations.

(** What one run of a sync handler meets outside the component: whether
    sync is configured, the documents of the remote store by path, whether
    the read and the write are rejected, what the user answers to
    [window.confirm], and the clock. *)
Record World := mkWorld {
  isTripSyncAvailable : bool;
  remote : gmap string JValue;
  getRejects : bool;
  confirmAnswer : bool;
  now : Qc;
  setRejects : bool
}.

(** What the handler does to the outside, in order. *)
Inductive Event :=
  | EvGet (path : string)
  | EvConfirm (answer : bool)
  | EvSet (path : string) (payload : JValue).

Definition setSyncStatus (s : SyncStatus) (st : State) : State :=
  {| destinations := destinations st; settings := settings st; tripCode := tripCode st;
     lastKnownRemoteByCode := lastKnownRemoteByCode st;
     lastLocalPushByCode := lastLocalPushByCode st;
     syncStatus := s; isPushing := isPushing st;
     latestRemoteUpdatedAt := latestRemoteUpdatedAt st;
     syncClientId := syncClientId st |}.

Definition setIsPushing (b : bool) (st : State) : State :=
  {| destinations := destinations st; settings := settings st; tripCode := tripCode st;
     lastKnownRemoteByCode := lastKnownRemoteByCode st;
     lastLocalPushByCode := lastLocalPushByCode st;
     syncStatus := syncStatus st; isPushing := b;
     latestRemoteUpdatedAt := latestRemoteUpdatedAt st;
     syncClientId := syncClientId st |}.

Definition setLatestRemoteUpdatedAt (t : option Qc) (st : State) : State :=
  {| destinations := destinations st; settings := settings st; tripCode := tripCode st;
     lastKnownRemoteByCode := lastKnownRemoteByCode st;
     lastLocalPushByCode := lastLocalPushByCode st;
     syncStatus := syncStatus st; isPushing := isPushing st;
     latestRemoteUpdatedAt := t;
     syncClientId := syncClientId st |}.

Definition setLastKnownRemoteByCode (f : gmap string Qc → gmap string Qc) (st : State)
  : State :=
  {| destinations := destinations st; settings := settings st; tripCode := tripCode st;
     lastKnownRemoteByCode := f (lastKnownRemoteByCode st);
     lastLocalPushByCode := lastLocalPushByCode st;
     syncStatus := syncStatus st; isPushing := isPushing st;
     latestRemoteUpdatedAt := latestRemoteUpdatedAt st;
     syncClientId := syncClientId st |}.

Definition setLastLocalPushByCode (f : gmap string Qc → gmap string Qc) (st : State)
  : State :=
  {| destinations := destinations st; settings := settings st; tripCode := tripCode st;
     lastKnownRemoteByCode := lastKnownRemoteByCode st;
     lastLocalPushByCode := f (lastLocalPushByCode st);
     syncStatus := syncStatus st; isPushing := isPushing st;
     latestRemoteUpdatedAt := latestRemoteUpdatedAt st;
     syncClientId := syncClientId st |}.

(** The document a push writes. *)
Definition pushPayload (st : State) (updatedAt : Qc) : JValue :=
  ToJs.object
    [("destinations", JArr (ToJs.destination <$> destinations st));
     ("settings", ToJs.settings (settings st));
     ("meta", ToJs.object [("updatedAt", ToJs.number updatedAt);
                           ("updatedBy", JStr (syncClientId st))])].

(** The outcome of a handler: the next state, the remote store and the
    events, oldest first. *)
Record Outcome := mkOutcome {
  state : State;
  store : gmap string JValue;
  events : list Event
}.

Definition handlePushToTrip (w : World) (st : State) : Outcome :=
  let normalizedTripCode := normalizeTripCode (tripCode st) in
  let hasValidTripCode := (TRIP_CODE_MIN_LENGTH <=? String.length normalizedTripCode)%nat in
  if negb (isTripSyncAvailable w) then
    mkOutcome
      (setSyncStatus (mkStatus error "Trip sync is not configured in this environment.") st)
      (remote w) []
  else if negb hasValidTripCode then
    mkOutcome
      (setSyncStatus (mkStatus warning "Trip code must be at least 4 characters.") st)
      (remote w) []
  else
    let st1 := setIsPushing true st in
    let tripRef := "trips/" +:+ normalizedTripCode in
    if getRejects w then
      mkOutcome
        (setIsPushing false
           (setSyncStatus (mkStatus error "Failed to push trip data. Please try again.") st1))
        (remote w) [EvGet tripRef]
    else
      let remotePayload := default JNull (remote w !! tripRef) in
      let remoteUpdatedAt :=
        Normalize.parseTimestamp (optProp (optProp remotePayload "meta") "updatedAt") in
      let knownRemoteUpdatedAt := default 0 (lastKnownRemoteByCode st !! normalizedTripCode) in
      let st2 := setLatestRemoteUpdatedAt remoteUpdatedAt st1 in
      let stale :=
        match remoteUpdatedAt with
        | Some t => gtb t knownRemoteUpdatedAt
        | None => false
        end in
      if stale && negb (confirmAnswer w) then
        mkOutcome
          (setIsPushing false
             (setSyncStatus
                (mkStatus warning "Push canceled. Pull latest remote changes before pushing.")
                st2))
          (remote w) [EvGet tripRef; EvConfirm false]
      else
        let asked := if stale then [EvConfirm true] else [] in
        let updatedAt := now w in
        let payload := pushPayload st updatedAt in
        if setRejects w then
          mkOutcome
            (setIsPushing false
               (setSyncStatus (mkStatus error "Failed to push trip data. Please try again.")
                  st2))
            (remote w) ([EvGet tripRef] ++ asked ++ [EvSet tripRef payload])
        else
          mkOutcome
            (setIsPushing false
               (setSyncStatus
                  (mkStatus success ("Pushed local plan to " +:+ normalizedTripCode +:+ "."))
                  (setLatestRemoteUpdatedAt (Some updatedAt)
                     (setLastLocalPushByCode (λ previous, <[normalizedTripCode := updatedAt]> previous)
                        (setLastKnownRemoteByCode
                           (λ previous, <[normalizedTripCode := updatedAt]> previous) st2)))))
            (<[tripRef := payload]> (remote w))
            ([EvGet tripRef] ++ asked ++ [EvSet tripRef payload]).

(** *** The rest of the component *)

(** The state with the destination on show and the pull flag. *)
Record View := mkView {
  planner : State;
  activeId : option string;
  isPulling : bool
}.

Definition setPlanner (f : State → State) (v : View) : View :=
  {| planner := f (planner v); activeId := activeId v; isPulling := isPulling v |}.

Definition setActiveId (a : option string) (v : View) : View :=
  {| planner := planner v; activeId := a; isPulling := isPulling v |}.

Definition setIsPulling (b : bool) (v : View) : View :=
  {| planner := planner v; activeId := activeId v; isPulling := b |}.

Definition setDestinations (ds : list Destination.t) (st : State) : State :=
  {| destinations := ds; settings := settings st; tripCode := tripCode st;
     lastKnownRemoteByCode := lastKnownRemoteByCode st;
     lastLocalPushByCode := lastLocalPushByCode st;
     syncStatus := syncStatus st; isPushing := isPushing st;
     latestRemoteUpdatedAt := latestRemoteUpdatedAt st;
     syncClientId := syncClientId st |}.

Definition setSettings (f : PlannerSettings.t → PlannerSettings.t) (st : State) : State :=
  {| destinations := destinations st; settings := f (settings st); tripCode := tripCode st;
     lastKnownRemoteByCode := lastKnownRemoteByCode st;
     lastLocalPushByCode := lastLocalPushByCode st;
     syncStatus := syncStatus st; isPushing := isPushing st;
     latestRemoteUpdatedAt := latestRemoteUpdatedAt st;
     syncClientId := syncClientId st |}.

(** [!activeId] *)
Definition noActiveId (a : option string) : bool :=
  match a with
  | Some s => String.eqb s ""
  | None => true
  end.

(** [destinations.length > 0 ? destinations[0].id : null] *)
Definition firstId (ds : list Destination.t) : option string :=
  Destination.id <$> head ds.

(** The two effects that keep [activeId] on an existing destination: the
    active id they leave after one render with [ds] and [a]. *)
Definition activeIdEffects (ds : list Destination.t) (a : option string) : option string :=
  let afterFirst :=
    if noActiveId a && (0 <? length ds)%nat then firstId ds else a in
  match a with
  | Some current =>
      if String.eqb current "" then afterFirst
      else if existsb (λ destination, String.eqb (Destination.id destination) current) ds
           then afterFirst
           else firstId ds
  | None => afterFirst
  end.

Definition handleAddDestination (host : Host) (newDest : Normalize.LegacyDestination)
    (v : View) : Result View :=
  destination ← Normalize.normalizeDestination host newDest;
  Ok (setActiveId (Some (Normalize.id newDest))
        (setPlanner (setDestinations (destinations (planner v) ++ [destination])) v)).

Definition handleRemoveDestination (id : string) (v : View) : View :=
  let newDestinations :=
    List.filter (λ destination, negb (String.eqb (Destination.id destination) id))
                (destinations (planner v)) in
  let v1 := setPlanner (setDestinations newDestinations) v in
  if bool_decide (activeId v = Some id) then setActiveId (firstId newDestinations) v1
  else v1.

(** [hosts j] is the host as seen while destination [j] is normalized. *)
Definition handleImport (hosts : nat → Host) (data : list Normalize.LegacyDestination)
    (v : View) : Result View :=
  normalizedData ← mapM (λ x, x)
                     (imap (λ j destination, Normalize.normalizeDestination (hosts j) destination)
                           data);
  let v1 := setPlanner (setDestinations normalizedData) v in
  Ok match normalizedData with
     | first :: _ => setActiveId (Some (Destination.id first)) v1
     | [] => v1
     end.

Definition handleTotalBudgetChange (value : string) : PlannerSettings.t → PlannerSettings.t :=
  let parsed := stringToNumber value in
  λ previousSettings,
  {| PlannerSettings.totalBudget :=
       match parsed with
       | JFinite q => if geb q 0 then q else 0
       | _ => 0
       end;
     PlannerSettings.peopleCount := PlannerSettings.peopleCount previousSettings |}.

Definition handlePeopleCountChange (value : string) : PlannerSettings.t → PlannerSettings.t :=
  let parsed := stringToNumber value in
  λ previousSettings,
  {| PlannerSettings.totalBudget := PlannerSettings.totalBudget previousSettings;
     PlannerSettings.peopleCount :=
       match parsed with
       | JFinite q => if gtb q 0 then Math_floor q else 1
       | _ => 1
       end |}.

(** The outcome of a pull: the next state and the events, oldest first. *)
Record PullOutcome := mkPullOutcome {
  view : View;
  pullEvents : list Event
}.

(** [hosts j] is the host as seen while destination [j] of the remote
    document is normalized. *)
Definition handlePullFromTrip (hosts : nat → Host) (w : World) (v : View) : PullOutcome :=
  let st := planner v in
  let normalizedTripCode := normalizeTripCode (tripCode st) in
  let hasValidTripCode := (TRIP_CODE_MIN_LENGTH <=? String.length normalizedTripCode)%nat in
  if negb (isTripSyncAvailable w) then
    mkPullOutcome
      (setPlanner
         (setSyncStatus (mkStatus error "Trip sync is not configured in this environment.")) v)
      []
  else if negb hasValidTripCode then
    mkPullOutcome
      (setPlanner
         (setSyncStatus (mkStatus warning "Trip code must be at least 4 characters.")) v)
      []
  else
    let v1 := setIsPulling true v in
    let tripRef := "trips/" +:+ normalizedTripCode in
    let failed :=
      setIsPulling false
        (setPlanner
           (setSyncStatus (mkStatus error "Failed to pull trip data. Please try again.")) v1) in
    if getRejects w then mkPullOutcome failed [EvGet tripRef]
    else
      (* [snapshot.exists()] is [snapshot.val() !== null] *)
      match default JNull (remote w !! tripRef) with
      | JNull =>
          mkPullOutcome
            (setIsPulling false
               (setPlanner
                  (λ st, setSyncStatus
                           (mkStatus warning
                              ("No saved trip found for code " +:+ normalizedTripCode +:+ "."))
                           (setLatestRemoteUpdatedAt None st)) v1))
            [EvGet tripRef]
      | payload =>
          match Normalize.parseTripSyncPayload hosts payload (settings st) with
          | TypeError => mkPullOutcome failed [EvGet tripRef]
          | Ok None =>
              mkPullOutcome
                (setIsPulling false
                   (setPlanner
                      (setSyncStatus
                         (mkStatus error "Trip data is invalid and could not be loaded.")) v1))
                [EvGet tripRef]
          | Ok (Some parsedPayload) =>
              let pulled := Normalize.destinations parsedPayload in
              let count := length pulled in
              mkPullOutcome
                (setIsPulling false
                   (setPlanner
                      (λ st,
                         setSyncStatus
                           (mkStatus success
                              ("Pulled " +:+ pretty count +:+ " destination"
                               +:+ (if (count =? 1)%nat then "" else "s")
                               +:+ " from " +:+ normalizedTripCode +:+ "."))
                           (setLastKnownRemoteByCode
                              (λ previous,
                                 <[normalizedTripCode :=
                                     default 0 (Normalize.remoteUpdatedAt parsedPayload)]>
                                   previous)
                              (setLatestRemoteUpdatedAt
                                 (Normalize.remoteUpdatedAt parsedPayload)
                                 (setSettings (λ _, Normalize.settings parsedPayload)
                                    (setDestinations pulled st)))))
                      (setActiveId (firstId pulled) v1)))
                [EvGet tripRef]
          end
      end.

End App.

(** ** Reference definitions

    What the functions are to compute, written without regard to how the
    code computes it.  The first group follows the words of the
    specification on the budget snapshot, for comparison with
    [Budget.calculateBudgetSnapshot]. *)

Module Spec.

Local Open Scope Qc_scope.

(** [Σ] *)
Definition sum (l : list Qc) : Qc := foldr Qcplus 0 l.

(** The flight an assignment key refers to, if it still exists. *)
Definition flightFor (flights : list Flight.t) (flightId : string) : option Flight.t :=
  head (filter (λ f, Flight.id f = flightId) flights).

(** The accommodation matching the selected id. *)
Definition selectedAccommodation (accommodations : list Accommodation.t)
    (selectedAccommodationId : string) : option Accommodation.t :=
  head (filter (λ a, Accommodation.id a = selectedAccommodationId) accommodations).

(** [pricePerPerson(flight) × count], or [0] for a key with no flight. *)
Definition entryCost (flights : list Flight.t) (entry : string * Qc) : Qc :=
  match flightFor flights entry.1 with
  | Some flight => Flight.pricePerPerson flight * entry.2
  | None => 0
  end.

Definition flightCost (flights : list Flight.t) (assignments : gmap string Qc) : Qc :=
  sum (entryCost flights <$> map_to_list assignments).

Definition assignedPeopleCount (flights : list Flight.t) (assignments : gmap string Qc) : Qc :=
  sum (snd <$> filter (λ entry, entry.1 ∈ Flight.id <$> flights) (map_to_list assignments)).

Definition accommodationCost (accommodations : list Accommodation.t)
    (selectedAccommodationId : string) : Qc :=
  match selectedAccommodation accommodations selectedAccommodationId with
  | Some accommodation => Accommodation.totalPrice accommodation
  | None => 0
  end.

Definition extraCostsCost (extraCosts : list ExtraCost.t) : Qc :=
  sum (ExtraCost.value <$> extraCosts).

(** *** The list normalizers, as the code has them

    An array element is kept when it is an object whose [id] is a string that
    is not blank; a kept element is never dropped for its price. *)

Definition identified (item : JValue) : bool :=
  match item with
  | JObj m =>
      match m !! "id" with
      | Some (JStr s) => nonBlank s
      | _ => false
      end
  | _ => false
  end.

(** A string property of an element, [''] when it is absent or no string. *)
Definition text (item : JValue) (k : string) : string :=
  match item with
  | JObj m => match m !! k with Some (JStr s) => s | _ => "" end
  | _ => ""
  end.

(** Numeric coercion of a property: a finite number as it is, a string that
    is not blank through [Number]. *)
Definition coerced (v : option JValue) : option Qc :=
  match v with
  | Some (JNum (JFinite q)) => Some q
  | Some (JStr s) =>
      if nonBlank s then
        match stringToNumber s with JFinite q => Some q | _ => None end
      else None
  | _ => None
  end.

(** The price of a kept element: the coerced property when it is [>= 0], and
    [0] when coercion fails or gives a negative number. *)
Definition price (item : JValue) (k : string) : Qc :=
  match item with
  | JObj m =>
      match coerced (m !! k) with
      | Some q => if bool_decide (0 ≤ q) then q else 0
      | None => 0
      end
  | _ => 0
  end.

Definition flightRecord (item : JValue) : Flight.t :=
  {| Flight.id := text item "id";
     Flight.link := text item "link";
     Flight.description := text item "description";
     Flight.startDate := text item "startDate";
     Flight.endDate := text item "endDate";
     Flight.pricePerPerson := price item "pricePerPerson" |}.

Definition accommodationRecord (item : JValue) : Accommodation.t :=
  {| Accommodation.id := text item "id";
     Accommodation.link := text item "link";
     Accommodation.description := text item "description";
     Accommodation.totalPrice := price item "totalPrice";
     Accommodation.startDate := text item "startDate";
     Accommodation.endDate := text item "endDate" |}.

(** *** The extra-cost normalizer, as the code has it *)

(** The value of an element: its [value] when that is a finite number
    [>= 0], else [0]. *)
Definition extraValue (item : JValue) : Qc :=
  match item with
  | JObj m =>
      match m !! "value" with
      | Some (JNum (JFinite q)) => if bool_decide (0 ≤ q) then q else 0
      | _ => 0
      end
  | _ => 0
  end.

Definition extraCostOf (item : JValue) : ExtraCost.t :=
  {| ExtraCost.description := text item "description";
     ExtraCost.value := extraValue item |}.

(** An element is dropped when its description is blank and its value is 0. *)
Definition worthKeeping (extraCost : ExtraCost.t) : bool :=
  nonBlank (ExtraCost.description extraCost)
  || bool_decide (0 < ExtraCost.value extraCost).

Definition generalExtraCost (q : Qc) : ExtraCost.t :=
  {| ExtraCost.description := "General extra cost"; ExtraCost.value := q |}.

(** *** The attempts of a budget estimator, as the code has them

    The candidates are the elements of the attempts array that are plain
    objects, each made into an attempt, and of these the first 40 only. *)

Definition isRecord (item : JValue) : bool :=
  match item with JObj _ => true | _ => false end.

(** A numeric property of an element, [fallback] when it is absent or not a
    finite number. *)
Definition numberOr (fallback : Qc) (item : JValue) (k : string) : Qc :=
  match item with
  | JObj m => match m !! k with Some (JNum (JFinite q)) => q | _ => fallback end
  | _ => fallback
  end.

(** The attempt made of the element at index [i]: its own id and name when
    they are strings that are not blank, a generated id and the name
    ["Saved attempt"] otherwise. *)
Definition attemptRecord (host : Host) (i : nat) (item : JValue) : BudgetAttempt.t :=
  let createdAt := numberOr (dateNow host i) item "createdAt" in
  {| BudgetAttempt.id :=
       if nonBlank (text item "id") then text item "id"
       else numberToString host createdAt +:+ "-" +:+ randomSuffix host i;
     BudgetAttempt.name :=
       if nonBlank (text item "name") then text item "name" else "Saved attempt";
     BudgetAttempt.createdAt := createdAt;
     BudgetAttempt.flightAssignments :=
       Normalize.normalizeFlightAssignments (optProp item "flightAssignments");
     BudgetAttempt.selectedAccommodationId := text item "selectedAccommodationId";
     BudgetAttempt.totalCost := numberOr 0 item "totalCost";
     BudgetAttempt.remaining := numberOr 0 item "remaining";
     BudgetAttempt.perPersonTotal := numberOr 0 item "perPersonTotal" |}.

Definition candidates (host : Host) (attempts : JValue) : list BudgetAttempt.t :=
  match attempts with
  | JArr items =>
      take 40
        ((λ entry, attemptRecord host entry.1 entry.2)
         <$> filter (λ entry, isRecord entry.2 = true) (imap pair items))
  | _ => []
  end.

End Spec.

(** * Properties *)

(** ** Numbers and strings *)

Section numbers.
Local Open Scope Qc_scope.

Lemma Math_max_spec (a b : Qc) :
  a ≤ Math_max a b ∧ b ≤ Math_max a b ∧ (Math_max a b = a ∨ Math_max a b = b).
Proof.
  unfold Math_max. case_bool_decide as H.
  - split_and!; [done | apply Qcle_refl | by right].
  - split_and!; [apply Qcle_refl | | by left].
    apply Qclt_le_weak. by apply Qcnot_le_lt.
Qed.

Lemma Math_floor_num (z : Z) : Math_floor (num z) = num z.
Proof.
  unfold Math_floor, num. f_equal. f_equal.
  rewrite (Qfloor_comp (Q2Qc (inject_Z z)) (inject_Z z)).
  - apply Qfloor_Z.
  - simpl. apply Qred_correct.
Qed.

Lemma Math_floor_idem (x : Qc) : Math_floor (Math_floor x) = Math_floor x.
Proof. unfold Math_floor at 2 3. apply Math_floor_num. Qed.

Lemma Math_floor_nonneg (x : Qc) : 0 ≤ x → 0 ≤ Math_floor x.
Proof.
  intros Hx. unfold Math_floor, num, Qcle. cbn [this Q2Qc].
  rewrite !Qred_correct.
  change (0%Q) with (inject_Z 0). rewrite <- Zle_Qle.
  rewrite <- (Qfloor_Z 0). apply Qfloor_resp_le. apply Hx.
Qed.

Lemma Math_floor_pos (x : Qc) : 0 < x → 0 ≤ Math_floor x.
Proof. intros Hx. apply Math_floor_nonneg. by apply Qclt_le_weak. Qed.

Lemma geb_true (a b : Qc) : b ≤ a → geb a b = true.
Proof. intros H. unfold geb. by apply bool_decide_eq_true_2. Qed.

Lemma gtb_true (a b : Qc) : b < a → gtb a b = true.
Proof. intros H. unfold gtb. by apply bool_decide_eq_true_2. Qed.

End numbers.

Section strings.

Lemma trimStart_empty (s : string) :
  trimStart s = EmptyString ↔ allWhiteSpace s = true.
Proof.
  induction s as [|c s IH]; simpl; [done|].
  destruct (isWhiteSpace c); simpl; [done|]. split; discriminate.
Qed.

Lemma allWhiteSpace_trimStart (s : string) :
  allWhiteSpace (trimStart s) = allWhiteSpace s.
Proof.
  induction s as [|c s IH]; simpl; [done|].
  destruct (isWhiteSpace c) eqn:Hc; simpl; [done|]. by rewrite Hc.
Qed.

Lemma trimEnd_empty (s : string) :
  trimEnd s = EmptyString ↔ allWhiteSpace s = true.
Proof.
  induction s as [|c s IH]; simpl; [done|].
  destruct (trimEnd s) eqn:Ht.
  - destruct (isWhiteSpace c); simpl.
    + split; [intros _; by apply IH | done].
    + split; discriminate.
  - split; [discriminate|].
    intros [_ Hs]%andb_true_iff. apply IH in Hs. discriminate.
Qed.

Lemma nonBlank_allWhiteSpace (s : string) : nonBlank s = negb (allWhiteSpace s).
Proof.
  unfold nonBlank, trim.
  destruct (allWhiteSpace s) eqn:Hs.
  - rewrite <- allWhiteSpace_trimStart in Hs. apply trimEnd_empty in Hs.
    by rewrite Hs.
  - destruct (String.eqb_spec (trimEnd (trimStart s)) "") as [He|]; [|done].
    apply trimEnd_empty in He. rewrite allWhiteSpace_trimStart in He. congruence.
Qed.

Lemma allWhiteSpace_app (a b : string) :
  allWhiteSpace (a +:+ b) = allWhiteSpace a && allWhiteSpace b.
Proof.
  induction a as [|c a IH]; simpl; [done|]. by rewrite IH, andb_assoc.
Qed.

(** An identifier built around a dash is never blank. *)
Lemma nonBlank_dashed (a b : string) : nonBlank (a +:+ "-" +:+ b) = true.
Proof.
  rewrite nonBlank_allWhiteSpace, !allWhiteSpace_app. simpl.
  by rewrite andb_false_r.
Qed.

Lemma nonBlank_nonempty (s : string) : nonBlank s = true → s ≠ "".
Proof. intros H ->. discriminate. Qed.

Lemma orEmpty_Some (s : string) : orEmpty (Some s) = s.
Proof.
  unfold orEmpty. by destruct (String.eqb_spec s "") as [->|].
Qed.

End strings.

(** ** Untyped values *)

Section values.

Lemma asObject_Some (v : JValue) (m : gmap string JValue) :
  asObject v = Some m ↔ v = JObj m.
Proof.
  split.
  - unfold asObject, notPlainObject.
    destruct v as [| |b|n|s|l|m']; cbn; rewrite ?orb_true_r; try done.
    by intros [= ->].
  - by intros ->.
Qed.

Lemma asObject_JObj (m : gmap string JValue) : asObject (JObj m) = Some m.
Proof. done. Qed.

Lemma asObject_None (v : JValue) :
  asObject v = None ↔ ∀ m, v ≠ JObj m.
Proof.
  split.
  - intros H m ->. discriminate.
  - intros H. destruct (asObject v) as [m|] eqn:Hv; [|done].
    apply asObject_Some in Hv. by destruct (H m).
Qed.

End values.


(** ** The budget snapshot *)

Section snapshot.
Local Open Scope Qc_scope.

Lemma foldl_plus_sum {A} (f : A → Qc) (l : list A) (a : Qc) :
  foldl (λ total x, total + f x) a l = a + Spec.sum (f <$> l).
Proof.
  revert a. induction l as [|x l IH]; intros a.
  - change (a = a + 0). ring.
  - change (foldl (λ total x, total + f x) (a + f x) l
            = a + (f x + Spec.sum (f <$> l))).
    rewrite IH. ring.
Qed.

Lemma find_eqb_flight (flights : list Flight.t) (flightId : string) :
  find (λ item, String.eqb (Flight.id item) flightId) flights
  = Spec.flightFor flights flightId.
Proof.
  unfold Spec.flightFor. induction flights as [|f flights IH]; simpl; [done|].
  rewrite filter_cons.
  destruct (String.eqb_spec (Flight.id f) flightId) as [Heq|Hne].
  - by rewrite decide_True.
  - by rewrite decide_False.
Qed.

Lemma find_eqb_accommodation (accommodations : list Accommodation.t) (sel : string) :
  find (λ item, String.eqb (Accommodation.id item) sel) accommodations
  = Spec.selectedAccommodation accommodations sel.
Proof.
  unfold Spec.selectedAccommodation.
  induction accommodations as [|a accommodations IH]; simpl; [done|].
  rewrite filter_cons.
  destruct (String.eqb_spec (Accommodation.id a) sel) as [Heq|Hne].
  - by rewrite decide_True.
  - by rewrite decide_False.
Qed.

Lemma existsb_eqb_flight (flights : list Flight.t) (flightId : string) :
  existsb (λ item, String.eqb (Flight.id item) flightId) flights
  = bool_decide (flightId ∈ Flight.id <$> flights).
Proof.
  induction flights as [|f flights IH].
  - symmetry. apply bool_decide_eq_false_2. by intros ?%elem_of_nil.
  - cbn [existsb]. rewrite IH, fmap_cons.
    destruct (String.eqb_spec (Flight.id f) flightId) as [Heq|Hne]; cbn [orb].
    + symmetry. apply bool_decide_eq_true_2. rewrite Heq. apply list_elem_of_here.
    + apply bool_decide_ext. rewrite elem_of_cons. intuition congruence.
Qed.

(** A key that matches no flight has no flight, and conversely. *)
Lemma flightFor_None (flights : list Flight.t) (flightId : string) :
  Spec.flightFor flights flightId = None ↔ flightId ∉ Flight.id <$> flights.
Proof.
  unfold Spec.flightFor. rewrite head_None, list_elem_of_fmap. split.
  - intros Hnil (f & -> & Hf).
    assert (f ∈ filter (λ f', Flight.id f' = Flight.id f) flights) as Hin
      by by apply list_elem_of_filter.
    rewrite Hnil in Hin. by apply elem_of_nil in Hin.
  - intros Hno.
    destruct (filter (λ f, Flight.id f = flightId) flights) as [|f l] eqn:Hfil; [done|].
    assert (f ∈ filter (λ f, Flight.id f = flightId) flights) as Hin
      by (rewrite Hfil; apply list_elem_of_here).
    apply list_elem_of_filter in Hin as [Hid Hin].
    destruct Hno. by exists f.
Qed.

Lemma foldl_count_sum (flights : list Flight.t) (l : list (string * Qc)) (a : Qc) :
  foldl (λ total '(flightId, count),
           if existsb (λ item, String.eqb (Flight.id item) flightId) flights
           then total + count else total) a l
  = a + Spec.sum (snd <$> filter (λ entry, entry.1 ∈ Flight.id <$> flights) l).
Proof.
  revert a. induction l as [|[k c] l IH]; intros a.
  - change (a = a + 0). ring.
  - cbn [foldl]. rewrite IH, filter_cons, existsb_eqb_flight. cbn [fst].
    case_bool_decide as Hk.
    + rewrite decide_True by done.
      change (a + c + Spec.sum (snd <$> filter (λ entry, entry.1 ∈ Flight.id <$> flights) l)
              = a + (c + Spec.sum (snd <$> filter (λ entry, entry.1 ∈ Flight.id <$> flights) l))).
      ring.
    + by rewrite decide_False by done.
Qed.

Lemma foldl_cost_sum (flights : list Flight.t) (l : list (string * Qc)) (a : Qc) :
  foldl (λ total '(flightId, count),
           let flight := find (λ item, String.eqb (Flight.id item) flightId) flights in
           total + match flight with
                   | Some f => Flight.pricePerPerson f * count
                   | None => 0
                   end) a l
  = a + Spec.sum (Spec.entryCost flights <$> l).
Proof.
  revert a. induction l as [|[k c] l IH]; intros a.
  - change (a = a + 0). ring.
  - cbn [foldl]. rewrite IH. cbn zeta. rewrite find_eqb_flight.
    change (Spec.sum (Spec.entryCost flights <$> (k, c) :: l))
      with (Spec.entryCost flights (k, c) + Spec.sum (Spec.entryCost flights <$> l)).
    unfold Spec.entryCost at 2. cbn [fst snd]. ring.
Qed.

(** C1.  For every input, each field of the snapshot is the quantity the
    specification names: the flight cost is the sum over the assignment
    entries of price times count, an entry whose key matches no flight
    counting 0; the assigned people are the counts of the entries whose
    flight exists; the accommodation cost is the total price of the selected
    accommodation, 0 when none matches; the extra costs are summed; the
    total, the remainder and the per-person figures follow, the divisor
    being [max(1, peopleCount)]; and the over-assignment flag compares the
    assigned people with the people count. *)
Theorem calculateBudgetSnapshot_correct (input : Budget.SnapshotInput) :
  let snapshot := Budget.calculateBudgetSnapshot input in
  let people := PlannerSettings.peopleCount (Budget.settings input) in
  Budget.flightCost snapshot
    = Spec.flightCost (Budget.flights input) (Budget.flightAssignments input)
  ∧ (∀ entry, entry.1 ∉ Flight.id <$> Budget.flights input →
       Spec.entryCost (Budget.flights input) entry = 0)
  ∧ Budget.assignedPeopleCount snapshot
    = Spec.assignedPeopleCount (Budget.flights input) (Budget.flightAssignments input)
  ∧ Budget.accommodationCost snapshot
    = Spec.accommodationCost (Budget.accommodations input)
        (Budget.selectedAccommodationId input)
  ∧ Budget.extraCostsCost snapshot = Spec.extraCostsCost (Budget.extraCosts input)
  ∧ Budget.totalCost snapshot
    = Budget.flightCost snapshot + Budget.accommodationCost snapshot
      + Budget.extraCostsCost snapshot
  ∧ Budget.remaining snapshot
    = PlannerSettings.totalBudget (Budget.settings input) - Budget.totalCost snapshot
  ∧ Budget.perPersonTotal snapshot = Budget.totalCost snapshot / Math_max 1 people
  ∧ Budget.perPersonRemaining snapshot = Budget.remaining snapshot / Math_max 1 people
  ∧ (1 ≤ Math_max 1 people ∧ people ≤ Math_max 1 people
     ∧ (Math_max 1 people = 1 ∨ Math_max 1 people = people))
  ∧ (Budget.isOverAssigned snapshot = true
     ↔ people < Budget.assignedPeopleCount snapshot).
Proof.
  intros snapshot people. subst snapshot people.
  unfold Budget.calculateBudgetSnapshot; simpl.
  split_and!; try reflexivity.
  - unfold Spec.flightCost. rewrite foldl_cost_sum. ring.
  - intros entry Hentry. unfold Spec.entryCost.
    apply flightFor_None in Hentry. by rewrite Hentry.
  - unfold Spec.assignedPeopleCount.
    rewrite foldl_count_sum. ring.
  - unfold Spec.accommodationCost. by rewrite find_eqb_accommodation.
  - unfold Spec.extraCostsCost. rewrite foldl_plus_sum. ring.
  - apply Math_max_spec.
  - apply Math_max_spec.
  - apply Math_max_spec.
  - unfold gtb. apply bool_decide_eq_true.
Qed.

(** One flight at 100 with three travellers, a stay at 500, a visa at 50,
    a budget of 1000 for five people. *)
Definition sampleInput (people : Z) : Budget.SnapshotInput :=
  {| Budget.flights :=
       [ {| Flight.id := "f1"; Flight.link := ""; Flight.description := "";
            Flight.startDate := ""; Flight.endDate := "";
            Flight.pricePerPerson := num 100 |} ];
     Budget.accommodations :=
       [ {| Accommodation.id := "a1"; Accommodation.link := "";
            Accommodation.description := ""; Accommodation.totalPrice := num 500;
            Accommodation.startDate := ""; Accommodation.endDate := "" |} ];
     Budget.flightAssignments := {[ "f1" := num 3; "gone" := num 4 ]};
     Budget.selectedAccommodationId := "a1";
     Budget.extraCosts :=
       [ {| ExtraCost.description := "visa"; ExtraCost.value := num 50 |} ];
     Budget.settings :=
       {| PlannerSettings.totalBudget := num 1000;
          PlannerSettings.peopleCount := num people |} |}.

(** The figures of a snapshot, as fractions. *)
Definition figures (s : Budget.BudgetSnapshot) : list Q * bool :=
  (this <$> [Budget.assignedPeopleCount s; Budget.flightCost s; Budget.accommodationCost s;
             Budget.extraCostsCost s; Budget.totalCost s; Budget.remaining s;
             Budget.perPersonTotal s; Budget.perPersonRemaining s],
   Budget.isOverAssigned s).

Example calculateBudgetSnapshot_sample :
  figures (Budget.calculateBudgetSnapshot (sampleInput 5))
  = ([3; 300; 500; 50; 850; 150; 170; 30]%Q, false).
Proof. vm_compute. reflexivity. Qed.

Example calculateBudgetSnapshot_over_assigned :
  figures (Budget.calculateBudgetSnapshot (sampleInput 2))
  = ([3; 300; 500; 50; 850; 150; 425; 75]%Q, true).
Proof. vm_compute. reflexivity. Qed.

(** A people count of zero divides by one. *)
Example calculateBudgetSnapshot_nobody :
  figures (Budget.calculateBudgetSnapshot (sampleInput 0))
  = ([3; 300; 500; 50; 850; 150; 850; 150]%Q, true).
Proof. vm_compute. reflexivity. Qed.

End snapshot.

(** ** Building a record entry by entry *)

Section reduce.
Context {A B : Type}.

Lemma foldl_ext (f g : B → A → B) (l : list A) (b : B) :
  (∀ acc x, f acc x = g acc x) → foldl f b l = foldl g b l.
Proof.
  intros Hfg. revert b. induction l as [|x l IH]; intros b; simpl; [done|].
  by rewrite Hfg, IH.
Qed.

(** A [reduce] over the entries of a record that copies, possibly changed,
    the entries [f] accepts. *)
Definition collect (f : string → A → option B) (acc : gmap string B) (entry : string * A)
  : gmap string B :=
  match f entry.1 entry.2 with
  | Some w => <[entry.1 := w]> acc
  | None => acc
  end.

Lemma foldl_collect_lookup (f : string → A → option B) (l : list (string * A))
    (acc : gmap string B) (k : string) :
  NoDup l.*1 →
  foldl (collect f) acc l !! k
  = match (list_to_map l : gmap string A) !! k ≫= f k with
    | Some w => Some w
    | None => acc !! k
    end.
Proof.
  revert acc. induction l as [|[k' v] l IH]; intros acc Hnd.
  - rewrite list_to_map_nil, lookup_empty. done.
  - rewrite fmap_cons in Hnd. apply list.NoDup_cons in Hnd as [Hk' Hnd].
    cbn [foldl]. rewrite IH by done.
    rewrite list_to_map_cons. unfold collect. cbn [fst snd].
    destruct (decide (k = k')) as [->|Hne].
    + rewrite lookup_insert_eq.
      rewrite (not_elem_of_list_to_map_1 (M:=gmap string) l k') by done.
      cbn. destruct (f k' v); [by rewrite lookup_insert_eq|done].
    + rewrite lookup_insert_ne by done.
      destruct (list_to_map l !! k ≫= f k); [done|].
      destruct (f k' v); [by rewrite lookup_insert_ne|done].
Qed.

Lemma foldl_collect (f : string → A → option B) (m : gmap string A) :
  foldl (collect f) ∅ (map_to_list m) = map_imap f m.
Proof.
  apply map_eq. intros k.
  rewrite foldl_collect_lookup by apply NoDup_fst_map_to_list.
  rewrite list_to_map_to_list, map_lookup_imap, lookup_empty.
  by destruct (m !! k ≫= f k).
Qed.

End reduce.

(** ** The reconciler: replacing the flights *)

Section reconciler.
Local Open Scope Qc_scope.

Lemma keepValid_filter (validFlightIds : gset string) (assignments : gmap string Qc) :
  DestinationView.keepValid validFlightIds assignments
  = filter (λ entry, entry.1 ∈ validFlightIds) assignments.
Proof.
  unfold DestinationView.keepValid.
  rewrite (foldl_ext _
             (collect (λ k c, if bool_decide (k ∈ validFlightIds) then Some c else None))).
  - rewrite foldl_collect. apply map_eq. intros k.
    rewrite map_lookup_imap, map_lookup_filter.
    destruct (assignments !! k) as [c|]; [|done]. cbn.
    case_bool_decide; [by rewrite option_guard_True | by rewrite option_guard_False].
  - intros acc [k c]. unfold collect. cbn [fst snd]. by case_bool_decide.
Qed.

(** The assignments of [assignments] whose key is the id of a flight of [flights]. *)
Definition restrictTo (flights : list Flight.t) (assignments : gmap string Qc)
  : gmap string Qc :=
  filter (λ entry, entry.1 ∈ Flight.id <$> flights) assignments.

Lemma keepValid_restrictTo (flights : list Flight.t) (assignments : gmap string Qc) :
  DestinationView.keepValid (list_to_set (Flight.id <$> flights)) assignments
  = restrictTo flights assignments.
Proof.
  rewrite keepValid_filter. unfold restrictTo.
  apply map_filter_ext. intros k c _. cbn. by rewrite elem_of_list_to_set.
Qed.

(** C2.  Replacing the flights of a destination by [flights] leaves, as
    live assignments, exactly the previous ones whose key is the id of one
    of [flights]; the stored attempt, if there is one, has its assignments
    restricted the same way, and its total cost, remainder and per-person
    total are those of the snapshot computed over the new flights, the
    current accommodations and extra costs, the restricted assignments of
    the attempt and the accommodation the attempt selected. *)
Theorem handleFlightsChange_reconciles (settings : PlannerSettings.t)
    (flights : list Flight.t) (current : Destination.t) :
  let next := DestinationView.handleFlightsChange settings flights current in
  let estimator := Destination.budgetEstimator current in
  let resnapshot (attempt : BudgetAttempt.t) :=
    Budget.calculateBudgetSnapshot
      {| Budget.flights := flights;
         Budget.accommodations := Destination.accommodations current;
         Budget.flightAssignments :=
           restrictTo flights (BudgetAttempt.flightAssignments attempt);
         Budget.selectedAccommodationId := BudgetAttempt.selectedAccommodationId attempt;
         Budget.extraCosts := Destination.extraCosts current;
         Budget.settings := settings |} in
  Destination.flights next = flights
  ∧ BudgetEstimatorState.flightAssignments (Destination.budgetEstimator next)
    = restrictTo flights (BudgetEstimatorState.flightAssignments estimator)
  ∧ (∀ flightId,
       BudgetEstimatorState.flightAssignments (Destination.budgetEstimator next) !! flightId
       = if decide (flightId ∈ Flight.id <$> flights)
         then BudgetEstimatorState.flightAssignments estimator !! flightId
         else None)
  ∧ match BudgetEstimatorState.attempts estimator with
    | [] => BudgetEstimatorState.attempts (Destination.budgetEstimator next) = []
    | attempt :: _ =>
        ∃ attempt',
          BudgetEstimatorState.attempts (Destination.budgetEstimator next) = [attempt']
          ∧ BudgetAttempt.flightAssignments attempt'
            = restrictTo flights (BudgetAttempt.flightAssignments attempt)
          ∧ BudgetAttempt.totalCost attempt' = Budget.totalCost (resnapshot attempt)
          ∧ BudgetAttempt.remaining attempt' = Budget.remaining (resnapshot attempt)
          ∧ BudgetAttempt.perPersonTotal attempt'
            = Budget.perPersonTotal (resnapshot attempt)
          ∧ BudgetAttempt.id attempt' = BudgetAttempt.id attempt
          ∧ BudgetAttempt.selectedAccommodationId attempt'
            = BudgetAttempt.selectedAccommodationId attempt
    end.
Proof.
  intros next estimator resnapshot. subst next estimator resnapshot.
  unfold DestinationView.handleFlightsChange. cbn [Destination.flights
    Destination.budgetEstimator BudgetEstimatorState.flightAssignments
    BudgetEstimatorState.attempts].
  rewrite keepValid_restrictTo.
  split_and!; [done | done | |].
  - intros flightId. unfold restrictTo. rewrite map_lookup_filter.
    destruct (BudgetEstimatorState.flightAssignments _ !! flightId) as [c|] eqn:Hc;
      cbn; [|by case_decide].
    case_decide; [by rewrite option_guard_True | by rewrite option_guard_False].
  - destruct (BudgetEstimatorState.attempts (Destination.budgetEstimator current))
      as [|attempt rest]; [done|].
    cbn [take fmap list_fmap]. eexists. split; [reflexivity|].
    cbn [BudgetAttempt.flightAssignments BudgetAttempt.totalCost BudgetAttempt.remaining
         BudgetAttempt.perPersonTotal BudgetAttempt.id BudgetAttempt.selectedAccommodationId].
    rewrite keepValid_restrictTo. done.
Qed.

End reconciler.


(** ** The list normalizers *)

Section lists.
Local Open Scope Qc_scope.

Lemma listPrice_price (m : gmap string JValue) (k : string) :
  Normalize.listPrice (field m k) = Spec.price (JObj m) k.
Proof.
  unfold Normalize.listPrice, Spec.price, Spec.coerced, Normalize.parseNumberValue,
    field, geb, nonBlank.
  destruct (m !! k) as [[| |b|[q| | |]|s|l|m']|]; cbn; try done.
Qed.

Lemma price_nonneg (item : JValue) (k : string) : 0 ≤ Spec.price item k.
Proof.
  unfold Spec.price. destruct item; try done.
  destruct (Spec.coerced _); [|done]. by case_bool_decide.
Qed.

Lemma text_field (m : gmap string JValue) (k : string) :
  default "" (asString (field m k)) = Spec.text (JObj m) k.
Proof.
  unfold field, Spec.text. by destruct (m !! k) as [[]|].
Qed.

Lemma normalizeFlightList_array (l : list JValue) :
  Normalize.normalizeFlightList (JArr l)
  = Spec.flightRecord <$> List.filter Spec.identified l.
Proof.
  unfold Normalize.normalizeFlightList.
  induction l as [|item l IH]; [done|].
  cbn [omap list_omap List.filter]. rewrite IH. clear IH.
  destruct (asObject item) as [m|] eqn:Hitem.
  - apply asObject_Some in Hitem as ->. cbn [Spec.identified].
    unfold field at 1. destruct (m !! "id") as [[| |b|n|s|l'|m']|] eqn:Hid; cbn; try done.
    destruct (nonBlank s); [|done]. cbn [fmap list_fmap]. f_equal.
    unfold Spec.flightRecord. rewrite !text_field, listPrice_price.
    replace (Spec.text (JObj m) "id") with s; [done|].
    unfold Spec.text. by rewrite Hid.
  - replace (Spec.identified item) with false; [done|].
    destruct item; done.
Qed.

Lemma normalizeAccommodationList_array (l : list JValue) :
  Normalize.normalizeAccommodationList (JArr l)
  = Spec.accommodationRecord <$> List.filter Spec.identified l.
Proof.
  unfold Normalize.normalizeAccommodationList.
  induction l as [|item l IH]; [done|].
  cbn [omap list_omap List.filter]. rewrite IH. clear IH.
  destruct (asObject item) as [m|] eqn:Hitem.
  - apply asObject_Some in Hitem as ->. cbn [Spec.identified].
    unfold field at 1. destruct (m !! "id") as [[| |b|n|s|l'|m']|] eqn:Hid; cbn; try done.
    destruct (nonBlank s); [|done]. cbn [fmap list_fmap]. f_equal.
    unfold Spec.accommodationRecord. rewrite !text_field, listPrice_price.
    replace (Spec.text (JObj m) "id") with s; [done|].
    unfold Spec.text. by rewrite Hid.
  - replace (Spec.identified item) with false; [done|].
    destruct item; done.
Qed.

(** C3, as the code has it.  Both list normalizers return the empty list for
    anything but an array; of an array they keep, in order, exactly the
    elements that are objects with a string [id] that is not blank.  A kept
    element carries its price coerced to a number (a finite number as it
    is, a string through [Number]) when that is [>= 0], and the price [0]
    otherwise: no element is dropped for its price. *)
Theorem normalizeLists_keep_identified (flights accommodations : JValue) :
  Normalize.normalizeFlightList flights
  = match flights with
    | JArr l => Spec.flightRecord <$> List.filter Spec.identified l
    | _ => []
    end
  ∧ Normalize.normalizeAccommodationList accommodations
    = match accommodations with
      | JArr l => Spec.accommodationRecord <$> List.filter Spec.identified l
      | _ => []
      end
  ∧ (∀ flight, flight ∈ Normalize.normalizeFlightList flights →
       0 ≤ Flight.pricePerPerson flight)
  ∧ (∀ accommodation, accommodation ∈ Normalize.normalizeAccommodationList accommodations →
       0 ≤ Accommodation.totalPrice accommodation).
Proof.
  split_and!.
  - destruct flights; try done. apply normalizeFlightList_array.
  - destruct accommodations; try done. apply normalizeAccommodationList_array.
  - destruct flights as [| | | | |l|]; try (intros ? ?%elem_of_nil; done).
    rewrite normalizeFlightList_array. intros flight (item & -> & _)%list_elem_of_fmap.
    apply price_nonneg.
  - destruct accommodations as [| | | | |l|]; try (intros ? ?%elem_of_nil; done).
    rewrite normalizeAccommodationList_array.
    intros accommodation (item & -> & _)%list_elem_of_fmap.
    apply price_nonneg.
Qed.

(** C3, as the specification states it, fails: a flight whose price cannot be
    coerced is kept, with price [0]. *)
Lemma normalizeFlightList_keeps_unpriced :
  Normalize.parseNumberValue (JStr "abc") = None
  ∧ Normalize.normalizeFlightList
      (JArr [ToJs.object [("id", JStr "f1"); ("pricePerPerson", JStr "abc")]])
    = [ {| Flight.id := "f1"; Flight.link := ""; Flight.description := "";
           Flight.startDate := ""; Flight.endDate := "";
           Flight.pricePerPerson := 0 |} ].
Proof. split; vm_compute; reflexivity. Qed.

(** The same for an accommodation with a negative price. *)
Example normalizeAccommodationList_keeps_negative :
  Normalize.normalizeAccommodationList
    (JArr [ToJs.object [("id", JStr "a1"); ("totalPrice", ToJs.number (num (-5)))]])
  = [ {| Accommodation.id := "a1"; Accommodation.link := "";
         Accommodation.description := ""; Accommodation.totalPrice := 0;
         Accommodation.startDate := ""; Accommodation.endDate := "" |} ].
Proof. vm_compute; reflexivity. Qed.

(** A price given as a string is coerced. *)
Example normalizeFlightList_string_price :
  (λ flight, this (Flight.pricePerPerson flight))
    <$> Normalize.normalizeFlightList
          (JArr [ToJs.object [("id", JStr "f1"); ("pricePerPerson", JStr "12.5")];
                 JNull;
                 ToJs.object [("id", JStr "  "); ("pricePerPerson", ToJs.number 1)]])
  = [(25 # 2)%Q].
Proof. vm_compute; reflexivity. Qed.

End lists.

(** ** The payload normalizer *)

Section payload.
Local Open Scope Qc_scope.

Lemma mapM_Ok {A B} (f : A → Result B) (l : list A) (g : A → B) :
  (∀ x, x ∈ l → f x = Ok (g x)) → mapM f l = Ok (g <$> l).
Proof.
  induction l as [|x l IH]; intros Hf; [done|].
  cbn [mapM]. rewrite (Hf x) by apply list_elem_of_here.
  rewrite IH by (intros y Hy; apply Hf; by apply list_elem_of_further). done.
Qed.

Lemma omap_all_None {A} (l : list (option A)) :
  (∀ o, o ∈ l → o = None) → omap (λ x, x) l = [].
Proof.
  induction l as [|o l IH]; intros Hl; [done|].
  cbn [omap list_omap]. rewrite (Hl o) by apply list_elem_of_here.
  apply IH. intros o' Ho'. apply Hl. by apply list_elem_of_further.
Qed.

(** The [destinations] property of a payload, [undefined] when the payload
    has none. *)
Definition destinationsOf (payload : JValue) : JValue := optProp payload "destinations".

(** Every element of the array is rejected by per-destination normalization. *)
Definition allRejected (hosts : nat → Host) (candidates : list JValue) : Prop :=
  ∀ j candidate, candidates !! j = Some candidate →
    Normalize.normalizeDestinationCandidate (hosts j) candidate = Ok None.

(** C4.  A payload whose [destinations] is no array is rejected with
    [null]; so is a payload whose [destinations] is an array that is not
    empty and of which every element is rejected by per-destination
    normalization: no document with an empty list of destinations is made of
    it. *)
Theorem parseTripSyncPayload_fails_closed (hosts : nat → Host) (payload : JValue)
    (fallbackSettings : PlannerSettings.t) :
  match destinationsOf payload with
  | JArr candidates => candidates ≠ [] ∧ allRejected hosts candidates
  | _ => True
  end →
  Normalize.parseTripSyncPayload hosts payload fallbackSettings = Ok None.
Proof.
  unfold Normalize.parseTripSyncPayload, destinationsOf.
  destruct (asObject payload) as [m|] eqn:Hp; [|done].
  apply asObject_Some in Hp as ->. cbn [optProp]. fold (field m "destinations").
  destruct (field m "destinations") as [| | | | |candidates|]; try done.
  intros [Hne Hrej].
  rewrite (mapM_Ok _ _ (λ _, None)).
  - cbn. rewrite omap_all_None.
    + destruct candidates; [done|]. done.
    + intros o (r & -> & _)%list_elem_of_fmap. done.
  - intros r (j & Hj)%list_elem_of_lookup.
    apply list_lookup_imap_Some in Hj as (candidate & Hc & ->).
    by apply Hrej.
Qed.

(** The payload [{destinations: [{bogus: true}]}] is rejected. *)
Lemma parseTripSyncPayload_fails_closed_bogus :
  Normalize.parseTripSyncPayload (λ _, mkHost (λ _, 0) (λ _, "") (λ _, ""))
    (ToJs.object [("destinations", JArr [ToJs.object [("bogus", JBool true)]])])
    Normalize.DEFAULT_SETTINGS = Ok None.
Proof.
  apply parseTripSyncPayload_fails_closed.
  split; [done|]. intros [|j] candidate [= <-]. reflexivity.
Defined.

End payload.

(** ** The budget estimator normalizer *)

Section estimator.
Local Open Scope Qc_scope.

Lemma find_eqb_attempt (attempts : list BudgetAttempt.t) (wanted : string) :
  find (λ attempt, String.eqb (BudgetAttempt.id attempt) wanted) attempts
  = head (filter (λ attempt, BudgetAttempt.id attempt = wanted) attempts).
Proof.
  induction attempts as [|a attempts IH]; [done|].
  cbn [find]. rewrite filter_cons.
  destruct (String.eqb_spec (BudgetAttempt.id a) wanted) as [Heq|Hne].
  - by rewrite decide_True.
  - by rewrite decide_False.
Qed.

(** The attempt the normalizer keeps: the one the stored [fixedAttemptId]
    names if there is one, otherwise the first one. *)
Definition preferred (stored : string) (survivors : list BudgetAttempt.t)
  : option BudgetAttempt.t :=
  match head (filter (λ attempt, BudgetAttempt.id attempt = stored) survivors) with
  | Some attempt => Some attempt
  | None => head survivors
  end.

Lemma normalizeBudgetEstimator_attempts (host : Host) (budgetEstimator : JValue) :
  let result := Normalize.normalizeBudgetEstimator host budgetEstimator in
  let survivors := Normalize.normalizeBudgetAttempts host (optProp budgetEstimator "attempts") in
  let stored := default "" (asString (optProp budgetEstimator "fixedAttemptId")) in
  BudgetEstimatorState.attempts result = option_list (preferred stored survivors)
  ∧ BudgetEstimatorState.fixedAttemptId result
    = match preferred stored survivors with
      | Some attempt => BudgetAttempt.id attempt
      | None => ""
      end.
Proof.
  intros result survivors stored. subst result.
  unfold Normalize.normalizeBudgetEstimator.
  cbn [BudgetEstimatorState.attempts BudgetEstimatorState.fixedAttemptId].
  fold survivors. fold stored. rewrite find_eqb_attempt. fold (preferred stored survivors).
  destruct (preferred stored survivors) as [attempt|]; [|done].
  split; [done|]. cbn. apply orEmpty_Some.
Qed.

Lemma attemptRecord_code (host : Host) (i : nat) (m : gmap string JValue) :
  {| BudgetAttempt.id :=
       match asString (field m "id") with
       | Some s =>
           if nonBlank s then s
           else numberToString host
                  (default (dateNow host i) (asFinite (field m "createdAt")))
                +:+ "-" +:+ randomSuffix host i
       | None =>
           numberToString host (default (dateNow host i) (asFinite (field m "createdAt")))
           +:+ "-" +:+ randomSuffix host i
       end;
     BudgetAttempt.name :=
       match asString (field m "name") with
       | Some s => if nonBlank s then s else "Saved attempt"
       | None => "Saved attempt"
       end;
     BudgetAttempt.createdAt := default (dateNow host i) (asFinite (field m "createdAt"));
     BudgetAttempt.flightAssignments :=
       Normalize.normalizeFlightAssignments (field m "flightAssignments");
     BudgetAttempt.selectedAccommodationId :=
       default "" (asString (field m "selectedAccommodationId"));
     BudgetAttempt.totalCost := default 0 (asFinite (field m "totalCost"));
     BudgetAttempt.remaining := default 0 (asFinite (field m "remaining"));
     BudgetAttempt.perPersonTotal := default 0 (asFinite (field m "perPersonTotal")) |}
  = Spec.attemptRecord host i (JObj m).
Proof.
  assert (∀ k fallback, default fallback (asFinite (field m k))
                        = Spec.numberOr fallback (JObj m) k) as Hnumber.
  { intros k fallback. unfold field, Spec.numberOr.
    destruct (m !! k) as [[| | |[]| | |]|]; done. }
  assert (∀ k, asString (field m k)
               = if decide (is_Some (asString (field m k)))
                 then Some (Spec.text (JObj m) k) else None) as Htext.
  { intros k. unfold field, Spec.text. destruct (m !! k) as [[]|]; done. }
  assert (∀ k, asString (field m k) = None → Spec.text (JObj m) k = "") as Hnone.
  { intros k. unfold field, Spec.text. destruct (m !! k) as [[]|]; done. }
  unfold Spec.attemptRecord. cbn zeta. rewrite !Hnumber. f_equal.
  - rewrite (Htext "id"). case_decide as Hid; [done|].
    rewrite Hnone; [done|]. by destruct (asString (field m "id")) as [s|]; [destruct Hid|].
  - rewrite (Htext "name"). case_decide as Hname; [done|].
    rewrite Hnone; [done|]. by destruct (asString (field m "name")) as [s|]; [destruct Hname|].
  - unfold field, Spec.text. by destruct (m !! "selectedAccommodationId") as [[]|].
Qed.

Lemma accepted_candidates {A B} (accept : A → bool) (code : nat → A → option B)
    (made : nat → A → B) (position : nat → nat) (items : list A) :
  (∀ i item, code i item = if accept item then Some (made i item) else None) →
  omap (λ x, x) (imap (λ i item, code (position i) item) items)
  = (λ entry, made entry.1 entry.2)
    <$> filter (λ entry, accept entry.2 = true) (imap (λ i item, (position i, item)) items).
Proof.
  intros Hcode. revert position. induction items as [|item items IH]; intros position; [done|].
  rewrite !imap_cons, filter_cons. cbn [omap list_omap snd]. rewrite Hcode.
  specialize (IH (position ∘ S)). cbn [compose] in IH.
  change (imap ((λ i item0, code (position i) item0) ∘ S) items)
    with (imap (λ i item0, code (position (S i)) item0) items).
  change (imap ((λ i item0, (position i, item0)) ∘ S) items)
    with (imap (λ i item0, (position (S i), item0)) items).
  rewrite IH. destruct (accept item); [by rewrite decide_True|by rewrite decide_False].
Qed.

(** The attempts that survive normalization, told from the input. *)
Lemma normalizeBudgetAttempts_candidates (host : Host) (attempts : JValue) :
  Normalize.normalizeBudgetAttempts host attempts = Spec.candidates host attempts.
Proof.
  unfold Normalize.normalizeBudgetAttempts, Spec.candidates.
  destruct attempts as [| | | | |items|]; try done. f_equal.
  apply (accepted_candidates Spec.isRecord _ (Spec.attemptRecord host) (λ i, i)).
  intros i item. destruct (asObject item) as [m|] eqn:Hitem.
  - apply asObject_Some in Hitem as ->. cbn [Spec.isRecord]. f_equal.
    apply attemptRecord_code.
  - by destruct item.
Qed.

(** C5, as the code has it.  Whatever the input, legacy inputs with several
    attempts included, the normalized budget estimator holds at most one
    attempt.  The candidates are the elements of the attempts array that
    are plain objects, each made into an attempt, and of these the first 40
    only.  The attempt kept is the first candidate whose id is the stored
    [fixedAttemptId], otherwise the first candidate, and none exactly when
    there is no candidate; so an array with a plain object in it leaves
    exactly one attempt, which is one of the candidates.  The
    [fixedAttemptId] of the result is the id of the attempt kept, or the
    empty string when none is kept. *)
Theorem normalizeBudgetEstimator_single_attempt (host : Host) (budgetEstimator : JValue) :
  let result := Normalize.normalizeBudgetEstimator host budgetEstimator in
  let candidates := Spec.candidates host (optProp budgetEstimator "attempts") in
  let stored := Spec.text budgetEstimator "fixedAttemptId" in
  (length (BudgetEstimatorState.attempts result) ≤ 1)%nat
  ∧ BudgetEstimatorState.attempts result = option_list (preferred stored candidates)
  ∧ (BudgetEstimatorState.attempts result = [] ↔ candidates = [])
  ∧ BudgetEstimatorState.fixedAttemptId result
    = match BudgetEstimatorState.attempts result with
      | attempt :: _ => BudgetAttempt.id attempt
      | [] => ""
      end
  ∧ (∀ items, optProp budgetEstimator "attempts" = JArr items →
       Exists (λ item, Spec.isRecord item = true) items →
       ∃ kept, BudgetEstimatorState.attempts result = [kept]
               ∧ kept ∈ candidates
               ∧ BudgetEstimatorState.fixedAttemptId result = BudgetAttempt.id kept).
Proof.
  intros result candidates stored.
  destruct (normalizeBudgetEstimator_attempts host budgetEstimator) as [Hattempts Hfixed].
  rewrite normalizeBudgetAttempts_candidates in Hattempts, Hfixed.
  assert (default "" (asString (optProp budgetEstimator "fixedAttemptId")) = stored) as Hstored.
  { unfold stored, Spec.text, optProp. destruct budgetEstimator as [| | | | | |m]; try done.
    by destruct (m !! "fixedAttemptId") as [[]|]. }
  rewrite Hstored in Hattempts, Hfixed. fold result candidates in Hattempts, Hfixed.
  assert (candidates ≠ [] → ∃ kept, preferred stored candidates = Some kept ∧ kept ∈ candidates)
    as Hkept.
  { intros Hsome. unfold preferred.
    destruct (head (filter _ candidates)) as [named|] eqn:Hnamed.
    - exists named. split; [done|]. apply head_Some_elem_of in Hnamed.
      by apply list_elem_of_filter in Hnamed as [_ ?].
    - destruct candidates as [|first rest]; [done|]. exists first.
      split; [done|apply list_elem_of_here]. }
  rewrite Hfixed, Hattempts. split_and!.
  - destruct (preferred stored candidates); cbn; lia.
  - done.
  - split.
    + intros Hnone. destruct candidates as [|first rest] eqn:Hcandidates; [done|].
      destruct Hkept as (kept & Hpreferred & _); [done|]. by rewrite Hpreferred in Hnone.
    + intros Hnone. unfold preferred. by rewrite Hnone.
  - by destruct (preferred stored candidates).
  - intros items Hitems Hrecord.
    destruct Hkept as (kept & Hpreferred & Hin).
    + unfold candidates, Spec.candidates. rewrite Hitems.
      apply Exists_exists in Hrecord as (item & Hitem & Hisrecord).
      apply list_elem_of_lookup in Hitem as [i Hi].
      assert ((i, item) ∈ filter (λ entry : nat * JValue, Spec.isRecord entry.2 = true)
                                 (imap pair items)) as Hentry.
      { apply list_elem_of_filter. split; [done|]. apply elem_of_lookup_imap. by exists i, item. }
      destruct (filter _ (imap pair items)) as [|first rest]; [by apply elem_of_nil in Hentry|].
      done.
    + exists kept. rewrite Hpreferred. done.
Qed.

(** C5, as the specification states it, fails beyond the first 40 attempts:
    of 41 attempts [a0] to [a40], with [fixedAttemptId] naming the last,
    the one kept is the first. *)
Lemma normalizeBudgetEstimator_cut_at_forty :
  let result :=
    Normalize.normalizeBudgetEstimator (mkHost (λ _, num 7) (λ _, "r") (λ _, "7"))
      (ToJs.object
         [("fixedAttemptId", JStr "a40");
          ("attempts",
           JArr ((λ i, ToJs.object [("id", JStr ("a" +:+ pretty i))]) <$> seq 0 41))]) in
  BudgetAttempt.id <$> BudgetEstimatorState.attempts result = ["a0"]
  ∧ BudgetEstimatorState.fixedAttemptId result = "a0".
Proof. split; vm_compute; reflexivity. Qed.

(** Two legacy attempts, the second one remembered: it is the one kept. *)
Example normalizeBudgetEstimator_two_attempts :
  let result :=
    Normalize.normalizeBudgetEstimator (mkHost (λ _, num 7) (λ _, "r") (λ _, "7"))
      (ToJs.object
         [("fixedAttemptId", JStr "b");
          ("attempts", JArr [ToJs.object [("id", JStr "a"); ("name", JStr "first")];
                             ToJs.object [("id", JStr "b"); ("name", JStr "second")]])]) in
  BudgetAttempt.name <$> BudgetEstimatorState.attempts result = ["second"]
  ∧ BudgetEstimatorState.fixedAttemptId result = "b".
Proof. split; vm_compute; reflexivity. Qed.

End estimator.

(** ** Flight assignments *)

Section assignments.
Local Open Scope Qc_scope.

(** The count the normalizer stores for an entry, if it stores one. *)
Definition acceptedCount (count : JValue) : option Qc :=
  match asFinite count with
  | Some c => if geb c 0 then Some (Math_floor c) else None
  | None => None
  end.

Lemma normalizeFlightAssignments_object (entries : gmap string JValue) :
  Normalize.normalizeFlightAssignments (JObj entries) = omap acceptedCount entries.
Proof.
  unfold Normalize.normalizeFlightAssignments. rewrite asObject_JObj.
  rewrite (foldl_ext _ (collect (λ _, acceptedCount))).
  - rewrite foldl_collect. apply map_eq. intros k.
    by rewrite map_lookup_imap, lookup_omap.
  - intros acc [k count]. unfold collect, acceptedCount. cbn [fst snd].
    destruct (asFinite count); [|done]. by destruct (geb _ _).
Qed.

Lemma normalizeFlightAssignments_other (v : JValue) :
  (∀ entries, v ≠ JObj entries) → Normalize.normalizeFlightAssignments v = ∅.
Proof.
  intros Hv%asObject_None. unfold Normalize.normalizeFlightAssignments. by rewrite Hv.
Qed.

(** A count is whole when flooring leaves it as it is. *)
Definition whole (c : Qc) : Prop := Math_floor c = c.

Lemma normalizeFlightAssignments_values (v : JValue) (k : string) (c : Qc) :
  Normalize.normalizeFlightAssignments v !! k = Some c → 0 ≤ c ∧ whole c.
Proof.
  destruct (asObject v) as [entries|] eqn:Hv.
  - apply asObject_Some in Hv as ->. rewrite normalizeFlightAssignments_object, lookup_omap.
    destruct (entries !! k) as [count|]; [|done]. cbn. unfold acceptedCount.
    destruct (asFinite count) as [q|]; [|done]. unfold geb. case_bool_decide as Hq; [|done].
    intros [= <-]. split; [by apply Math_floor_nonneg | apply Math_floor_idem].
  - unfold Normalize.normalizeFlightAssignments. rewrite Hv. by rewrite lookup_empty.
Qed.

(** No key carries the count zero. *)
Definition canonical (assignments : gmap string Qc) : Prop :=
  ∀ flightId, assignments !! flightId ≠ Some 0.

(** C6, as the code has it.  The assignment-change operation ignores a
    negative count, removes the key for the count 0 and stores any other
    count under the key, the other entries being untouched; so a map
    without zero counts stays without them.  The normalizer returns the
    empty map for an input that is not a plain object; for a plain object
    it keeps exactly the entries whose count is a finite number that is
    not negative, each with its count floored.  Every count it returns is
    thus a whole number that is not negative, and it does not remove an
    entry whose count is, or floors to, zero. *)
Theorem flightAssignments_counts (props : BudgetCalculator.Props) (flightId : string)
    (count : Qc) (untyped : JValue) :
  let normalized := Normalize.normalizeFlightAssignments untyped in
  BudgetCalculator.handleAssignmentChange props flightId count
  = (if decide (count < 0) then []
     else [BudgetCalculator.onFlightAssignmentsChange
             (if decide (count = 0)
              then delete flightId (BudgetCalculator.flightAssignments props)
              else <[flightId := count]> (BudgetCalculator.flightAssignments props))])
  ∧ (∀ next,
       BudgetCalculator.onFlightAssignmentsChange next
         ∈ BudgetCalculator.handleAssignmentChange props flightId count →
       (canonical (BudgetCalculator.flightAssignments props) → canonical next)
       ∧ next !! flightId = (if decide (count = 0) then None else Some count)
       ∧ ∀ other, other ≠ flightId →
           next !! other = BudgetCalculator.flightAssignments props !! other)
  ∧ normalized
    = match untyped with
      | JObj entries => omap acceptedCount entries
      | _ => ∅
      end
  ∧ (∀ k c, normalized !! k = Some c → 0 ≤ c ∧ whole c)
  ∧ (∀ entries k q, untyped = JObj entries → entries !! k = Some (JNum (JFinite q)) →
       (0 ≤ q → normalized !! k = Some (Math_floor q))
       ∧ (0 ≤ q → q < 1 → normalized !! k = Some 0)
       ∧ (q < 0 → normalized !! k = None)).
Proof.
  intros normalized.
  assert (BudgetCalculator.handleAssignmentChange props flightId count
          = (if decide (count < 0) then []
             else [BudgetCalculator.onFlightAssignmentsChange
                     (if decide (count = 0)
                      then delete flightId (BudgetCalculator.flightAssignments props)
                      else <[flightId := count]> (BudgetCalculator.flightAssignments props))]))
    as Hcalls.
  { unfold BudgetCalculator.handleAssignmentChange, gtb.
    case_bool_decide as Hneg; [by rewrite decide_True|]. rewrite decide_False by done.
    by case_bool_decide; case_decide. }
  assert (normalized
          = match untyped with
            | JObj entries => omap acceptedCount entries
            | _ => ∅
            end) as Hnormalized.
  { unfold normalized. destruct untyped as [| | | | | |entries];
      try (by apply normalizeFlightAssignments_other).
    apply normalizeFlightAssignments_object. }
  split_and!.
  - done.
  - rewrite Hcalls. intros next. case_decide as Hneg; [by intros ?%elem_of_nil|].
    intros [= ->]%list_elem_of_singleton. case_decide as Hzero.
    + split_and!.
      * intros Hcan k. destruct (decide (k = flightId)) as [->|Hne].
        -- by rewrite lookup_delete_eq.
        -- rewrite lookup_delete_ne by done. apply Hcan.
      * apply lookup_delete_eq.
      * intros other Hne. by rewrite lookup_delete_ne.
    + split_and!.
      * intros Hcan k. destruct (decide (k = flightId)) as [->|Hne].
        -- rewrite lookup_insert_eq. congruence.
        -- rewrite lookup_insert_ne by done. apply Hcan.
      * apply lookup_insert_eq.
      * intros other Hne. by rewrite lookup_insert_ne.
  - done.
  - apply normalizeFlightAssignments_values.
  - intros entries k q -> Hk. rewrite Hnormalized, lookup_omap, Hk. cbn.
    unfold acceptedCount. cbn [asFinite]. unfold geb. split_and!.
    + intros Hq. by rewrite bool_decide_eq_true_2.
    + intros Hq Hone. rewrite bool_decide_eq_true_2 by done.
      destruct (Qcle_lt_or_eq _ _ Hq) as [Hpos|<-].
      * f_equal. unfold Math_floor.
        assert (Qfloor q = 0%Z) as ->; [|done].
        pose proof (Qfloor_le q) as Hle. pose proof (Qlt_floor q) as Hlt.
        assert (Qfloor q < 1)%Z.
        { rewrite Zlt_Qlt. eapply Qle_lt_trans; [exact Hle|]. exact Hone. }
        assert (0 < Qfloor q + 1)%Z.
        { rewrite Zlt_Qlt. eapply Qlt_trans; [|exact Hlt]. exact Hpos. }
        lia.
      * done.
    + intros Hq. rewrite bool_decide_eq_false_2; [done|]. by apply Qclt_not_le.
Qed.

(** C6, as the specification states it, fails for the normalizer: a zero
    count is kept, and a count below one becomes a zero count. *)
Lemma normalizeFlightAssignments_keeps_zero :
  Normalize.normalizeFlightAssignments
    (ToJs.object [("f1", ToJs.number 0); ("f2", ToJs.number (Q2Qc (1 # 2)))])
  = {[ "f1" := 0; "f2" := 0 ]}.
Proof. vm_compute; reflexivity. Qed.

(** Clearing the count of [f1] in the assignments [{f1: 2, f2: 1}], and
    normalizing stored assignments with a whole count, a zero count, a
    fraction, a negative count and a count that is no number. *)
Definition storedAssignments : gmap string JValue :=
  list_to_map [("f1", ToJs.number (num 2)); ("f2", ToJs.number 0);
               ("f3", ToJs.number (Q2Qc (1 # 2))); ("f4", ToJs.number (num (-1)));
               ("f5", JStr "2")].

Lemma flightAssignments_counts_witness :
  let props :=
    {| BudgetCalculator.flights := [];
       BudgetCalculator.accommodations := [];
       BudgetCalculator.settings := Normalize.DEFAULT_SETTINGS;
       BudgetCalculator.extraCosts := [];
       BudgetCalculator.flightAssignments := {[ "f1" := num 2; "f2" := 1 ]};
       BudgetCalculator.selectedAccommodationId := "";
       BudgetCalculator.attempts := [];
       BudgetCalculator.fixedAttemptId := "" |} in
  let normalized := Normalize.normalizeFlightAssignments (JObj storedAssignments) in
  BudgetCalculator.handleAssignmentChange props "f1" 0
  = [BudgetCalculator.onFlightAssignmentsChange
       (delete "f1" (BudgetCalculator.flightAssignments props))]
  ∧ normalized = omap acceptedCount storedAssignments
  ∧ normalized !! "f3" = Some 0
  ∧ normalized !! "f4" = None.
Proof.
  intros props normalized.
  destruct (flightAssignments_counts props "f1" 0 (JObj storedAssignments))
    as (Hcalls & _ & Hnormalized & _ & Hentries).
  split_and!.
  - exact Hcalls.
  - exact Hnormalized.
  - refine (proj1 (proj2 (Hentries storedAssignments "f3" (Q2Qc (1 # 2)) eq_refl _)) _ _);
      reflexivity || discriminate.
  - refine (proj2 (proj2 (Hentries storedAssignments "f4" (num (-1)) eq_refl _)) _);
      reflexivity.
Defined.

End assignments.


(** ** The extra-cost normalizer *)

Section extras.
Local Open Scope Qc_scope.

(** Reading a property of this element does not throw. *)
Definition readable (item : JValue) : Prop := item ≠ JNull ∧ item ≠ JUndefined.

Lemma extraCost_element (item : JValue) :
  readable item →
  (d ← getProp item "description";
   let description := default "" (asString d) in
   parsedValue ← getProp item "value";
   let value :=
     match asFinite parsedValue with
     | Some q => if geb q 0 then q else 0
     | None => 0
     end in
   Ok {| ExtraCost.description := description; ExtraCost.value := value |})
  = Ok (Spec.extraCostOf item).
Proof.
  intros [Hnull Hundef]. unfold Spec.extraCostOf, Spec.extraValue, Spec.text, geb.
  destruct item as [| |b|n|s|l|m]; try done. cbn.
  destruct (m !! "description") as [[]|]; cbn;
    destruct (m !! "value") as [[| |b'|[q| | |]|s'|l'|m']|]; cbn; done.
Qed.

Lemma normalizeExtraCosts_array (l : list JValue) :
  Forall readable l →
  Normalize.normalizeExtraCosts (JArr l)
  = Ok (List.filter Spec.worthKeeping (Spec.extraCostOf <$> l)).
Proof.
  intros Hread. unfold Normalize.normalizeExtraCosts.
  rewrite (mapM_Ok _ _ Spec.extraCostOf).
  - done.
  - intros item Hitem. apply extraCost_element.
    by apply (proj1 (list.Forall_forall _ _) Hread).
Qed.

(** C9, as the code has it.  A scalar number gives the one-element list with
    the generic description and that number when the number is finite and
    [> 0], and the empty list otherwise.  An array none of whose elements
    is [null] or [undefined] is converted element by element (a description
    that is no string becomes [''], a value that is no finite number
    [>= 0] becomes [0]), after which the elements with a blank description
    and the value [0] are dropped.  Anything else gives the empty list.  In
    all these cases the normalizer returns. *)
Theorem normalizeExtraCosts_cases (extraCosts : JValue) :
  (∀ l, extraCosts = JArr l → Forall readable l) →
  Normalize.normalizeExtraCosts extraCosts
  = Ok match extraCosts with
       | JNum (JFinite q) => if bool_decide (0 < q) then [Spec.generalExtraCost q] else []
       | JNum _ => []
       | JArr l => List.filter Spec.worthKeeping (Spec.extraCostOf <$> l)
       | _ => []
       end.
Proof.
  intros Hread. destruct extraCosts as [| |b|[q| | |]|s|l|m]; try done.
  apply normalizeExtraCosts_array. by apply Hread.
Qed.

(** A legacy array with a priced entry, an entry with a negative value, an
    empty entry and a stray number. *)
Lemma normalizeExtraCosts_cases_witness :
  Normalize.normalizeExtraCosts
    (JArr [ToJs.object [("description", JStr "visa"); ("value", ToJs.number (num 50))];
           ToJs.object [("description", JStr "fee"); ("value", ToJs.number (num (-1)))];
           ToJs.object [("description", JStr "  "); ("value", JStr "3")];
           ToJs.number (num 7)])
  = Ok [ {| ExtraCost.description := "visa"; ExtraCost.value := num 50 |};
         {| ExtraCost.description := "fee"; ExtraCost.value := 0 |} ].
Proof.
  rewrite normalizeExtraCosts_cases.
  - vm_compute. reflexivity.
  - intros l [= <-]. repeat constructor; done.
Defined.

(** C9, as the specification states it, fails for a scalar that is not
    positive: it is not upgraded to a one-element list. *)
Lemma normalizeExtraCosts_scalar_not_positive :
  Normalize.normalizeExtraCosts (ToJs.number 0) = Ok []
  ∧ Normalize.normalizeExtraCosts (ToJs.number (num (-5))) = Ok []
  ∧ Normalize.normalizeExtraCosts (JNum JNaN) = Ok [].
Proof. split_and!; vm_compute; reflexivity. Qed.

(** An array that holds [null] makes the normalizer throw. *)
Example normalizeExtraCosts_null_element :
  Normalize.normalizeExtraCosts (JArr [JNull]) = TypeError.
Proof. reflexivity. Qed.

End extras.

(** ** Overriding the saved baseline *)

Section baseline.
Local Open Scope Qc_scope.

(** The destination after the updaters the panel's callbacks stand for have
    been applied, in the order of the calls. *)
Definition dispatch (callbacks : list BudgetCalculator.Callback) (destination : Destination.t)
  : Destination.t :=
  foldl (λ current callback, DestinationView.handler callback current) destination callbacks.

(** C10.  When a saved baseline exists, overriding it with the current
    draft leaves exactly one attempt; it has the id of the previous saved
    attempt, its other fields being replaced by the name ["Saved baseline"],
    the clock, the live assignments and accommodation, and the costs of the
    live snapshot; and [fixedAttemptId] is that same id. *)
Theorem replaceSavedWithCurrent_keeps_id (settings : PlannerSettings.t) (now : Qc)
    (destination : Destination.t) (saved : BudgetAttempt.t) :
  let props := DestinationView.budgetCalculatorProps settings destination in
  BudgetCalculator.savedAttempt props = Some saved →
  let next := dispatch (BudgetCalculator.replaceSavedWithCurrent now props) destination in
  let live := Destination.budgetEstimator destination in
  BudgetEstimatorState.attempts (Destination.budgetEstimator next)
  = [ {| BudgetAttempt.id := BudgetAttempt.id saved;
         BudgetAttempt.name := "Saved baseline";
         BudgetAttempt.createdAt := now;
         BudgetAttempt.flightAssignments := BudgetEstimatorState.flightAssignments live;
         BudgetAttempt.selectedAccommodationId :=
           BudgetEstimatorState.selectedAccommodationId live;
         BudgetAttempt.totalCost := Budget.totalCost (BudgetCalculator.snapshot props);
         BudgetAttempt.remaining := Budget.remaining (BudgetCalculator.snapshot props);
         BudgetAttempt.perPersonTotal :=
           Budget.perPersonTotal (BudgetCalculator.snapshot props) |} ]
  ∧ BudgetEstimatorState.fixedAttemptId (Destination.budgetEstimator next)
    = BudgetAttempt.id saved
  ∧ BudgetEstimatorState.flightAssignments (Destination.budgetEstimator next)
    = BudgetEstimatorState.flightAssignments live
  ∧ BudgetEstimatorState.selectedAccommodationId (Destination.budgetEstimator next)
    = BudgetEstimatorState.selectedAccommodationId live.
Proof.
  intros props Hsaved next live. subst next.
  unfold BudgetCalculator.replaceSavedWithCurrent. rewrite Hsaved.
  unfold dispatch. cbn [foldl DestinationView.handler].
  unfold DestinationView.handleFixedAttemptIdChange, DestinationView.handleAttemptsChange.
  cbn [DestinationView.withBudgetEstimator Destination.budgetEstimator
       BudgetEstimatorState.attempts BudgetEstimatorState.fixedAttemptId
       BudgetEstimatorState.flightAssignments BudgetEstimatorState.selectedAccommodationId
       take head fmap option_fmap option_map BudgetAttempt.id existsb].
  split_and!; try done.
  rewrite String.eqb_refl. cbn [orb].
  destruct (String.eqb_spec (BudgetAttempt.id saved) "") as [->|]; done.
Qed.

(** A destination with the baseline [b1] saved and one traveller since moved
    onto flight [f1]. *)
Definition baselineExample : Destination.t :=
  {| Destination.id := "d1"; Destination.name := "Lisbon";
     Destination.latitude := 0; Destination.longitude := 0;
     Destination.notes := ""; Destination.extraCosts := [];
     Destination.budgetEstimator :=
       {| BudgetEstimatorState.flightAssignments := {[ "f1" := 1 ]};
          BudgetEstimatorState.selectedAccommodationId := "";
          BudgetEstimatorState.fixedAttemptId := "b1";
          BudgetEstimatorState.attempts :=
            [ {| BudgetAttempt.id := "b1"; BudgetAttempt.name := "Saved baseline";
                 BudgetAttempt.createdAt := 1; BudgetAttempt.flightAssignments := ∅;
                 BudgetAttempt.selectedAccommodationId := "";
                 BudgetAttempt.totalCost := 0; BudgetAttempt.remaining := num 5000;
                 BudgetAttempt.perPersonTotal := 0 |} ] |};
     Destination.flightDraft := FlightDraft.mk None None None None None;
     Destination.accommodationDraft := AccommodationDraft.mk None None None None None;
     Destination.flights :=
       [ {| Flight.id := "f1"; Flight.link := ""; Flight.description := "";
            Flight.startDate := ""; Flight.endDate := "";
            Flight.pricePerPerson := num 100 |} ];
     Destination.accommodations := [] |}.

Lemma replaceSavedWithCurrent_keeps_id_witness :
  BudgetEstimatorState.fixedAttemptId
    (Destination.budgetEstimator
       (dispatch
          (BudgetCalculator.replaceSavedWithCurrent (num 2)
             (DestinationView.budgetCalculatorProps Normalize.DEFAULT_SETTINGS baselineExample))
          baselineExample))
  = "b1".
Proof.
  refine (proj1 (proj2
    (replaceSavedWithCurrent_keeps_id Normalize.DEFAULT_SETTINGS (num 2) baselineExample
       (BudgetAttempt.mk "b1" "Saved baseline" 1 ∅ "" 0 (num 5000) 0) _))).
  reflexivity.
Defined.

End baseline.

(** ** Pushing over a newer remote document *)

Section push.
Local Open Scope Qc_scope.

(** The last-known-remote time stamp of this client for a code, [0] when it
    has none. *)
Definition lastKnownRemote (st : App.State) (code : string) : Qc :=
  default 0 (App.lastKnownRemoteByCode st !! code).

(** [meta.updatedAt] of a remote document. *)
Definition updatedAtOf (document : JValue) : JValue :=
  optProp (optProp document "meta") "updatedAt".

(** The handler writes nothing. *)
Definition writesNothing (events : list App.Event) : Prop :=
  ∀ path payload, App.EvSet path payload ∉ events.

(** Every write comes after the user has confirmed. *)
Definition confirmedBeforeWriting (events : list App.Event) : Prop :=
  ∀ before path payload after,
    events = before ++ App.EvSet path payload :: after → App.EvConfirm true ∈ before.

Lemma parseTimestamp_positive (t : Qc) :
  0 < t → Normalize.parseTimestamp (JNum (JFinite t)) = Some t.
Proof.
  intros Ht. unfold Normalize.parseTimestamp, geb. cbn.
  rewrite bool_decide_eq_false_2; [done|]. by apply Qclt_not_le.
Qed.

Lemma writesNothing_no_set (events : list App.Event) :
  (∀ e, e ∈ events → ∀ path payload, e ≠ App.EvSet path payload) → writesNothing events.
Proof. intros H path payload Hin. by eapply H. Qed.

Lemma writesNothing_confirmed (events : list App.Event) :
  writesNothing events → confirmedBeforeWriting events.
Proof.
  intros Hno before path payload after ->.
  destruct (Hno path payload). apply elem_of_app. right. apply list_elem_of_here.
Qed.

Lemma confirmed_then_set (read path : string) (payload : JValue) :
  confirmedBeforeWriting [App.EvGet read; App.EvConfirm true; App.EvSet path payload].
Proof.
  intros [|e1 [|e2 [|e3 before]]] path' payload' after Heq; simplify_eq/=.
  - apply list_elem_of_further, list_elem_of_here.
  - by destruct before.
Qed.

(** C8.  When the remote document of the trip code carries a time stamp
    [meta.updatedAt] that is newer than this client's last-known-remote time
    stamp for the code, every write of the push comes after a confirmation
    by the user; and when the user declines, the push writes nothing: the
    remote store and both markers of the code are as before. *)
Theorem handlePushToTrip_stale_confirmation (w : App.World) (st : App.State)
    (document : JValue) (t : Qc) :
  let code := App.normalizeTripCode (App.tripCode st) in
  App.remote w !! ("trips/" +:+ code) = Some document →
  updatedAtOf document = JNum (JFinite t) →
  0 < t →
  lastKnownRemote st code < t →
  let outcome := App.handlePushToTrip w st in
  confirmedBeforeWriting (App.events outcome)
  ∧ (App.confirmAnswer w = false →
       writesNothing (App.events outcome)
       ∧ App.store outcome = App.remote w
       ∧ App.lastKnownRemoteByCode (App.state outcome) = App.lastKnownRemoteByCode st
       ∧ App.lastLocalPushByCode (App.state outcome) = App.lastLocalPushByCode st)
  ∧ (App.isTripSyncAvailable w = true →
     (App.TRIP_CODE_MIN_LENGTH ≤ String.length code)%nat →
     App.getRejects w = false →
     take 2 (App.events outcome)
     = [App.EvGet ("trips/" +:+ code); App.EvConfirm (App.confirmAnswer w)]).
Proof.
  intros code Hdoc Hmeta Ht Hknown outcome. subst outcome.
  unfold App.handlePushToTrip. cbv zeta. fold code.
  destruct (App.isTripSyncAvailable w); cbn [negb].
  2: { split_and!; [by apply writesNothing_confirmed; intros ?? ?%elem_of_nil
                   | intros _; split_and!; [by intros ?? ?%elem_of_nil|done..]
                   | done]. }
  destruct (App.TRIP_CODE_MIN_LENGTH <=? String.length code)%nat eqn:Hlen; cbn [negb].
  2: { split_and!; [by apply writesNothing_confirmed; intros ?? ?%elem_of_nil
                   | intros _; split_and!; [by intros ?? ?%elem_of_nil|done..]
                   | ]. intros _ Hle. apply Nat.leb_le in Hle. congruence. }
  destruct (App.getRejects w).
  { assert (writesNothing [App.EvGet ("trips/" +:+ code)]) as Hno.
    { intros path payload [=]%list_elem_of_singleton. }
    split_and!; [by apply writesNothing_confirmed | by intros _ | done]. }
  rewrite Hdoc. change (default JNull (Some document)) with document.
  unfold updatedAtOf in Hmeta. rewrite Hmeta.
  rewrite parseTimestamp_positive by done. fold (lastKnownRemote st code).
  unfold gtb. rewrite bool_decide_eq_true_2 by done. cbn [andb].
  destruct (App.confirmAnswer w); cbn [negb].
  - destruct (App.setRejects w); cbn [App.events app].
    + split_and!; [apply confirmed_then_set | done | done].
    + split_and!; [apply confirmed_then_set | done | done].
  - assert (writesNothing [App.EvGet ("trips/" +:+ code); App.EvConfirm false]) as Hno.
    { intros path payload Hin. apply elem_of_cons in Hin as [[=]|Hin].
      by apply list_elem_of_singleton in Hin. }
    split_and!; [by apply writesNothing_confirmed | by intros _ | done].
Qed.

(** A peer pushed at time 20; this client last saw the remote at time 10,
    and the user declines. *)
Definition peerDocument : JValue :=
  ToJs.object [("destinations", JArr []);
               ("settings", ToJs.settings Normalize.DEFAULT_SETTINGS);
               ("meta", ToJs.object [("updatedAt", ToJs.number (num 20));
                                     ("updatedBy", JStr "peer")])].

Definition decliningWorld : App.World :=
  {| App.isTripSyncAvailable := true;
     App.remote := {[ "trips/ABCD" := peerDocument ]};
     App.getRejects := false;
     App.confirmAnswer := false;
     App.now := num 30;
     App.setRejects := false |}.

Definition staleClient : App.State :=
  {| App.destinations := [baselineExample];
     App.settings := Normalize.DEFAULT_SETTINGS;
     App.tripCode := "ab-cd";
     App.lastKnownRemoteByCode := {[ "ABCD" := num 10 ]};
     App.lastLocalPushByCode := ∅;
     App.syncStatus := App.mkStatus App.neutral "";
     App.isPushing := false;
     App.latestRemoteUpdatedAt := None;
     App.syncClientId := "me" |}.

Lemma handlePushToTrip_stale_confirmation_witness :
  App.store (App.handlePushToTrip decliningWorld staleClient) = App.remote decliningWorld
  ∧ App.events (App.handlePushToTrip decliningWorld staleClient)
    = [App.EvGet "trips/ABCD"; App.EvConfirm false].
Proof.
  destruct (handlePushToTrip_stale_confirmation decliningWorld staleClient
              peerDocument (num 20)) as (_ & Hdeclined & Hasked).
  - reflexivity.
  - reflexivity.
  - reflexivity.
  - reflexivity.
  - split.
    + apply Hdeclined. reflexivity.
    + reflexivity.
Defined.

End push.

(** ** Normalizing what is already normalized *)

Section fields.

(** The properties of the objects [ToJs] builds. *)
Lemma flight_fields (a b c d e p : JValue) :
  let m : gmap string JValue :=
    list_to_map [("id", a); ("link", b); ("description", c); ("startDate", d);
                 ("endDate", e); ("pricePerPerson", p)] in
  m !! "id" = Some a ∧ m !! "link" = Some b ∧ m !! "description" = Some c
  ∧ m !! "startDate" = Some d ∧ m !! "endDate" = Some e ∧ m !! "pricePerPerson" = Some p.
Proof. vm_compute. done. Qed.

Lemma accommodation_fields (a b c p d e : JValue) :
  let m : gmap string JValue :=
    list_to_map [("id", a); ("link", b); ("description", c); ("totalPrice", p);
                 ("startDate", d); ("endDate", e)] in
  m !! "id" = Some a ∧ m !! "link" = Some b ∧ m !! "description" = Some c
  ∧ m !! "startDate" = Some d ∧ m !! "endDate" = Some e ∧ m !! "totalPrice" = Some p.
Proof. vm_compute. done. Qed.

Lemma extraCost_fields (a b : JValue) :
  let m : gmap string JValue := list_to_map [("description", a); ("value", b)] in
  m !! "description" = Some a ∧ m !! "value" = Some b.
Proof. vm_compute. done. Qed.

Lemma budgetAttempt_fields (a b c d e f g h : JValue) :
  let m : gmap string JValue :=
    list_to_map [("id", a); ("name", b); ("createdAt", c); ("flightAssignments", d);
                 ("selectedAccommodationId", e); ("totalCost", f); ("remaining", g);
                 ("perPersonTotal", h)] in
  m !! "id" = Some a ∧ m !! "name" = Some b ∧ m !! "createdAt" = Some c
  ∧ m !! "flightAssignments" = Some d ∧ m !! "selectedAccommodationId" = Some e
  ∧ m !! "totalCost" = Some f ∧ m !! "remaining" = Some g ∧ m !! "perPersonTotal" = Some h.
Proof. vm_compute. done. Qed.

Lemma budgetEstimator_fields (a b c d : JValue) :
  let m : gmap string JValue :=
    list_to_map [("flightAssignments", a); ("selectedAccommodationId", b);
                 ("fixedAttemptId", c); ("attempts", d)] in
  m !! "flightAssignments" = Some a ∧ m !! "selectedAccommodationId" = Some b
  ∧ m !! "fixedAttemptId" = Some c ∧ m !! "attempts" = Some d.
Proof. vm_compute. done. Qed.

Lemma destination_fields (a b c d e f g h i j k : JValue) :
  let m : gmap string JValue :=
    list_to_map [("id", a); ("name", b); ("latitude", c); ("longitude", d); ("notes", e);
                 ("extraCosts", f); ("budgetEstimator", g); ("flightDraft", h);
                 ("accommodationDraft", i); ("flights", j); ("accommodations", k)] in
  m !! "id" = Some a ∧ m !! "name" = Some b ∧ m !! "latitude" = Some c
  ∧ m !! "longitude" = Some d ∧ m !! "notes" = Some e ∧ m !! "extraCosts" = Some f
  ∧ m !! "budgetEstimator" = Some g ∧ m !! "flightDraft" = Some h
  ∧ m !! "accommodationDraft" = Some i ∧ m !! "flights" = Some j
  ∧ m !! "accommodations" = Some k.
Proof. vm_compute. done. Qed.

Lemma settings_fields (a b : JValue) :
  let m : gmap string JValue := list_to_map [("totalBudget", a); ("peopleCount", b)] in
  m !! "totalBudget" = Some a ∧ m !! "peopleCount" = Some b.
Proof. vm_compute. done. Qed.

Lemma document_fields (a b : JValue) :
  let m : gmap string JValue := list_to_map [("destinations", a); ("settings", b)] in
  m !! "destinations" = Some a ∧ m !! "settings" = Some b ∧ m !! "meta" = None.
Proof. vm_compute. done. Qed.

End fields.

Section normalized.
Local Open Scope Qc_scope.

(** *** What a normalized document looks like *)

Definition wholeCounts (assignments : gmap string Qc) : Prop :=
  ∀ k c, assignments !! k = Some c → 0 ≤ c ∧ whole c.

Definition normalExtraCost (e : ExtraCost.t) : Prop :=
  0 ≤ ExtraCost.value e ∧ Spec.worthKeeping e = true.

Definition normalAttempt (a : BudgetAttempt.t) : Prop :=
  nonBlank (BudgetAttempt.id a) = true
  ∧ nonBlank (BudgetAttempt.name a) = true
  ∧ wholeCounts (BudgetAttempt.flightAssignments a).

Definition normalEstimator (b : BudgetEstimatorState.t) : Prop :=
  wholeCounts (BudgetEstimatorState.flightAssignments b)
  ∧ ((BudgetEstimatorState.attempts b = [] ∧ BudgetEstimatorState.fixedAttemptId b = "")
     ∨ ∃ a, BudgetEstimatorState.attempts b = [a]
            ∧ BudgetEstimatorState.fixedAttemptId b = BudgetAttempt.id a
            ∧ normalAttempt a).

Definition normalPrice (o : option Qc) : Prop :=
  match o with Some q => 0 ≤ q | None => True end.

Definition normalFlight (f : Flight.t) : Prop :=
  nonBlank (Flight.id f) = true ∧ 0 ≤ Flight.pricePerPerson f.

Definition normalAccommodation (a : Accommodation.t) : Prop :=
  nonBlank (Accommodation.id a) = true ∧ 0 ≤ Accommodation.totalPrice a.

Definition normalDestination (d : Destination.t) : Prop :=
  nonBlank (Destination.id d) = true
  ∧ nonBlank (Destination.name d) = true
  ∧ Forall normalExtraCost (Destination.extraCosts d)
  ∧ normalEstimator (Destination.budgetEstimator d)
  ∧ normalPrice (FlightDraft.pricePerPerson (Destination.flightDraft d))
  ∧ normalPrice (AccommodationDraft.totalPrice (Destination.accommodationDraft d))
  ∧ Forall normalFlight (Destination.flights d)
  ∧ Forall normalAccommodation (Destination.accommodations d).

(** Settings the settings normalizer accepts as they are. *)
Definition normalSettings (s : PlannerSettings.t) : Prop :=
  0 ≤ PlannerSettings.totalBudget s
  ∧ 0 < PlannerSettings.peopleCount s
  ∧ whole (PlannerSettings.peopleCount s).

(** *** Flight assignments *)

Lemma normalizeFlightAssignments_wholeCounts (v : JValue) :
  wholeCounts (Normalize.normalizeFlightAssignments v).
Proof. intros k c. apply normalizeFlightAssignments_values. Qed.

Lemma normalizeFlightAssignments_record (assignments : gmap string Qc) :
  wholeCounts assignments →
  Normalize.normalizeFlightAssignments (ToJs.record assignments) = assignments.
Proof.
  intros Hwhole. unfold ToJs.record. rewrite normalizeFlightAssignments_object.
  apply map_eq. intros k. rewrite lookup_omap, lookup_fmap.
  destruct (assignments !! k) as [c|] eqn:Hk; [|done]. cbn.
  destruct (Hwhole k c Hk) as [Hc Hfloor]. unfold acceptedCount. cbn.
  rewrite geb_true by done. by rewrite Hfloor.
Qed.

(** *** Extra costs *)

Lemma mapM_Ok_inv {A B} (f : A → Result B) (l : list A) (ys : list B) :
  mapM f l = Ok ys → ∀ y, y ∈ ys → ∃ x, x ∈ l ∧ f x = Ok y.
Proof.
  revert ys. induction l as [|x l IH]; intros ys.
  - intros [= <-] y Hy. by apply elem_of_nil in Hy.
  - cbn [mapM]. destruct (f x) as [y0|] eqn:Hx; [|done].
    destruct (mapM f l) as [ys0|] eqn:Hl; [|done].
    intros [= <-] y [->|Hy]%elem_of_cons.
    + exists x. split; [apply list_elem_of_here|done].
    + destruct (IH ys0 eq_refl y Hy) as (x' & Hx' & Hfx').
      exists x'. split; [by apply list_elem_of_further|done].
Qed.

Lemma worthKeeping_code (e : ExtraCost.t) :
  nonBlank (ExtraCost.description e) || gtb (ExtraCost.value e) 0 = Spec.worthKeeping e.
Proof. done. Qed.

Lemma normalizeExtraCosts_normal (v : JValue) (l : list ExtraCost.t) :
  Normalize.normalizeExtraCosts v = Ok l → Forall normalExtraCost l.
Proof.
  unfold Normalize.normalizeExtraCosts.
  destruct v as [| |b|[q| | |]|s|items|m]; try (intros [= <-]; constructor).
  - unfold gtb. case_bool_decide as Hq; intros [= <-]; constructor; [|constructor].
    split; [by apply Qclt_le_weak|done].
  - destruct (mapM _ items) as [mapped|] eqn:Hmap; [|done].
    intros [= <-]. apply list.Forall_forall. intros e He.
    apply list_elem_of_In, filter_In in He as [He Hkeep].
    apply list_elem_of_In in He.
    destruct (mapM_Ok_inv _ _ _ Hmap e He) as (item & _ & Hitem).
    split; [|done].
    destruct (getProp item "description") as [d|]; [|done].
    destruct (getProp item "value") as [pv|]; [|done].
    cbn in Hitem. injection Hitem as <-. cbn.
    destruct (asFinite pv) as [q|]; [|done].
    unfold geb. by case_bool_decide.
Qed.

Lemma extraCostOf_extraCost (e : ExtraCost.t) :
  0 ≤ ExtraCost.value e → Spec.extraCostOf (ToJs.extraCost e) = e.
Proof.
  intros He. destruct e as [description value]. cbn in He.
  unfold Spec.extraCostOf, Spec.extraValue, Spec.text, ToJs.extraCost, ToJs.object.
  cbn [ExtraCost.description ExtraCost.value].
  destruct (extraCost_fields (JStr description) (ToJs.number value)) as [-> ->].
  cbn. by rewrite bool_decide_eq_true_2.
Qed.

Lemma normalizeExtraCosts_again (l : list ExtraCost.t) :
  Forall normalExtraCost l →
  Normalize.normalizeExtraCosts (JArr (ToJs.extraCost <$> l)) = Ok l.
Proof.
  intros Hl. rewrite normalizeExtraCosts_array.
  - f_equal. induction Hl as [|e l [He Hkeep] Hl IH]; [done|].
    cbn [fmap list_fmap List.filter]. rewrite extraCostOf_extraCost by done.
    rewrite Hkeep. f_equal. apply IH.
  - apply list.Forall_forall.
    intros item (e & -> & _)%list_elem_of_fmap. by split.
Qed.

End normalized.

Section normalized_estimator.
Local Open Scope Qc_scope.

(** *** Attempts and the estimator *)

Lemma normalizeBudgetAttempts_normal (host : Host) (v : JValue) (a : BudgetAttempt.t) :
  a ∈ Normalize.normalizeBudgetAttempts host v → normalAttempt a.
Proof.
  unfold Normalize.normalizeBudgetAttempts.
  destruct v as [| | | | |l|]; try (by intros ?%elem_of_nil).
  intros Ha%subseteq_take.
  apply list_elem_of_omap in Ha as (o & Ho & ->).
  apply elem_of_lookup_imap in Ho as (i & attempt & Ho & _).
  destruct (asObject attempt) as [m|]; [|done].
  injection Ho as ->. split_and!; cbn.
  - destruct (asString (field m "id")) as [s|]; [|apply nonBlank_dashed].
    destruct (nonBlank s) eqn:Hs; [done|apply nonBlank_dashed].
  - destruct (asString (field m "name")) as [s|]; [|done].
    by destruct (nonBlank s) eqn:Hs.
  - apply normalizeFlightAssignments_wholeCounts.
Qed.

Lemma preferred_elem_of (stored : string) (survivors : list BudgetAttempt.t)
    (a : BudgetAttempt.t) :
  preferred stored survivors = Some a → a ∈ survivors.
Proof.
  unfold preferred.
  destruct (head (filter _ survivors)) as [a'|] eqn:Hhead.
  - intros [= <-]. apply head_Some_elem_of in Hhead.
    by apply list_elem_of_filter in Hhead as [_ ?].
  - apply head_Some_elem_of.
Qed.

Lemma normalizeBudgetEstimator_normal (host : Host) (v : JValue) :
  normalEstimator (Normalize.normalizeBudgetEstimator host v).
Proof.
  destruct (normalizeBudgetEstimator_attempts host v) as [Hatt Hfixed].
  split.
  - apply normalizeFlightAssignments_wholeCounts.
  - rewrite Hfixed, Hatt.
    destruct (preferred _ _) as [a|] eqn:Hpref; [right|by left].
    exists a. split_and!; [done..|].
    apply preferred_elem_of in Hpref. by eapply normalizeBudgetAttempts_normal.
Qed.

Lemma normalizeBudgetAttempts_again (host : Host) (a : BudgetAttempt.t) :
  normalAttempt a →
  Normalize.normalizeBudgetAttempts host (JArr [ToJs.budgetAttempt a]) = [a].
Proof.
  intros (Hid & Hname & Hcounts). destruct a as [aid name createdAt fa sel total rem ppt].
  cbn in Hid, Hname, Hcounts.
  unfold Normalize.normalizeBudgetAttempts, ToJs.budgetAttempt, ToJs.object.
  cbn [imap omap list_omap take BudgetAttempt.id BudgetAttempt.name BudgetAttempt.createdAt
       BudgetAttempt.flightAssignments BudgetAttempt.selectedAccommodationId
       BudgetAttempt.totalCost BudgetAttempt.remaining BudgetAttempt.perPersonTotal].
  rewrite asObject_JObj. unfold field.
  destruct (budgetAttempt_fields (JStr aid) (JStr name) (ToJs.number createdAt)
              (ToJs.record fa) (JStr sel) (ToJs.number total) (ToJs.number rem)
              (ToJs.number ppt)) as (-> & -> & -> & -> & -> & -> & -> & ->).
  cbn [from_option id asString asFinite ToJs.number].
  rewrite Hid, Hname, normalizeFlightAssignments_record by done. done.
Qed.

Lemma normalizeBudgetEstimator_again (host : Host) (b : BudgetEstimatorState.t) :
  normalEstimator b →
  Normalize.normalizeBudgetEstimator host (ToJs.budgetEstimator b) = b.
Proof.
  intros [Hcounts Hattempts]. destruct b as [fa sel fixed attempts].
  cbn in Hcounts, Hattempts.
  unfold Normalize.normalizeBudgetEstimator, ToJs.budgetEstimator, ToJs.object, optProp.
  cbn [BudgetEstimatorState.flightAssignments BudgetEstimatorState.selectedAccommodationId
       BudgetEstimatorState.fixedAttemptId BudgetEstimatorState.attempts].
  destruct (budgetEstimator_fields (ToJs.record fa) (JStr sel) (JStr fixed)
              (JArr (ToJs.budgetAttempt <$> attempts))) as (-> & -> & -> & ->).
  cbn [from_option id asString].
  rewrite normalizeFlightAssignments_record by done.
  destruct Hattempts as [[-> ->]|(a & -> & -> & Ha)].
  - done.
  - cbn [fmap list_fmap]. rewrite normalizeBudgetAttempts_again by done.
    cbn [find]. rewrite String.eqb_refl.
    cbn [head fmap option_fmap option_map]. by rewrite orEmpty_Some.
Qed.

(** *** Drafts *)

Lemma draftPrice_normal (v : JValue) : normalPrice (Normalize.draftPrice v).
Proof.
  unfold Normalize.draftPrice. destruct (asFinite v) as [q|]; [|done].
  unfold geb. by case_bool_decide.
Qed.

Lemma normalizeFlightDraft_normal (v : JValue) :
  normalPrice (FlightDraft.pricePerPerson (Normalize.normalizeFlightDraft v)).
Proof.
  unfold Normalize.normalizeFlightDraft. destruct (asObject v); [|done].
  apply draftPrice_normal.
Qed.

Lemma normalizeAccommodationDraft_normal (v : JValue) :
  normalPrice (AccommodationDraft.totalPrice (Normalize.normalizeAccommodationDraft v)).
Proof.
  unfold Normalize.normalizeAccommodationDraft. destruct (asObject v); [|done].
  apply draftPrice_normal.
Qed.

Lemma draftPrice_number (o : option Qc) :
  normalPrice o →
  Normalize.draftPrice (default JUndefined (ToJs.number <$> o)) = o.
Proof.
  destruct o as [q|]; [|done]. cbn. intros Hq. unfold Normalize.draftPrice. cbn.
  by rewrite geb_true.
Qed.

Lemma draft_fields (l d s e : option string) (p : option Qc) (priceKey : string) :
  priceKey = "pricePerPerson" ∨ priceKey = "totalPrice" →
  let m : gmap string JValue :=
    list_to_map (ToJs.present "link" JStr l ++ ToJs.present "description" JStr d
                 ++ ToJs.present "startDate" JStr s ++ ToJs.present "endDate" JStr e
                 ++ ToJs.present priceKey ToJs.number p) in
  asString (field m "link") = l ∧ asString (field m "description") = d
  ∧ asString (field m "startDate") = s ∧ asString (field m "endDate") = e
  ∧ field m priceKey = default JUndefined (ToJs.number <$> p).
Proof.
  intros [-> | ->]; destruct l, d, s, e, p; vm_compute; done.
Qed.

Lemma normalizeFlightDraft_again (d : FlightDraft.t) :
  normalPrice (FlightDraft.pricePerPerson d) →
  Normalize.normalizeFlightDraft (ToJs.flightDraft d) = d.
Proof.
  intros Hp. destruct d as [l de s e p]. cbn in Hp.
  unfold Normalize.normalizeFlightDraft, ToJs.flightDraft, ToJs.object.
  rewrite asObject_JObj.
  cbn [FlightDraft.link FlightDraft.description FlightDraft.startDate FlightDraft.endDate
       FlightDraft.pricePerPerson].
  destruct (draft_fields l de s e p "pricePerPerson" (or_introl eq_refl))
    as (-> & -> & -> & -> & ->).
  by rewrite draftPrice_number.
Qed.

Lemma normalizeAccommodationDraft_again (d : AccommodationDraft.t) :
  normalPrice (AccommodationDraft.totalPrice d) →
  Normalize.normalizeAccommodationDraft (ToJs.accommodationDraft d) = d.
Proof.
  intros Hp. destruct d as [l de s e p]. cbn in Hp.
  unfold Normalize.normalizeAccommodationDraft, ToJs.accommodationDraft, ToJs.object.
  rewrite asObject_JObj.
  cbn [AccommodationDraft.link AccommodationDraft.description AccommodationDraft.startDate
       AccommodationDraft.endDate AccommodationDraft.totalPrice].
  destruct (draft_fields l de s e p "totalPrice" (or_intror eq_refl))
    as (-> & -> & -> & -> & ->).
  by rewrite draftPrice_number.
Qed.

End normalized_estimator.

Section normalized_lists.
Local Open Scope Qc_scope.

(** *** Flights and accommodations *)

Lemma identified_text (item : JValue) :
  Spec.identified item = true → nonBlank (Spec.text item "id") = true.
Proof.
  unfold Spec.identified, Spec.text. destruct item as [| | | | | |m]; try done.
  by destruct (m !! "id") as [[]|].
Qed.

Lemma normalizeFlightList_normal (v : JValue) :
  Forall normalFlight (Normalize.normalizeFlightList v).
Proof.
  destruct v as [| | | | |l|]; try by constructor.
  rewrite normalizeFlightList_array. apply list.Forall_forall.
  intros f (item & -> & Hitem)%list_elem_of_fmap.
  apply list_elem_of_In, filter_In in Hitem as [_ Hid].
  split; [by apply identified_text | apply price_nonneg].
Qed.

Lemma normalizeAccommodationList_normal (v : JValue) :
  Forall normalAccommodation (Normalize.normalizeAccommodationList v).
Proof.
  destruct v as [| | | | |l|]; try by constructor.
  rewrite normalizeAccommodationList_array. apply list.Forall_forall.
  intros a (item & -> & Hitem)%list_elem_of_fmap.
  apply list_elem_of_In, filter_In in Hitem as [_ Hid].
  split; [by apply identified_text | apply price_nonneg].
Qed.

Lemma flight_again (f : Flight.t) :
  normalFlight f →
  Spec.identified (ToJs.flight f) = true ∧ Spec.flightRecord (ToJs.flight f) = f.
Proof.
  intros [Hid Hprice]. destruct f as [fid link description startDate endDate price].
  cbn in Hid, Hprice.
  unfold Spec.identified, Spec.flightRecord, Spec.text, Spec.price, ToJs.flight, ToJs.object.
  cbn [Flight.id Flight.link Flight.description Flight.startDate Flight.endDate
       Flight.pricePerPerson].
  destruct (flight_fields (JStr fid) (JStr link) (JStr description) (JStr startDate)
              (JStr endDate) (ToJs.number price)) as (-> & -> & -> & -> & -> & ->).
  cbn [Spec.coerced ToJs.number]. by rewrite bool_decide_eq_true_2.
Qed.

Lemma accommodation_again (a : Accommodation.t) :
  normalAccommodation a →
  Spec.identified (ToJs.accommodation a) = true
  ∧ Spec.accommodationRecord (ToJs.accommodation a) = a.
Proof.
  intros [Hid Hprice]. destruct a as [aid link description price startDate endDate].
  cbn in Hid, Hprice.
  unfold Spec.identified, Spec.accommodationRecord, Spec.text, Spec.price,
    ToJs.accommodation, ToJs.object.
  cbn [Accommodation.id Accommodation.link Accommodation.description
       Accommodation.startDate Accommodation.endDate Accommodation.totalPrice].
  destruct (accommodation_fields (JStr aid) (JStr link) (JStr description)
              (ToJs.number price) (JStr startDate) (JStr endDate))
    as (-> & -> & -> & -> & -> & ->).
  cbn [Spec.coerced ToJs.number]. by rewrite bool_decide_eq_true_2.
Qed.

Lemma normalizeFlightList_again (fs : list Flight.t) :
  Forall normalFlight fs →
  Normalize.normalizeFlightList (JArr (ToJs.flight <$> fs)) = fs.
Proof.
  intros Hfs. rewrite normalizeFlightList_array.
  induction Hfs as [|f fs Hf Hfs IH]; [done|].
  destruct (flight_again f Hf) as [Hid Hrec].
  cbn [fmap list_fmap List.filter]. rewrite Hid. cbn [fmap list_fmap].
  rewrite Hrec. f_equal. apply IH.
Qed.

Lemma normalizeAccommodationList_again (accs : list Accommodation.t) :
  Forall normalAccommodation accs →
  Normalize.normalizeAccommodationList (JArr (ToJs.accommodation <$> accs)) = accs.
Proof.
  intros Haccs. rewrite normalizeAccommodationList_array.
  induction Haccs as [|a accs Ha Haccs IH]; [done|].
  destruct (accommodation_again a Ha) as [Hid Hrec].
  cbn [fmap list_fmap List.filter]. rewrite Hid. cbn [fmap list_fmap].
  rewrite Hrec. f_equal. apply IH.
Qed.

(** *** Destinations *)

(** [destination as LegacyDestination] *)
Definition asLegacy (d : Destination.t) : Normalize.LegacyDestination :=
  {| Normalize.id := Destination.id d;
     Normalize.name := Destination.name d;
     Normalize.latitude := Destination.latitude d;
     Normalize.longitude := Destination.longitude d;
     Normalize.notes := JStr (Destination.notes d);
     Normalize.extraCosts := JArr (ToJs.extraCost <$> Destination.extraCosts d);
     Normalize.budgetEstimator := ToJs.budgetEstimator (Destination.budgetEstimator d);
     Normalize.flightDraft := ToJs.flightDraft (Destination.flightDraft d);
     Normalize.accommodationDraft :=
       ToJs.accommodationDraft (Destination.accommodationDraft d);
     Normalize.flights := Destination.flights d;
     Normalize.accommodations := Destination.accommodations d |}.

Lemma normalizeDestination_normal (host : Host) (legacy : Normalize.LegacyDestination)
    (d : Destination.t) :
  nonBlank (Normalize.id legacy) = true →
  nonBlank (Normalize.name legacy) = true →
  Forall normalFlight (Normalize.flights legacy) →
  Forall normalAccommodation (Normalize.accommodations legacy) →
  Normalize.normalizeDestination host legacy = Ok d →
  normalDestination d.
Proof.
  intros Hid Hname Hfs Haccs. unfold Normalize.normalizeDestination.
  destruct (Normalize.normalizeExtraCosts _) as [extras|] eqn:Hextras; [|done].
  intros [= <-]. split_and!; cbn; try done.
  - by eapply normalizeExtraCosts_normal.
  - apply normalizeBudgetEstimator_normal.
  - apply normalizeFlightDraft_normal.
  - apply normalizeAccommodationDraft_normal.
Qed.

Lemma normalizeDestination_again (host : Host) (d : Destination.t) :
  normalDestination d →
  Normalize.normalizeDestination host (asLegacy d) = Ok d.
Proof.
  intros (_ & _ & Hextras & Hest & Hfd & Had & _ & _).
  unfold Normalize.normalizeDestination, asLegacy.
  cbn [Normalize.id Normalize.name Normalize.latitude Normalize.longitude Normalize.notes
       Normalize.extraCosts Normalize.budgetEstimator Normalize.flightDraft
       Normalize.accommodationDraft Normalize.flights Normalize.accommodations].
  rewrite normalizeExtraCosts_again by done. cbn [mbind Result_bind bind].
  rewrite normalizeBudgetEstimator_again, normalizeFlightDraft_again,
    normalizeAccommodationDraft_again by done.
  by destruct d.
Qed.

Lemma normalizeDestinationCandidate_normal (host : Host) (candidate : JValue)
    (d : Destination.t) :
  Normalize.normalizeDestinationCandidate host candidate = Ok (Some d) →
  normalDestination d.
Proof.
  unfold Normalize.normalizeDestinationCandidate.
  destruct (asObject candidate) as [m|]; [|done].
  destruct (asString (field m "id")) as [cid|]; [|done].
  destruct (asString (field m "name")) as [cname|]; [|done].
  destruct (nonBlank cid) eqn:Hid; [|done].
  destruct (nonBlank cname) eqn:Hname; [|done]. cbn [negb orb].
  destruct (Normalize.parseNumberValue (field m "latitude")) as [lat|]; [|done].
  destruct (Normalize.parseNumberValue (field m "longitude")) as [lon|]; [|done].
  destruct (Normalize.normalizeDestination _ _) as [d'|] eqn:Hd; [|done].
  intros [= <-].
  eapply normalizeDestination_normal; [| | | |exact Hd]; cbn;
    [done | done | apply normalizeFlightList_normal
     | apply normalizeAccommodationList_normal].
Qed.

Lemma normalizeDestinationCandidate_again (host : Host) (d : Destination.t) :
  normalDestination d →
  Normalize.normalizeDestinationCandidate host (ToJs.destination d) = Ok (Some d).
Proof.
  intros Hd. pose proof Hd as (Hid & Hname & _ & _ & _ & _ & Hfs & Haccs).
  unfold Normalize.normalizeDestinationCandidate, ToJs.destination, ToJs.object.
  rewrite asObject_JObj. unfold field.
  destruct (destination_fields (JStr (Destination.id d)) (JStr (Destination.name d))
              (ToJs.number (Destination.latitude d)) (ToJs.number (Destination.longitude d))
              (JStr (Destination.notes d))
              (JArr (ToJs.extraCost <$> Destination.extraCosts d))
              (ToJs.budgetEstimator (Destination.budgetEstimator d))
              (ToJs.flightDraft (Destination.flightDraft d))
              (ToJs.accommodationDraft (Destination.accommodationDraft d))
              (JArr (ToJs.flight <$> Destination.flights d))
              (JArr (ToJs.accommodation <$> Destination.accommodations d)))
    as (-> & -> & -> & -> & -> & -> & -> & -> & -> & -> & ->).
  cbn [from_option id asString Normalize.parseNumberValue ToJs.number].
  rewrite Hid, Hname. cbn [negb orb].
  rewrite normalizeFlightList_again, normalizeAccommodationList_again by done.
  fold (asLegacy d). by rewrite normalizeDestination_again.
Qed.

End normalized_lists.

Section idempotence.
Local Open Scope Qc_scope.

(** *** Settings *)

Lemma normalizeSettings_cases (candidate : JValue) (fallback : PlannerSettings.t) :
  normalSettings fallback →
  let result := Normalize.normalizeSettings candidate fallback in
  0 ≤ PlannerSettings.totalBudget result
  ∧ 0 ≤ PlannerSettings.peopleCount result
  ∧ whole (PlannerSettings.peopleCount result).
Proof.
  intros (Hbudget & Hpeople & Hwhole) result. subst result.
  unfold Normalize.normalizeSettings.
  destruct (asObject candidate) as [m|];
    [|split_and!; [done | by apply Qclt_le_weak | done]].
  cbn [PlannerSettings.totalBudget PlannerSettings.peopleCount]. split_and!.
  - destruct (asFinite (field m "totalBudget")) as [q|]; [|done].
    unfold geb. by case_bool_decide.
  - destruct (asFinite (field m "peopleCount")) as [q|]; [|by apply Qclt_le_weak].
    unfold gtb. case_bool_decide; [by apply Math_floor_pos | by apply Qclt_le_weak].
  - destruct (asFinite (field m "peopleCount")) as [q|]; [|done].
    unfold gtb. case_bool_decide; [apply Math_floor_idem | done].
Qed.

Lemma normalizeSettings_again (s fallback : PlannerSettings.t) :
  normalSettings s → Normalize.normalizeSettings (ToJs.settings s) fallback = s.
Proof.
  intros (Hbudget & Hpeople & Hwhole). destruct s as [budget people].
  cbn in Hbudget, Hpeople, Hwhole.
  unfold Normalize.normalizeSettings, ToJs.settings, ToJs.object.
  rewrite asObject_JObj. unfold field.
  cbn [PlannerSettings.totalBudget PlannerSettings.peopleCount].
  destruct (settings_fields (ToJs.number budget) (ToJs.number people)) as [-> ->].
  cbn [from_option id asFinite ToJs.number].
  rewrite geb_true, gtb_true by done. by rewrite Hwhole.
Qed.

(** *** The whole document *)

(** The Root Document [{destinations, settings}] as a payload. *)
Definition rootDocument (document : Normalize.ParsedPayload) : JValue :=
  ToJs.object
    [("destinations", JArr (ToJs.destination <$> Normalize.destinations document));
     ("settings", ToJs.settings (Normalize.settings document))].

(** The document without the time stamp of the payload it was read from. *)
Definition withoutTimestamp (document : Normalize.ParsedPayload) : Normalize.ParsedPayload :=
  {| Normalize.destinations := Normalize.destinations document;
     Normalize.settings := Normalize.settings document;
     Normalize.remoteUpdatedAt := None |}.

Lemma omap_Some {A} (l : list A) : omap (λ x, x) (Some <$> l) = l.
Proof. induction l as [|x l IH]; [done|]. cbn. by rewrite IH. Qed.

Lemma candidates_again (hosts : nat → Host) (ds : list Destination.t) :
  Forall normalDestination ds →
  mapM (λ x, x)
    (imap (λ j destination, Normalize.normalizeDestinationCandidate (hosts j) destination)
          (ToJs.destination <$> ds))
  = Ok (Some <$> ds).
Proof.
  intros Hds. revert hosts. induction Hds as [|d ds Hd Hds IH]; intros hosts; [done|].
  rewrite fmap_cons, imap_cons. cbn [mapM].
  rewrite normalizeDestinationCandidate_again by done.
  cbn [mbind Result_bind bind].
  change (mapM (λ x, x)
            (imap ((λ j destination,
                      Normalize.normalizeDestinationCandidate (hosts j) destination) ∘ S)
                  (ToJs.destination <$> ds)))
    with (mapM (λ x, x)
            (imap (λ j destination,
                     Normalize.normalizeDestinationCandidate ((hosts ∘ S) j) destination)
                  (ToJs.destination <$> ds))).
  by rewrite IH.
Qed.

Lemma parseTripSyncPayload_normal (hosts : nat → Host) (payload : JValue)
    (fallback : PlannerSettings.t) (document : Normalize.ParsedPayload) :
  Normalize.parseTripSyncPayload hosts payload fallback = Ok (Some document) →
  Forall normalDestination (Normalize.destinations document)
  ∧ ∃ candidate, Normalize.settings document = Normalize.normalizeSettings candidate fallback.
Proof.
  unfold Normalize.parseTripSyncPayload.
  destruct (asObject payload) as [m|]; [|done].
  destruct (field m "destinations") as [| | | | |candidates|]; try done.
  destruct (mapM _ _) as [mapped|] eqn:Hmap; [|done]. cbn [mbind Result_bind bind].
  destruct (_ && _); [done|]. intros [= <-]. cbn. split; [|by eexists].
  apply list.Forall_forall. intros d Hd.
  apply list_elem_of_omap in Hd as (o & Ho & ->).
  destruct (mapM_Ok_inv _ _ _ Hmap _ Ho) as (r & Hr & ->).
  apply elem_of_lookup_imap in Hr as (j & candidate & Hr & _).
  by eapply normalizeDestinationCandidate_normal.
Qed.

(** C7, as the code has it.  A Root Document that the pipeline produced
    from valid fallback settings, and whose people count is at least one,
    is left as it is by the pipeline, whatever the host and the fallback of
    the second run; so is each of its destinations by
    [normalizeDestination]. *)
Theorem normalization_idempotent (hosts hosts' : nat → Host) (payload : JValue)
    (fallback fallback' : PlannerSettings.t) (document : Normalize.ParsedPayload) :
  normalSettings fallback →
  Normalize.parseTripSyncPayload hosts payload fallback = Ok (Some document) →
  1 ≤ PlannerSettings.peopleCount (Normalize.settings document) →
  Normalize.parseTripSyncPayload hosts' (rootDocument document) fallback'
  = Ok (Some (withoutTimestamp document))
  ∧ (∀ j d, Normalize.destinations document !! j = Some d →
       Normalize.normalizeDestination (hosts' j) (asLegacy d) = Ok d)
  ∧ Normalize.normalizeSettings (ToJs.settings (Normalize.settings document)) fallback'
    = Normalize.settings document.
Proof.
  intros Hfallback Hparse Hpeople.
  destruct (parseTripSyncPayload_normal _ _ _ _ Hparse) as [Hds [candidate Hsettings]].
  assert (normalSettings (Normalize.settings document)) as Hnormal.
  { rewrite Hsettings in Hpeople |- *.
    destruct (normalizeSettings_cases candidate fallback Hfallback) as (Hb & _ & Hw).
    split_and!; [done| |done].
    eapply Qclt_le_trans; [|exact Hpeople]. reflexivity. }
  split_and!.
  - unfold Normalize.parseTripSyncPayload, rootDocument, ToJs.object.
    rewrite asObject_JObj. unfold field, optProp.
    destruct (document_fields
                (JArr (ToJs.destination <$> Normalize.destinations document))
                (ToJs.settings (Normalize.settings document))) as (-> & -> & ->).
    cbn [from_option id]. rewrite candidates_again by done.
    cbn [mbind Result_bind bind]. rewrite omap_Some, length_fmap.
    rewrite normalizeSettings_again by done.
    unfold withoutTimestamp. destruct (Normalize.destinations document); done.
  - intros j d Hd. apply normalizeDestination_again.
    by eapply (proj1 (list.Forall_forall _ _) Hds), list_elem_of_lookup_2.
  - by apply normalizeSettings_again.
Qed.

(** The pipeline run twice with the same host and fallback. *)
Definition normalizeTwice (hosts : nat → Host) (payload : JValue)
    (fallback : PlannerSettings.t) : Result (option Normalize.ParsedPayload) :=
  match Normalize.parseTripSyncPayload hosts payload fallback with
  | Ok (Some document) =>
      Normalize.parseTripSyncPayload hosts (rootDocument document) fallback
  | other => other
  end.

(** The people count of a result, as a fraction. *)
Definition peopleOf (result : Result (option Normalize.ParsedPayload)) : option Q :=
  match result with
  | Ok (Some document) =>
      Some (this (PlannerSettings.peopleCount (Normalize.settings document)))
  | _ => None
  end.

Definition quietHosts : nat → Host := λ _, mkHost (λ _, num 7) (λ _, "r") (λ _, "7").

(** C7, as the specification states it, fails: the settings normalizer hands
    back the fallback as it is, so that with the fallback people count 5/2
    a payload without settings is normalized to 5/2 people, and that
    document to 2 people. *)
Lemma normalization_drifts_with_fallback :
  let fallback :=
    {| PlannerSettings.totalBudget := num 5000;
       PlannerSettings.peopleCount := Q2Qc (5 # 2) |} in
  let payload := ToJs.object [("destinations", JArr [])] in
  peopleOf (Normalize.parseTripSyncPayload quietHosts payload fallback) = Some (5 # 2)%Q
  ∧ peopleOf (normalizeTwice quietHosts payload fallback) = Some (2 # 1)%Q.
Proof. split; vm_compute; reflexivity. Qed.

(** The settings normalizer tests the people count before it floors it: a
    people count between 0 and 1 becomes 0, which the next run replaces by
    the fallback. *)
Example normalization_drifts_below_one :
  let payload :=
    ToJs.object [("destinations", JArr []);
                 ("settings", ToJs.object [("totalBudget", ToJs.number (num 100));
                                           ("peopleCount", ToJs.number (Q2Qc (1 # 2)))])] in
  peopleOf (Normalize.parseTripSyncPayload quietHosts payload Normalize.DEFAULT_SETTINGS)
  = Some (0 # 1)%Q
  ∧ peopleOf (normalizeTwice quietHosts payload Normalize.DEFAULT_SETTINGS)
    = Some (5 # 1)%Q.
Proof. split; vm_compute; reflexivity. Qed.

(** A legacy payload: a scalar extra cost, two attempts, a price given as a
    string, a flight without id, a draft with an ill-typed price. *)
Definition legacyPayload : JValue :=
  ToJs.object
    [("destinations",
      JArr [ToJs.object
              [("id", JStr "d1"); ("name", JStr "Lisbon");
               ("latitude", JStr "38.7"); ("longitude", ToJs.number (num (-9)));
               ("extraCosts", ToJs.number (num 50));
               ("budgetEstimator",
                ToJs.object
                  [("flightAssignments",
                    ToJs.object [("f1", ToJs.number (Q2Qc (5 # 2))); ("f2", JStr "x")]);
                   ("fixedAttemptId", JStr "b");
                   ("attempts",
                    JArr [ToJs.object [("id", JStr "a")];
                          ToJs.object [("id", JStr "b"); ("totalCost", ToJs.number (num 9))]])]);
               ("flightDraft", ToJs.object [("link", JStr "x"); ("pricePerPerson", JStr "1")]);
               ("flights",
                JArr [ToJs.object [("id", JStr "f1"); ("pricePerPerson", JStr "120.50")];
                      ToJs.object [("pricePerPerson", ToJs.number (num 10))]])];
            JStr "not a destination"]);
     ("settings", ToJs.object [("peopleCount", ToJs.number (Q2Qc (7 # 2)))]);
     ("meta", ToJs.object [("updatedAt", ToJs.number (num 20))])].

Lemma normalization_idempotent_witness :
  ∃ document,
    Normalize.parseTripSyncPayload quietHosts legacyPayload Normalize.DEFAULT_SETTINGS
    = Ok (Some document)
    ∧ length (Normalize.destinations document) = 1%nat
    ∧ Normalize.parseTripSyncPayload (λ _, mkHost (λ _, 0) (λ _, "") (λ _, ""))
        (rootDocument document) Normalize.DEFAULT_SETTINGS
      = Ok (Some (withoutTimestamp document)).
Proof.
  eexists. split; [vm_compute; reflexivity|]. split; [reflexivity|].
  refine (proj1 (normalization_idempotent quietHosts _ legacyPayload
                   Normalize.DEFAULT_SETTINGS _ _ _ _ _)).
  - split_and!; [done | reflexivity | apply Math_floor_num].
  - vm_compute; reflexivity.
  - done.
Defined.

End idempotence.


(** ** Further properties of the reconciler, the baseline slot and the trip code *)

Section further.
Local Open Scope Qc_scope.

Lemma existsb_eqb_accommodation (accommodations : list Accommodation.t) (wanted : string) :
  existsb (λ item, String.eqb (Accommodation.id item) wanted) accommodations
  = bool_decide (wanted ∈ Accommodation.id <$> accommodations).
Proof.
  induction accommodations as [|a accommodations IH].
  - symmetry. apply bool_decide_eq_false_2. by intros ?%elem_of_nil.
  - cbn [existsb]. rewrite IH, fmap_cons.
    destruct (String.eqb_spec (Accommodation.id a) wanted) as [Heq|Hne]; cbn [orb].
    + symmetry. apply bool_decide_eq_true_2. rewrite Heq. apply list_elem_of_here.
    + apply bool_decide_ext. rewrite elem_of_cons. intuition congruence.
Qed.

(** The selection [selected] once the accommodations are [accommodations]:
    kept when it names one of them, cleared otherwise. *)
Definition reselect (accommodations : list Accommodation.t) (selected : string) : string :=
  if decide (selected ∈ Accommodation.id <$> accommodations) then selected else "".

Lemma reselect_has (accommodations : list Accommodation.t) (selected : string) :
  (if bool_decide (selected ∈ (list_to_set (Accommodation.id <$> accommodations) : gset string))
   then selected else "")
  = reselect accommodations selected.
Proof.
  unfold reselect. case_bool_decide as Hin; rewrite elem_of_list_to_set in Hin;
    by case_decide.
Qed.

(** Replacing the accommodations of a destination clears a live selection
    that names none of them, does the same to the selection of the
    stored attempt, and recomputes the attempt's totals from the snapshot
    over the current flights, the new accommodations and the attempt's own
    assignments. *)
Theorem handleAccChange_reconciles (settings : PlannerSettings.t)
    (accommodations : list Accommodation.t) (current : Destination.t) :
  let next := DestinationView.handleAccChange settings accommodations current in
  let estimator := Destination.budgetEstimator current in
  let resnapshot (attempt : BudgetAttempt.t) :=
    Budget.calculateBudgetSnapshot
      {| Budget.flights := Destination.flights current;
         Budget.accommodations := accommodations;
         Budget.flightAssignments := BudgetAttempt.flightAssignments attempt;
         Budget.selectedAccommodationId :=
           reselect accommodations (BudgetAttempt.selectedAccommodationId attempt);
         Budget.extraCosts := Destination.extraCosts current;
         Budget.settings := settings |} in
  Destination.accommodations next = accommodations
  ∧ BudgetEstimatorState.selectedAccommodationId (Destination.budgetEstimator next)
    = reselect accommodations (BudgetEstimatorState.selectedAccommodationId estimator)
  ∧ BudgetEstimatorState.flightAssignments (Destination.budgetEstimator next)
    = BudgetEstimatorState.flightAssignments estimator
  ∧ BudgetEstimatorState.attempts (Destination.budgetEstimator next)
    = (λ attempt,
         {| BudgetAttempt.id := BudgetAttempt.id attempt;
            BudgetAttempt.name := BudgetAttempt.name attempt;
            BudgetAttempt.createdAt := BudgetAttempt.createdAt attempt;
            BudgetAttempt.flightAssignments := BudgetAttempt.flightAssignments attempt;
            BudgetAttempt.selectedAccommodationId :=
              reselect accommodations (BudgetAttempt.selectedAccommodationId attempt);
            BudgetAttempt.totalCost := Budget.totalCost (resnapshot attempt);
            BudgetAttempt.remaining := Budget.remaining (resnapshot attempt);
            BudgetAttempt.perPersonTotal := Budget.perPersonTotal (resnapshot attempt) |})
      <$> option_list (head (BudgetEstimatorState.attempts estimator))
  ∧ BudgetEstimatorState.fixedAttemptId (Destination.budgetEstimator next)
    = from_option BudgetAttempt.id "" (head (BudgetEstimatorState.attempts estimator)).
Proof.
  intros next estimator resnapshot. subst next estimator resnapshot.
  unfold DestinationView.handleAccChange.
  cbn [Destination.accommodations Destination.budgetEstimator
       BudgetEstimatorState.selectedAccommodationId BudgetEstimatorState.flightAssignments
       BudgetEstimatorState.attempts BudgetEstimatorState.fixedAttemptId].
  split_and!; [done| |done| |].
  - rewrite existsb_eqb_accommodation. unfold reselect. by case_bool_decide; case_decide.
  - destruct (BudgetEstimatorState.attempts (Destination.budgetEstimator current))
      as [|attempt rest]; [done|].
    cbn [take head option_list fmap list_fmap]. by rewrite reselect_has.
  - destruct (BudgetEstimatorState.attempts (Destination.budgetEstimator current))
      as [|attempt rest]; [done|].
    cbn [take head fmap list_fmap option_fmap option_map BudgetAttempt.id from_option].
    apply orEmpty_Some.
Qed.

(** The baseline slot.  Clearing empties it; saving fills an empty slot with
    one attempt under the new id, and changes nothing when the slot is
    taken. *)
Theorem baseline_slot (settings : PlannerSettings.t) (newId : string) (now : Qc)
    (destination : Destination.t) :
  let props := DestinationView.budgetCalculatorProps settings destination in
  let estimatorAfter callbacks :=
    Destination.budgetEstimator (dispatch callbacks destination) in
  BudgetEstimatorState.attempts
    (estimatorAfter (BudgetCalculator.clearSavedBaseline props)) = []
  ∧ BudgetEstimatorState.fixedAttemptId
      (estimatorAfter (BudgetCalculator.clearSavedBaseline props)) = ""
  ∧ match BudgetCalculator.savedAttempt props with
    | Some _ =>
        dispatch (BudgetCalculator.saveBaseline newId now props) destination = destination
    | None =>
        BudgetAttempt.id
          <$> BudgetEstimatorState.attempts
                (estimatorAfter (BudgetCalculator.saveBaseline newId now props))
        = [newId]
        ∧ BudgetEstimatorState.fixedAttemptId
            (estimatorAfter (BudgetCalculator.saveBaseline newId now props))
          = newId
    end.
Proof.
  intros props estimatorAfter. subst estimatorAfter. cbv beta.
  split_and!; [done|done|].
  unfold BudgetCalculator.saveBaseline.
  destruct (BudgetCalculator.savedAttempt props); [done|].
  unfold dispatch. cbn [foldl DestinationView.handler].
  unfold DestinationView.handleFixedAttemptIdChange, DestinationView.handleAttemptsChange.
  cbn [DestinationView.withBudgetEstimator Destination.budgetEstimator
       BudgetEstimatorState.attempts BudgetEstimatorState.fixedAttemptId
       take head fmap list_fmap option_fmap option_map BudgetAttempt.id existsb].
  split; [done|].
  rewrite String.eqb_refl. cbn [orb].
  destruct (String.eqb_spec newId "") as [->|]; done.
Qed.

Lemma length_string_of_list_ascii (l : list ascii) :
  String.length (string_of_list_ascii l) = length l.
Proof. induction l as [|c l IH]; [done|]. cbn. by rewrite IH. Qed.

(** A normalized trip code has at most twelve characters, each a capital
    letter or a digit, and normalizing it again changes nothing. *)
Theorem normalizeTripCode_shape (value : string) :
  let code := App.normalizeTripCode value in
  (String.length code ≤ App.TRIP_CODE_MAX_LENGTH)%nat
  ∧ Forall (λ c, App.isCodeCharacter c = true) (list_ascii_of_string code)
  ∧ App.normalizeTripCode code = code.
Proof.
  intros code. subst code. unfold App.normalizeTripCode.
  set (kept := take App.TRIP_CODE_MAX_LENGTH
                 (List.filter App.isCodeCharacter
                    (App.toUpperCase <$> list_ascii_of_string value))).
  assert (Forall (λ c, App.isCodeCharacter c = true) kept) as Hkept.
  { apply list.Forall_forall. intros c Hc%subseteq_take.
    by apply list_elem_of_In, filter_In in Hc as [_ ?]. }
  assert (length kept ≤ App.TRIP_CODE_MAX_LENGTH)%nat as Hlen.
  { unfold kept. rewrite length_take. lia. }
  split_and!.
  - by rewrite length_string_of_list_ascii.
  - by rewrite list_ascii_of_string_of_list_ascii.
  - rewrite list_ascii_of_string_of_list_ascii. f_equal.
    rewrite <- (take_ge kept App.TRIP_CODE_MAX_LENGTH) at 2 by done. f_equal.
    clear Hlen. induction Hkept as [|c l Hc _ IH]; [done|].
    rewrite fmap_cons.
    assert (App.toUpperCase c = c) as ->.
    { unfold App.toUpperCase, App.isCodeCharacter in *.
      destruct (97 <=? nat_of_ascii c)%nat eqn:Hlow; [|done].
      apply Nat.leb_le in Hlow.
      apply orb_true_iff in Hc as [Hc|Hc]; apply andb_true_iff in Hc as [_ Hc];
        apply Nat.leb_le in Hc; lia. }
    cbn [List.filter]. rewrite Hc. f_equal. apply IH.
Qed.

(** An array that holds [null] makes the extra-cost normalizer throw,
    whatever else it holds. *)
Theorem normalizeExtraCosts_throws (before after : list JValue) :
  Normalize.normalizeExtraCosts (JArr (before ++ JNull :: after)) = TypeError.
Proof.
  unfold Normalize.normalizeExtraCosts.
  assert (∀ f : JValue → Result ExtraCost.t,
            f JNull = TypeError → mapM f (before ++ JNull :: after) = TypeError) as Hthrow.
  { intros f Hf. induction before as [|x before IH].
    - cbn [app mapM]. by rewrite Hf.
    - cbn [app mapM]. rewrite IH. by destruct (f x). }
  by rewrite Hthrow.
Qed.

Lemma Math_floor_below_one (q : Qc) : 0 < q → q < 1 → Math_floor q = 0.
Proof.
  intros Hpos Hone. unfold Math_floor.
  assert (Qfloor q = 0%Z) as ->; [|done].
  pose proof (Qfloor_le q) as Hle. pose proof (Qlt_floor q) as Hlt.
  assert (Qfloor q < 1)%Z.
  { rewrite Zlt_Qlt. eapply Qle_lt_trans; [exact Hle|]. exact Hone. }
  assert (0 < Qfloor q + 1)%Z.
  { rewrite Zlt_Qlt. eapply Qlt_trans; [|exact Hlt]. exact Hpos. }
  lia.
Qed.

(** The settings normalizer tests the people count before it floors it: a
    candidate people count between 0 and 1 is stored as 0. *)
Theorem normalizeSettings_below_one (budget : JValue) (q : Qc)
    (fallback : PlannerSettings.t) :
  0 < q → q < 1 →
  PlannerSettings.peopleCount
    (Normalize.normalizeSettings
       (ToJs.object [("totalBudget", budget); ("peopleCount", ToJs.number q)]) fallback)
  = 0.
Proof.
  intros Hpos Hone. unfold Normalize.normalizeSettings, ToJs.object.
  rewrite asObject_JObj. unfold field.
  destruct (settings_fields budget (ToJs.number q)) as [-> ->].
  cbn [PlannerSettings.peopleCount from_option id asFinite ToJs.number].
  rewrite gtb_true by done. by apply Math_floor_below_one.
Qed.

Lemma normalizeSettings_below_one_half :
  PlannerSettings.peopleCount
    (Normalize.normalizeSettings
       (ToJs.object [("totalBudget", ToJs.number (num 100));
                     ("peopleCount", ToJs.number (Q2Qc (1 # 2)))])
       Normalize.DEFAULT_SETTINGS)
  = 0.
Proof. apply normalizeSettings_below_one; reflexivity. Defined.

End further.


(** ** The repair of the stored destinations *)

Section repair.
Local Open Scope Qc_scope.

Lemma existsb_false {A} (f : A → bool) (l : list A) :
  (∀ x, x ∈ l → f x = false) → existsb f l = false.
Proof.
  induction l as [|x l IH]; intros H; [done|]. cbn.
  rewrite (H x) by apply list_elem_of_here. cbn.
  apply IH. intros y Hy. apply H. by apply list_elem_of_further.
Qed.

Lemma notAmount_number (q : Qc) : 0 ≤ q → Validate.notAmount (ToJs.number q) = false.
Proof.
  intros Hq. unfold Validate.notAmount, gtb. cbn.
  apply bool_decide_eq_false_2. by apply Qcle_not_lt.
Qed.

Lemma someM_false {A} (f : A → Result bool) (l : list A) :
  (∀ x, x ∈ l → f x = Ok false) → Validate.someM f l = Ok false.
Proof.
  induction l as [|x l IH]; intros H; [done|]. cbn [Validate.someM].
  rewrite (H x) by apply list_elem_of_here. cbn.
  apply IH. intros y Hy. apply H. by apply list_elem_of_further.
Qed.

Lemma hasInvalidExtraCosts_typed (l : list ExtraCost.t) :
  Forall (λ e, 0 ≤ ExtraCost.value e) l →
  Validate.hasInvalidExtraCosts (JArr (ToJs.extraCost <$> l)) = Ok false.
Proof.
  intros Hl. cbn [Validate.hasInvalidExtraCosts]. apply someM_false. intros v Hv.
  apply list_elem_of_fmap in Hv as (e & -> & He).
  rewrite list.Forall_forall in Hl. specialize (Hl e He).
  unfold ToJs.extraCost, ToJs.object. cbn [getProp].
  destruct (extraCost_fields (JStr (ExtraCost.description e)) (ToJs.number (ExtraCost.value e)))
    as (-> & ->).
  cbn [from_option id mbind Result_bind bind Validate.notString asString].
  by rewrite notAmount_number.
Qed.

Lemma hasInvalidFlightAssignments_record (assignments : gmap string Qc) :
  (∀ k c, assignments !! k = Some c → 0 ≤ c) →
  Validate.hasInvalidFlightAssignments (ToJs.record assignments) = false.
Proof.
  intros Hc. unfold Validate.hasInvalidFlightAssignments, ToJs.record.
  rewrite asObject_JObj. apply existsb_false. intros [k v] Hkv.
  apply elem_of_map_to_list in Hkv. rewrite lookup_fmap in Hkv.
  destruct (assignments !! k) as [c|] eqn:Hk; [|done]. cbn in Hkv. simplify_eq.
  apply notAmount_number. by eapply Hc.
Qed.

Lemma hasInvalidBudgetAttempts_typed (attempts : list BudgetAttempt.t) :
  (length attempts ≤ 1)%nat →
  Forall (λ a, wholeCounts (BudgetAttempt.flightAssignments a)) attempts →
  Validate.hasInvalidBudgetAttempts (JArr (ToJs.budgetAttempt <$> attempts)) = false.
Proof.
  intros Hlen Hall. unfold Validate.hasInvalidBudgetAttempts.
  rewrite length_fmap.
  destruct (1 <? length attempts)%nat eqn:Hlt; [apply Nat.ltb_lt in Hlt; lia|].
  apply existsb_false. intros v Hv.
  apply list_elem_of_fmap in Hv as (a & -> & Ha).
  rewrite list.Forall_forall in Hall. specialize (Hall a Ha).
  unfold ToJs.budgetAttempt, ToJs.object. rewrite asObject_JObj. unfold field.
  destruct (budgetAttempt_fields (JStr (BudgetAttempt.id a)) (JStr (BudgetAttempt.name a))
              (ToJs.number (BudgetAttempt.createdAt a))
              (ToJs.record (BudgetAttempt.flightAssignments a))
              (JStr (BudgetAttempt.selectedAccommodationId a))
              (ToJs.number (BudgetAttempt.totalCost a))
              (ToJs.number (BudgetAttempt.remaining a))
              (ToJs.number (BudgetAttempt.perPersonTotal a)))
    as (-> & -> & -> & -> & -> & -> & -> & ->).
  cbn [from_option id Validate.notString Validate.notFinite asString asFinite ToJs.number orb].
  rewrite hasInvalidFlightAssignments_record; [done|].
  intros k c Hk. by destruct (Hall k c Hk).
Qed.

Lemma hasInvalidBudgetEstimator_typed (b : BudgetEstimatorState.t) :
  normalEstimator b →
  Validate.hasInvalidBudgetEstimator (ToJs.budgetEstimator b) = false.
Proof.
  intros [Hcounts Hattempts].
  unfold Validate.hasInvalidBudgetEstimator, ToJs.budgetEstimator, ToJs.object.
  rewrite asObject_JObj. unfold field.
  destruct (budgetEstimator_fields (ToJs.record (BudgetEstimatorState.flightAssignments b))
              (JStr (BudgetEstimatorState.selectedAccommodationId b))
              (JStr (BudgetEstimatorState.fixedAttemptId b))
              (JArr (ToJs.budgetAttempt <$> BudgetEstimatorState.attempts b)))
    as (-> & -> & -> & ->).
  cbn [from_option id Validate.notString asString orb].
  rewrite hasInvalidFlightAssignments_record
    by (intros k c Hk; by destruct (Hcounts k c Hk)).
  rewrite hasInvalidBudgetAttempts_typed.
  - rewrite !orb_false_r. apply bool_decide_eq_false_2. intros [v Hv].
    revert Hv. vm_compute. done.
  - destruct Hattempts as [[-> _]|(a & -> & _)]; cbn; lia.
  - destruct Hattempts as [[-> _]|(a & -> & _ & _ & _ & Ha)]; [done|].
    by apply Forall_singleton.
Qed.

Lemma present_elem {A} (k : string) (f : A → JValue) (o : option A) (entry : string * JValue) :
  entry ∈ ToJs.present k f o → ∃ a, o = Some a ∧ entry = (k, f a).
Proof.
  destruct o as [a|]; cbn; [|by intros ?%elem_of_nil].
  intros ->%list_elem_of_singleton. by exists a.
Qed.

Lemma hasInvalidFlightDraft_typed (d : FlightDraft.t) :
  normalPrice (FlightDraft.pricePerPerson d) →
  Validate.hasInvalidFlightDraft (ToJs.flightDraft d) = false.
Proof.
  intros Hprice. unfold Validate.hasInvalidFlightDraft, ToJs.flightDraft, ToJs.object.
  rewrite asObject_JObj. apply existsb_false. intros [k v] Hkv.
  apply elem_of_map_to_list, elem_of_list_to_map_2 in Hkv.
  rewrite !elem_of_app in Hkv.
  destruct Hkv as [H|[H|[H|[H|H]]]]; apply present_elem in H as (a & Ha & [= -> ->]);
    try done.
  rewrite Ha in Hprice. unfold Validate.invalidDraftEntry. cbn.
  by apply notAmount_number.
Qed.

Lemma hasInvalidAccommodationDraft_typed (d : AccommodationDraft.t) :
  normalPrice (AccommodationDraft.totalPrice d) →
  Validate.hasInvalidAccommodationDraft (ToJs.accommodationDraft d) = false.
Proof.
  intros Hprice.
  unfold Validate.hasInvalidAccommodationDraft, ToJs.accommodationDraft, ToJs.object.
  rewrite asObject_JObj. apply existsb_false. intros [k v] Hkv.
  apply elem_of_map_to_list, elem_of_list_to_map_2 in Hkv.
  rewrite !elem_of_app in Hkv.
  destruct Hkv as [H|[H|[H|[H|H]]]]; apply present_elem in H as (a & Ha & [= -> ->]);
    try done.
  rewrite Ha in Hprice. unfold Validate.invalidDraftEntry. cbn.
  by apply notAmount_number.
Qed.

(** What the checks of the repair effect look at, in a typed destination. *)
Definition wellFormed (d : Destination.t) : Prop :=
  Forall (λ e, 0 ≤ ExtraCost.value e) (Destination.extraCosts d)
  ∧ normalEstimator (Destination.budgetEstimator d)
  ∧ normalPrice (FlightDraft.pricePerPerson (Destination.flightDraft d))
  ∧ normalPrice (AccommodationDraft.totalPrice (Destination.accommodationDraft d)).

Lemma missesFields_wellFormed (d : Destination.t) :
  wellFormed d → Validate.missesFields (asLegacy d) = Ok false.
Proof.
  intros (Hextras & Hest & Hfd & Had). unfold Validate.missesFields, asLegacy.
  cbn [Normalize.notes Normalize.extraCosts Normalize.budgetEstimator Normalize.flightDraft
       Normalize.accommodationDraft Validate.notString asString].
  rewrite hasInvalidExtraCosts_typed by done. cbn [mbind Result_bind bind].
  by rewrite hasInvalidBudgetEstimator_typed, hasInvalidFlightDraft_typed,
    hasInvalidAccommodationDraft_typed.
Qed.

Lemma normalizeDestination_wellFormed (host : Host) (legacy : Normalize.LegacyDestination)
    (d : Destination.t) :
  Normalize.normalizeDestination host legacy = Ok d →
  wellFormed d ∧ Destination.id d = Normalize.id legacy
  ∧ Destination.flights d = Normalize.flights legacy
  ∧ Destination.accommodations d = Normalize.accommodations legacy.
Proof.
  unfold Normalize.normalizeDestination.
  destruct (Normalize.normalizeExtraCosts _) as [extras|] eqn:Hextras; [|done].
  intros [= <-]. split; [|done]. unfold wellFormed. split_and!; cbn.
  - eapply Forall_impl; [by eapply normalizeExtraCosts_normal|]. by intros e [He _].
  - apply normalizeBudgetEstimator_normal.
  - apply normalizeFlightDraft_normal.
  - apply normalizeAccommodationDraft_normal.
Qed.

Lemma normalizeAll_wellFormed (hosts : nat → Host) (stored : list Normalize.LegacyDestination)
    (repaired : list Destination.t) :
  mapM (λ x, x)
    (imap (λ j destination, Normalize.normalizeDestination (hosts j) destination) stored)
  = Ok repaired →
  Forall wellFormed repaired
  ∧ Destination.id <$> repaired = Normalize.id <$> stored
  ∧ Destination.flights <$> repaired = Normalize.flights <$> stored
  ∧ Destination.accommodations <$> repaired = Normalize.accommodations <$> stored.
Proof.
  revert hosts repaired. induction stored as [|legacy stored IH]; intros hosts repaired.
  - cbn. by intros [= <-].
  - rewrite imap_cons. cbn [mapM].
    destruct (Normalize.normalizeDestination (hosts 0%nat) legacy) as [d|] eqn:Hd; [|done].
    cbn [mbind Result_bind bind].
    destruct (mapM _ _) as [rest|] eqn:Hrest; [|done]. cbn. intros [= <-].
    apply normalizeDestination_wellFormed in Hd as (Hw & Hid & Hfs & Haccs).
    destruct (IH (hosts ∘ S) rest Hrest) as (Hws & Hids & Hfss & Haccss).
    rewrite !fmap_cons, Hid, Hfs, Haccs, Hids, Hfss, Haccss.
    split_and!; try done. by constructor.
Qed.

(** The repair effect settles.  When the effect finds a stored destination
    with a missing or malformed field and stores the normalized list, that
    list has the ids, flights and accommodations of the stored one, in the
    same order, and the next run of the effect finds nothing to repair and
    stores nothing. *)
Theorem repairEffect_settles (hosts hosts' : nat → Host)
    (stored : list Normalize.LegacyDestination) (repaired : list Destination.t) :
  Validate.repairEffect hosts stored = Ok (Some repaired) →
  Destination.id <$> repaired = Normalize.id <$> stored
  ∧ Destination.flights <$> repaired = Normalize.flights <$> stored
  ∧ Destination.accommodations <$> repaired = Normalize.accommodations <$> stored
  ∧ Validate.repairEffect hosts' (asLegacy <$> repaired) = Ok None.
Proof.
  unfold Validate.repairEffect at 1.
  destruct (Validate.someM _ stored) as [[|]|]; try done. cbn [mbind Result_bind bind].
  destruct (mapM _ _) as [normalized|] eqn:Hmap; [|done]. cbn. intros [= <-].
  apply normalizeAll_wellFormed in Hmap as (Hw & Hids & Hfs & Haccs).
  split_and!; try done.
  unfold Validate.repairEffect. rewrite someM_false; [done|].
  intros legacy (d & -> & Hd)%list_elem_of_fmap.
  apply missesFields_wellFormed. rewrite list.Forall_forall in Hw. by apply Hw.
Qed.


(** A stored list from before the notes, the extra-cost list and the drafts
    existed. *)
Definition legacyStore : list Normalize.LegacyDestination :=
  [ {| Normalize.id := "d1"; Normalize.name := "Lisbon";
       Normalize.latitude := num 38; Normalize.longitude := num (-9);
       Normalize.notes := JUndefined;
       Normalize.extraCosts := ToJs.number (num 40);
       Normalize.budgetEstimator :=
         ToJs.object [("flightAssignments", ToJs.object [("f1", ToJs.number (num 2))]);
                      ("changeHistory", JArr [])];
       Normalize.flightDraft := JUndefined;
       Normalize.accommodationDraft := JUndefined;
       Normalize.flights := [];
       Normalize.accommodations := [] |} ].

Lemma repairEffect_settles_witness :
  ∃ repaired,
    Validate.repairEffect quietHosts legacyStore = Ok (Some repaired)
    ∧ Validate.repairEffect quietHosts (asLegacy <$> repaired) = Ok None.
Proof.
  eexists. split; [vm_compute; reflexivity|].
  refine (proj2 (proj2 (proj2 (repairEffect_settles quietHosts quietHosts legacyStore _ _)))).
  vm_compute; reflexivity.
Defined.

End repair.


(** ** Pull and push, one after the other *)

Section sync.
Local Open Scope Qc_scope.

Lemma payload_fields (a b c : JValue) :
  let m : gmap string JValue :=
    list_to_map [("destinations", a); ("settings", b); ("meta", c)] in
  m !! "destinations" = Some a ∧ m !! "settings" = Some b ∧ m !! "meta" = Some c.
Proof. vm_compute. done. Qed.

Lemma meta_fields (a b : JValue) :
  let m : gmap string JValue := list_to_map [("updatedAt", a); ("updatedBy", b)] in
  m !! "updatedAt" = Some a.
Proof. vm_compute. done. Qed.

(** Reading back a pushed document. *)
Lemma parseTripSyncPayload_pushed (hosts : nat → Host) (st : App.State) (t : Qc)
    (fallback : PlannerSettings.t) :
  Forall normalDestination (App.destinations st) →
  normalSettings (App.settings st) →
  Normalize.parseTripSyncPayload hosts (App.pushPayload st t) fallback
  = Ok (Some {| Normalize.destinations := App.destinations st;
                Normalize.settings := App.settings st;
                Normalize.remoteUpdatedAt := Normalize.parseTimestamp (ToJs.number t) |}).
Proof.
  intros Hds Hsettings.
  unfold Normalize.parseTripSyncPayload, App.pushPayload, ToJs.object.
  rewrite asObject_JObj. unfold field, optProp.
  destruct (payload_fields (JArr (ToJs.destination <$> App.destinations st))
              (ToJs.settings (App.settings st))
              (JObj (list_to_map [("updatedAt", ToJs.number t);
                                  ("updatedBy", JStr (App.syncClientId st))])))
    as (-> & -> & ->).
  cbn [from_option id]. rewrite candidates_again by done.
  cbn [mbind Result_bind bind]. rewrite omap_Some, length_fmap.
  rewrite normalizeSettings_again by done. rewrite meta_fields.
  cbn [from_option id]. by destruct (App.destinations st).
Qed.

(** The time stamp a push reads from the remote document is the one a pull
    records for it. *)
Lemma parseTripSyncPayload_timestamp (hosts : nat → Host) (payload : JValue)
    (fallback : PlannerSettings.t) (parsed : Normalize.ParsedPayload) :
  Normalize.parseTripSyncPayload hosts payload fallback = Ok (Some parsed) →
  Normalize.remoteUpdatedAt parsed
  = Normalize.parseTimestamp (optProp (optProp payload "meta") "updatedAt").
Proof.
  unfold Normalize.parseTripSyncPayload.
  destruct (asObject payload) as [m|] eqn:Hm; [|done].
  apply asObject_Some in Hm as ->.
  destruct (field m "destinations") as [| | | | |candidates|]; try done.
  destruct (mapM _ _) as [mapped|]; [|done]. cbn [mbind Result_bind bind].
  destruct (_ && _); [done|]. by intros [= <-].
Qed.

Lemma parseTimestamp_not_newer (v : JValue) (t : Qc) :
  Normalize.parseTimestamp v = Some t → gtb t (default 0 (Normalize.parseTimestamp v)) = false.
Proof.
  intros ->. cbn. unfold gtb. apply bool_decide_eq_false_2.
  intros H. apply (Qclt_not_le _ _ H). apply Qcle_refl.
Qed.


(** The trip code a handler works with is long enough. *)
Definition validCode (st : App.State) : Prop :=
  (App.TRIP_CODE_MIN_LENGTH ≤ String.length (App.normalizeTripCode (App.tripCode st)))%nat.

(** Where the trip of a state lives in the remote store. *)
Definition tripPath (st : App.State) : string :=
  "trips/" +:+ App.normalizeTripCode (App.tripCode st).

(** A world in which sync is configured and neither the read nor the write
    is rejected. *)
Definition reachable (w : App.World) : Prop :=
  App.isTripSyncAvailable w = true ∧ App.getRejects w = false ∧ App.setRejects w = false.

Lemma validCode_leb (st : App.State) :
  validCode st →
  (App.TRIP_CODE_MIN_LENGTH <=? String.length (App.normalizeTripCode (App.tripCode st)))%nat
  = true.
Proof. intros H. by apply Nat.leb_le. Qed.

(** What a pull does when the remote document parses. *)
Lemma handlePullFromTrip_parsed (hosts : nat → Host) (w : App.World) (v : App.View)
    (payload : JValue) (parsed : Normalize.ParsedPayload) :
  App.isTripSyncAvailable w = true →
  App.getRejects w = false →
  validCode (App.planner v) →
  App.remote w !! tripPath (App.planner v) = Some payload →
  Normalize.parseTripSyncPayload hosts payload (App.settings (App.planner v))
  = Ok (Some parsed) →
  let v' := App.view (App.handlePullFromTrip hosts w v) in
  App.destinations (App.planner v') = Normalize.destinations parsed
  ∧ App.settings (App.planner v') = Normalize.settings parsed
  ∧ App.activeId v' = App.firstId (Normalize.destinations parsed)
  ∧ App.lastKnownRemoteByCode (App.planner v')
    = <[App.normalizeTripCode (App.tripCode (App.planner v)) :=
          default 0 (Normalize.remoteUpdatedAt parsed)]>
        (App.lastKnownRemoteByCode (App.planner v))
  ∧ App.lastLocalPushByCode (App.planner v') = App.lastLocalPushByCode (App.planner v)
  ∧ App.tripCode (App.planner v') = App.tripCode (App.planner v)
  ∧ App.syncClientId (App.planner v') = App.syncClientId (App.planner v)
  ∧ App.kind (App.syncStatus (App.planner v')) = App.success
  ∧ App.isPulling v' = false.
Proof.
  intros Havailable Hget Hcode Hremote Hparse. unfold App.handlePullFromTrip.
  rewrite Havailable, validCode_leb, Hget by done. cbn [negb].
  unfold tripPath in Hremote. rewrite Hremote. cbn [from_option id].
  destruct payload; try done; by rewrite Hparse.
Qed.


(** A pull that ends with the status [success] has read a document that
    parses. *)
Lemma handlePullFromTrip_success (hosts : nat → Host) (w : App.World) (v : App.View) :
  App.kind (App.syncStatus (App.planner (App.view (App.handlePullFromTrip hosts w v))))
  = App.success →
  App.isTripSyncAvailable w = true ∧ App.getRejects w = false
  ∧ validCode (App.planner v)
  ∧ ∃ payload parsed,
      App.remote w !! tripPath (App.planner v) = Some payload
      ∧ Normalize.parseTripSyncPayload hosts payload (App.settings (App.planner v))
        = Ok (Some parsed).
Proof.
  unfold App.handlePullFromTrip.
  destruct (App.isTripSyncAvailable w) eqn:Havailable; [|done]. cbn [negb].
  destruct (_ <=? _)%nat eqn:Hcode; [|done]. cbn [negb].
  destruct (App.getRejects w) eqn:Hget; [done|].
  destruct (App.remote w !! _) as [payload|] eqn:Hremote; [|done].
  cbn [from_option id]. intros Hstatus.
  split_and!; [done | done | by apply Nat.leb_le |]. exists payload.
  destruct payload; try done;
    match type of Hstatus with
    | context [Normalize.parseTripSyncPayload ?h ?p ?f] =>
        destruct (Normalize.parseTripSyncPayload h p f) as [[parsed|]|] eqn:Hparse;
          try done; by exists parsed
    end.
Qed.

(** A pull that does not succeed leaves the plan alone.  Unless
    [handlePullFromTrip] ends with the status [success], the destinations, the
    settings, the destination on show, the trip code and both sync markers
    are as they were: this covers sync not being configured, a code that is
    too short, a read that is rejected, a trip that does not exist, a
    document that is rejected and a document on which normalization throws. *)
Theorem handlePullFromTrip_failure_keeps (hosts : nat → Host) (w : App.World) (v : App.View) :
  let v' := App.view (App.handlePullFromTrip hosts w v) in
  App.kind (App.syncStatus (App.planner v')) ≠ App.success →
  App.destinations (App.planner v') = App.destinations (App.planner v)
  ∧ App.settings (App.planner v') = App.settings (App.planner v)
  ∧ App.activeId v' = App.activeId v
  ∧ App.tripCode (App.planner v') = App.tripCode (App.planner v)
  ∧ App.lastKnownRemoteByCode (App.planner v') = App.lastKnownRemoteByCode (App.planner v)
  ∧ App.lastLocalPushByCode (App.planner v') = App.lastLocalPushByCode (App.planner v).
Proof.
  unfold App.handlePullFromTrip.
  destruct (App.isTripSyncAvailable w); [|done]. cbn [negb].
  destruct (_ <=? _)%nat; [|done]. cbn [negb].
  destruct (App.getRejects w); [done|].
  destruct (App.remote w !! _) as [payload|]; [|done]. cbn [from_option id].
  destruct payload; try done;
    match goal with
    | |- context [Normalize.parseTripSyncPayload ?h ?p ?f] =>
        destruct (Normalize.parseTripSyncPayload h p f) as [[parsed|]|]; done
    end.
Qed.

(** What a push does when nothing is rejected and the user, if asked,
    confirms. *)
Lemma handlePushToTrip_written (w : App.World) (st : App.State) :
  reachable w → validCode st → App.confirmAnswer w = true →
  let outcome := App.handlePushToTrip w st in
  App.store outcome = <[tripPath st := App.pushPayload st (App.now w)]> (App.remote w)
  ∧ App.lastKnownRemoteByCode (App.state outcome)
    = <[App.normalizeTripCode (App.tripCode st) := App.now w]> (App.lastKnownRemoteByCode st)
  ∧ App.destinations (App.state outcome) = App.destinations st
  ∧ App.settings (App.state outcome) = App.settings st
  ∧ App.tripCode (App.state outcome) = App.tripCode st
  ∧ App.syncClientId (App.state outcome) = App.syncClientId st.
Proof.
  intros (Havailable & Hget & Hset) Hcode Hconfirm. unfold App.handlePushToTrip.
  rewrite Havailable, validCode_leb, Hget, Hconfirm, Hset by done.
  cbn [negb]. rewrite andb_false_r. done.
Qed.

(** What the remote database keeps of a written value.  It stores no
    [null], no empty array and no empty object, at any depth: a property
    with such a value is absent from the document that is read back, and
    an array element with such a value is read back as [null].  A pushed
    document holds no [undefined].  The database can hand back as an array
    an object all of whose keys are integers; that is not modelled, and
    [storable] below keeps such objects out of the documents [kept] is
    applied to. *)
Fixpoint kept (v : JValue) : option JValue :=
  match v with
  | JUndefined | JNull => None
  | JArr l =>
      match l with
      | [] => None
      | _ => Some (JArr ((λ item, default JNull (kept item)) <$> l))
      end
  | JObj m =>
      let m' := omap kept m in
      if decide (m' = ∅) then None else Some (JObj m')
  | other => Some other
  end.

(** A key made of digits only. *)
Definition digitsOnly (k : string) : bool :=
  forallb (λ c, let n := nat_of_ascii c in (48 <=? n)%nat && (n <=? 57)%nat)
          (list_ascii_of_string k).

(** No key of the assignments is made of digits only. *)
Definition textKeys (assignments : gmap string Qc) : bool :=
  forallb (λ entry : string * Qc, negb (digitsOnly entry.1)) (map_to_list assignments).

(** A destination whose assignments, live and saved, have no key made of
    digits only: the only objects of its document with keys of the user's
    making. *)
Definition storable (d : Destination.t) : bool :=
  textKeys (BudgetEstimatorState.flightAssignments (Destination.budgetEstimator d))
  && forallb (λ attempt, textKeys (BudgetAttempt.flightAssignments attempt))
             (BudgetEstimatorState.attempts (Destination.budgetEstimator d)).

(** A property read back from the store: [undefined] when nothing is kept. *)
Definition readBack (v : JValue) : JValue := default JUndefined (kept v).

Lemma kept_JObj (m : gmap string JValue) :
  kept (JObj m) = if decide (omap kept m = ∅) then None else Some (JObj (omap kept m)).
Proof. done. Qed.

Lemma kept_JArr (l : list JValue) :
  kept (JArr l)
  = match l with
    | [] => None
    | _ => Some (JArr ((λ item, default JNull (kept item)) <$> l))
    end.
Proof. done. Qed.

(** An object with a property that is kept is kept, property by property. *)
Lemma kept_object (m : gmap string JValue) (k : string) (x y : JValue) :
  m !! k = Some x → kept x = Some y →
  kept (JObj m) = Some (JObj (omap kept m)).
Proof.
  intros Hk Hx. rewrite kept_JObj. rewrite decide_False; [done|].
  intros Hempty. assert (omap kept m !! k = Some y) as Hy.
  { by rewrite lookup_omap, Hk. }
  by rewrite Hempty, lookup_empty in Hy.
Qed.

Lemma field_kept (m : gmap string JValue) (k : string) (x : JValue) :
  m !! k = Some x → field (omap kept m) k = readBack x.
Proof. intros Hk. unfold field, readBack. by rewrite lookup_omap, Hk. Qed.

(** A value that is kept as it is. *)
Definition intact (v : JValue) : Prop := kept v = Some v.

Lemma readBack_intact (v : JValue) : intact v → readBack v = v.
Proof. unfold intact, readBack. by intros ->. Qed.

Lemma intact_object (fields : list (string * JValue)) :
  fields ≠ [] → Forall (λ entry, intact entry.2) fields → intact (ToJs.object fields).
Proof.
  intros Hfields Hintact. unfold intact, ToJs.object. rewrite kept_JObj.
  assert (omap kept (list_to_map fields : gmap string JValue) = list_to_map fields) as ->.
  { apply map_eq. intros k. rewrite lookup_omap.
    destruct (list_to_map fields !! k) as [x|] eqn:Hk; [|done]. cbn.
    apply elem_of_list_to_map_2 in Hk.
    exact (proj1 (list.Forall_forall _ _) Hintact (k, x) Hk). }
  rewrite decide_False; [done|].
  destruct fields as [|[k x] fields]; [done|]. cbn [list_to_map foldr].
  apply insert_non_empty.
Qed.

Lemma intact_elements (l : list JValue) :
  Forall intact l → (λ item, default JNull (kept item)) <$> l = l.
Proof.
  induction 1 as [|x l Hx _ IH]; [done|]. rewrite fmap_cons, IH. by rewrite Hx.
Qed.

Lemma intact_array {A} (f : A → JValue) (l : list A) :
  (∀ x, intact (f x)) →
  readBack (JArr (f <$> l)) = match l with [] => JUndefined | _ => JArr (f <$> l) end.
Proof.
  intros Hf. unfold readBack. rewrite kept_JArr.
  rewrite intact_elements by (apply Forall_fmap, list.Forall_forall; intros x _; apply Hf).
  by destruct l.
Qed.

Lemma intact_number (q : Qc) : intact (ToJs.number q).
Proof. done. Qed.

Lemma intact_string (s : string) : intact (JStr s).
Proof. done. Qed.

Lemma intact_flight (f : Flight.t) : intact (ToJs.flight f).
Proof. apply intact_object; [done|]. repeat constructor. Qed.

Lemma intact_accommodation (a : Accommodation.t) : intact (ToJs.accommodation a).
Proof. apply intact_object; [done|]. repeat constructor. Qed.

Lemma intact_extraCost (e : ExtraCost.t) : intact (ToJs.extraCost e).
Proof. apply intact_object; [done|]. repeat constructor. Qed.

Lemma intact_settings (s : PlannerSettings.t) : intact (ToJs.settings s).
Proof. apply intact_object; [done|]. repeat constructor. Qed.

Lemma readBack_record (assignments : gmap string Qc) :
  readBack (ToJs.record assignments)
  = if decide (assignments = ∅) then JUndefined else ToJs.record assignments.
Proof.
  unfold readBack, ToJs.record. rewrite kept_JObj.
  assert (omap kept (ToJs.number <$> assignments) = ToJs.number <$> assignments) as ->.
  { apply map_eq. intros k. rewrite lookup_omap, lookup_fmap.
    by destruct (assignments !! k). }
  destruct (decide (assignments = ∅)) as [->|Hne].
  - by rewrite fmap_empty, decide_True.
  - rewrite decide_False; [done|]. by intros ?%fmap_empty_inv.
Qed.

Lemma normalizeFlightAssignments_readBack (assignments : gmap string Qc) :
  wholeCounts assignments →
  Normalize.normalizeFlightAssignments (readBack (ToJs.record assignments)) = assignments.
Proof.
  intros Hwhole. rewrite readBack_record. case_decide as Hempty.
  - by rewrite Hempty.
  - by apply normalizeFlightAssignments_record.
Qed.


Lemma readBack_string (s : string) : readBack (JStr s) = JStr s.
Proof. done. Qed.

Lemma readBack_number (q : Qc) : readBack (ToJs.number q) = ToJs.number q.
Proof. done. Qed.

Lemma normalizeExtraCosts_readBack (l : list ExtraCost.t) :
  Forall normalExtraCost l →
  Normalize.normalizeExtraCosts (readBack (JArr (ToJs.extraCost <$> l))) = Ok l.
Proof.
  intros Hl. rewrite (intact_array _ _ intact_extraCost).
  destruct l as [|e l]; [done|]. by apply normalizeExtraCosts_again.
Qed.

Lemma normalizeFlightList_readBack (fs : list Flight.t) :
  Forall normalFlight fs →
  Normalize.normalizeFlightList (readBack (JArr (ToJs.flight <$> fs))) = fs.
Proof.
  intros Hfs. rewrite (intact_array _ _ intact_flight).
  destruct fs as [|f fs]; [done|]. by apply normalizeFlightList_again.
Qed.

Lemma normalizeAccommodationList_readBack (accs : list Accommodation.t) :
  Forall normalAccommodation accs →
  Normalize.normalizeAccommodationList (readBack (JArr (ToJs.accommodation <$> accs))) = accs.
Proof.
  intros Haccs. rewrite (intact_array _ _ intact_accommodation).
  destruct accs as [|a accs]; [done|]. by apply normalizeAccommodationList_again.
Qed.

Lemma intact_present {A} (k : string) (f : A → JValue) (o : option A) :
  (∀ a, intact (f a)) → Forall (λ entry : string * JValue, intact entry.2) (ToJs.present k f o).
Proof. intros Hf. destruct o as [a|]; [|constructor]. apply Forall_singleton, Hf. Qed.

Lemma readBack_draft (fields : list (string * JValue)) :
  Forall (λ entry, intact entry.2) fields →
  readBack (ToJs.object fields)
  = match fields with [] => JUndefined | _ => ToJs.object fields end.
Proof.
  intros Hfields. destruct fields as [|entry fields]; [done|].
  unfold readBack. by rewrite (intact_object (entry :: fields)).
Qed.

Lemma normalizeFlightDraft_readBack (d : FlightDraft.t) :
  normalPrice (FlightDraft.pricePerPerson d) →
  Normalize.normalizeFlightDraft (readBack (ToJs.flightDraft d)) = d.
Proof.
  intros Hp. pose proof (normalizeFlightDraft_again d Hp) as Hagain. revert Hagain.
  unfold ToJs.flightDraft. rewrite readBack_draft.
  - destruct d as [[l|] [de|] [s|] [e|] [p|]]; done.
  - repeat apply Forall_app_2; apply intact_present; done.
Qed.

Lemma normalizeAccommodationDraft_readBack (d : AccommodationDraft.t) :
  normalPrice (AccommodationDraft.totalPrice d) →
  Normalize.normalizeAccommodationDraft (readBack (ToJs.accommodationDraft d)) = d.
Proof.
  intros Hp. pose proof (normalizeAccommodationDraft_again d Hp) as Hagain. revert Hagain.
  unfold ToJs.accommodationDraft. rewrite readBack_draft.
  - destruct d as [[l|] [de|] [s|] [e|] [p|]]; done.
  - repeat apply Forall_app_2; apply intact_present; done.
Qed.

Lemma normalizeBudgetAttempts_readBack (host : Host) (a : BudgetAttempt.t) :
  normalAttempt a →
  Normalize.normalizeBudgetAttempts host (readBack (JArr [ToJs.budgetAttempt a])) = [a].
Proof.
  intros (Hid & Hname & Hcounts). destruct a as [aid name createdAt fa sel total rem ppt].
  cbn in Hid, Hname, Hcounts.
  unfold readBack. rewrite kept_JArr. unfold ToJs.budgetAttempt, ToJs.object.
  cbn [BudgetAttempt.id BudgetAttempt.name BudgetAttempt.createdAt
       BudgetAttempt.flightAssignments BudgetAttempt.selectedAccommodationId
       BudgetAttempt.totalCost BudgetAttempt.remaining BudgetAttempt.perPersonTotal].
  destruct (budgetAttempt_fields (JStr aid) (JStr name) (ToJs.number createdAt)
              (ToJs.record fa) (JStr sel) (ToJs.number total) (ToJs.number rem)
              (ToJs.number ppt)) as (H1 & H2 & H3 & H4 & H5 & H6 & H7 & H8).
  cbn [fmap list_fmap from_option].
  rewrite (kept_object _ "id" _ _ H1 eq_refl).
  cbn [from_option id]. unfold Normalize.normalizeBudgetAttempts.
  cbn [imap omap list_omap take]. rewrite asObject_JObj.
  rewrite (field_kept _ _ _ H1), (field_kept _ _ _ H2), (field_kept _ _ _ H3),
    (field_kept _ _ _ H4), (field_kept _ _ _ H5), (field_kept _ _ _ H6),
    (field_kept _ _ _ H7), (field_kept _ _ _ H8).
  rewrite !readBack_string, !readBack_number, normalizeFlightAssignments_readBack by done.
  cbn [from_option id asString asFinite ToJs.number].
  rewrite Hid, Hname. done.
Qed.

Lemma normalizeBudgetEstimator_readBack (host : Host) (b : BudgetEstimatorState.t) :
  normalEstimator b →
  Normalize.normalizeBudgetEstimator host (readBack (ToJs.budgetEstimator b)) = b.
Proof.
  intros [Hcounts Hattempts]. destruct b as [fa sel fixed attempts].
  cbn in Hcounts, Hattempts.
  unfold ToJs.budgetEstimator, ToJs.object.
  cbn [BudgetEstimatorState.flightAssignments BudgetEstimatorState.selectedAccommodationId
       BudgetEstimatorState.fixedAttemptId BudgetEstimatorState.attempts].
  destruct (budgetEstimator_fields (ToJs.record fa) (JStr sel) (JStr fixed)
              (JArr (ToJs.budgetAttempt <$> attempts))) as (H1 & H2 & H3 & H4).
  unfold readBack at 1. rewrite (kept_object _ "fixedAttemptId" _ _ H3 eq_refl).
  cbn [from_option id]. unfold Normalize.normalizeBudgetEstimator.
  change (optProp (JObj ?m) ?k) with (field m k).
  rewrite (field_kept _ _ _ H1), (field_kept _ _ _ H2), (field_kept _ _ _ H3),
    (field_kept _ _ _ H4).
  rewrite !readBack_string, normalizeFlightAssignments_readBack by done.
  cbn [from_option id asString].
  destruct Hattempts as [[-> ->]|(a & -> & -> & Ha)].
  - done.
  - cbn [fmap list_fmap]. rewrite normalizeBudgetAttempts_readBack by done.
    cbn [find]. rewrite String.eqb_refl.
    cbn [head fmap option_fmap option_map]. by rewrite orEmpty_Some.
Qed.

(** A destination is kept, property by property. *)
Lemma kept_destination (d : Destination.t) :
  ∃ m, ToJs.destination d = JObj m ∧ kept (ToJs.destination d) = Some (JObj (omap kept m)).
Proof.
  unfold ToJs.destination, ToJs.object. eexists. split; [done|].
  apply (kept_object _ "id" (JStr (Destination.id d)) (JStr (Destination.id d))); [|done].
  vm_compute. done.
Qed.

Lemma normalizeDestinationCandidate_readBack (host : Host) (d : Destination.t) :
  normalDestination d →
  Normalize.normalizeDestinationCandidate host (readBack (ToJs.destination d)) = Ok (Some d).
Proof.
  intros Hd. pose proof Hd as (Hid & Hname & Hextras & Hest & Hfd & Had & Hfs & Haccs).
  unfold readBack at 1. unfold ToJs.destination, ToJs.object.
  destruct (destination_fields (JStr (Destination.id d)) (JStr (Destination.name d))
              (ToJs.number (Destination.latitude d)) (ToJs.number (Destination.longitude d))
              (JStr (Destination.notes d))
              (JArr (ToJs.extraCost <$> Destination.extraCosts d))
              (ToJs.budgetEstimator (Destination.budgetEstimator d))
              (ToJs.flightDraft (Destination.flightDraft d))
              (ToJs.accommodationDraft (Destination.accommodationDraft d))
              (JArr (ToJs.flight <$> Destination.flights d))
              (JArr (ToJs.accommodation <$> Destination.accommodations d)))
    as (H1 & H2 & H3 & H4 & H5 & H6 & H7 & H8 & H9 & H10 & H11).
  rewrite (kept_object _ "id" _ _ H1 eq_refl). cbn [from_option id].
  unfold Normalize.normalizeDestinationCandidate. rewrite asObject_JObj.
  rewrite (field_kept _ _ _ H1), (field_kept _ _ _ H2), (field_kept _ _ _ H3),
    (field_kept _ _ _ H4), (field_kept _ _ _ H5), (field_kept _ _ _ H6),
    (field_kept _ _ _ H7), (field_kept _ _ _ H8), (field_kept _ _ _ H9),
    (field_kept _ _ _ H10), (field_kept _ _ _ H11).
  rewrite !readBack_string, !readBack_number.
  cbn [from_option id asString Normalize.parseNumberValue ToJs.number].
  rewrite Hid, Hname. cbn [negb orb].
  rewrite normalizeFlightList_readBack, normalizeAccommodationList_readBack by done.
  unfold Normalize.normalizeDestination.
  cbn [Normalize.id Normalize.name Normalize.latitude Normalize.longitude Normalize.notes
       Normalize.extraCosts Normalize.budgetEstimator Normalize.flightDraft
       Normalize.accommodationDraft Normalize.flights Normalize.accommodations].
  rewrite normalizeExtraCosts_readBack by done. cbn [mbind Result_bind bind].
  rewrite normalizeBudgetEstimator_readBack, normalizeFlightDraft_readBack,
    normalizeAccommodationDraft_readBack by done.
  by destruct d.
Qed.

Lemma candidates_readBack (hosts : nat → Host) (ds : list Destination.t) :
  Forall normalDestination ds →
  mapM (λ x, x)
    (imap (λ j destination, Normalize.normalizeDestinationCandidate (hosts j) destination)
          ((λ item, default JNull (kept item)) <$> (ToJs.destination <$> ds)))
  = Ok (Some <$> ds).
Proof.
  intros Hds. revert hosts. induction Hds as [|d ds Hd Hds IH]; intros hosts; [done|].
  rewrite !fmap_cons, imap_cons. cbn [mapM].
  assert (default JNull (kept (ToJs.destination d)) = readBack (ToJs.destination d)) as ->.
  { unfold readBack. by destruct (kept_destination d) as (m & _ & ->). }
  rewrite normalizeDestinationCandidate_readBack by done.
  cbn [mbind Result_bind bind].
  change (mapM (λ x, x)
            (imap ((λ j destination,
                      Normalize.normalizeDestinationCandidate (hosts j) destination) ∘ S)
                  ((λ item, default JNull (kept item)) <$> (ToJs.destination <$> ds))))
    with (mapM (λ x, x)
            (imap (λ j destination,
                     Normalize.normalizeDestinationCandidate ((hosts ∘ S) j) destination)
                  ((λ item, default JNull (kept item)) <$> (ToJs.destination <$> ds)))).
  by rewrite IH.
Qed.

(** Reading back what the store keeps of a pushed document. *)
Lemma parseTripSyncPayload_kept (hosts : nat → Host) (st : App.State) (t : Qc)
    (fallback : PlannerSettings.t) :
  Forall normalDestination (App.destinations st) →
  normalSettings (App.settings st) →
  App.destinations st ≠ [] →
  ∃ document,
    kept (App.pushPayload st t) = Some document
    ∧ Normalize.parseTripSyncPayload hosts document fallback
      = Ok (Some {| Normalize.destinations := App.destinations st;
                    Normalize.settings := App.settings st;
                    Normalize.remoteUpdatedAt := Normalize.parseTimestamp (ToJs.number t) |}).
Proof.
  intros Hds Hsettings Hsome.
  unfold App.pushPayload, ToJs.object.
  destruct (payload_fields (JArr (ToJs.destination <$> App.destinations st))
              (ToJs.settings (App.settings st))
              (JObj (list_to_map [("updatedAt", ToJs.number t);
                                  ("updatedBy", JStr (App.syncClientId st))])))
    as (H1 & H2 & H3).
  assert (intact (JObj (list_to_map [("updatedAt", ToJs.number t);
                                     ("updatedBy", JStr (App.syncClientId st))]))) as Hmeta.
  { apply (intact_object [("updatedAt", ToJs.number t);
                          ("updatedBy", JStr (App.syncClientId st))]); [done|].
    repeat constructor. }
  eexists. split; [exact (kept_object _ "settings" _ _ H2 (intact_settings _))|].
  unfold Normalize.parseTripSyncPayload. rewrite asObject_JObj.
  change (optProp (field ?m "meta") "updatedAt")
    with (optProp (field m "meta") "updatedAt").
  rewrite (field_kept _ _ _ H1), (field_kept _ _ _ H2), (field_kept _ _ _ H3).
  unfold readBack at 1. rewrite kept_JArr.
  destruct (ToJs.destination <$> App.destinations st) as [|first rest] eqn:Hlist.
  { exfalso. apply Hsome. by eapply fmap_nil_inv. }
  rewrite <- Hlist. cbn [from_option id].
  rewrite candidates_readBack by done. cbn [mbind Result_bind bind].
  rewrite omap_Some, !length_fmap.
  rewrite (readBack_intact _ (intact_settings _)), (readBack_intact _ Hmeta).
  rewrite normalizeSettings_again by done.
  unfold optProp. rewrite meta_fields. cbn [from_option id].
  by destruct (App.destinations st).
Qed.


(** Push, then pull: the round trip of a plan through the remote store.
    When a client pushes a normalized plan with at least one destination
    and no assignment key made of digits only, and nothing is rejected, a
    pull of the same trip code, by any client, whatever its own plan and
    settings, from a store that holds what the remote database keeps of the
    pushed document, which is the document without its empty arrays and
    objects, loads exactly the pushed destinations and settings, shows the
    first destination, and records the time of the push as the last known
    remote time stamp. *)
Theorem push_then_pull (hosts : nat → Host) (wA wB : App.World) (stA : App.State)
    (vB : App.View) :
  Forall normalDestination (App.destinations stA) →
  Forall (λ destination, storable destination = true) (App.destinations stA) →
  normalSettings (App.settings stA) →
  App.destinations stA ≠ [] →
  reachable wA → validCode stA → App.confirmAnswer wA = true → 0 < App.now wA →
  App.isTripSyncAvailable wB = true → App.getRejects wB = false →
  App.normalizeTripCode (App.tripCode (App.planner vB))
  = App.normalizeTripCode (App.tripCode stA) →
  App.remote wB !! tripPath stA
  = App.store (App.handlePushToTrip wA stA) !! tripPath stA ≫= kept →
  let vB' := App.view (App.handlePullFromTrip hosts wB vB) in
  App.destinations (App.planner vB') = App.destinations stA
  ∧ App.settings (App.planner vB') = App.settings stA
  ∧ App.activeId vB' = App.firstId (App.destinations stA)
  ∧ App.lastKnownRemoteByCode (App.planner vB')
      !! App.normalizeTripCode (App.tripCode stA) = Some (App.now wA)
  ∧ App.kind (App.syncStatus (App.planner vB')) = App.success.
Proof.
  intros Hds _ Hsettings Hsome HwA HcodeA Hconfirm Hnow Havailable Hget Hcode Hremote.
  destruct (handlePushToTrip_written wA stA HwA HcodeA Hconfirm) as (Hstore & _).
  assert (validCode (App.planner vB)) as HcodeB by (unfold validCode; by rewrite Hcode).
  assert (tripPath (App.planner vB) = tripPath stA) as Hpath
    by (unfold tripPath; by rewrite Hcode).
  rewrite Hstore, lookup_insert_eq in Hremote. cbn [mbind option_bind] in Hremote.
  destruct (parseTripSyncPayload_kept hosts stA (App.now wA)
              (App.settings (App.planner vB)) Hds Hsettings Hsome)
    as (document & Hkept & Hparse).
  assert (App.remote wB !! tripPath (App.planner vB) = Some document) as Hdoc
    by (by rewrite Hpath, Hremote).
  destruct (handlePullFromTrip_parsed hosts wB vB _ _ Havailable Hget HcodeB Hdoc Hparse)
    as (Hd & Hs & Ha & Hknown & _ & _ & _ & Hstatus & _).
  cbn [Normalize.destinations Normalize.settings Normalize.remoteUpdatedAt] in *.
  split_and!; try done.
  rewrite Hknown, Hcode, lookup_insert_eq. unfold ToJs.number.
  by rewrite parseTimestamp_positive.
Qed.


(** A push by a client whose last known remote time stamp is the one of the
    remote document asks nothing and writes. *)
Lemma handlePushToTrip_unasked (w : App.World) (st : App.State) (payload : JValue) :
  reachable w → validCode st →
  App.remote w !! tripPath st = Some payload →
  (∀ t, Normalize.parseTimestamp (optProp (optProp payload "meta") "updatedAt") = Some t →
        App.lastKnownRemoteByCode st !! App.normalizeTripCode (App.tripCode st) = Some t) →
  App.events (App.handlePushToTrip w st)
  = [App.EvGet (tripPath st); App.EvSet (tripPath st) (App.pushPayload st (App.now w))].
Proof.
  intros (Havailable & Hget & Hset) Hcode Hremote Hknown. unfold App.handlePushToTrip.
  rewrite Havailable, validCode_leb, Hget, Hset by done. cbn [negb].
  unfold tripPath in Hremote. rewrite Hremote. cbn [from_option id].
  destruct (Normalize.parseTimestamp _) as [t|] eqn:Ht; [|done].
  rewrite (Hknown t) by done. cbn [from_option id]. unfold gtb. rewrite bool_decide_eq_false_2; [done|].
  intros H. apply (Qclt_not_le _ _ H). apply Qcle_refl.
Qed.


(** Pull, then push.  After a pull that ended with the status [success], a
    push of the same client asks for no confirmation and writes the plan, as
    long as the remote document of the trip is the one that was pulled and
    nothing is rejected. *)
Theorem pull_then_push_unasked (hosts : nat → Host) (w w' : App.World) (v : App.View) :
  let v' := App.view (App.handlePullFromTrip hosts w v) in
  App.kind (App.syncStatus (App.planner v')) = App.success →
  reachable w' →
  App.remote w' !! tripPath (App.planner v) = App.remote w !! tripPath (App.planner v) →
  App.events (App.handlePushToTrip w' (App.planner v'))
  = [App.EvGet (tripPath (App.planner v));
     App.EvSet (tripPath (App.planner v)) (App.pushPayload (App.planner v') (App.now w'))].
Proof.
  intros v' Hstatus Hw' Hsame.
  apply handlePullFromTrip_success in Hstatus
    as (Havailable & Hget & Hcode & payload & parsed & Hremote & Hparse).
  destruct (handlePullFromTrip_parsed hosts w v payload parsed Havailable Hget Hcode
              Hremote Hparse) as (_ & _ & _ & Hknown & _ & Htrip & _).
  fold v' in Hknown, Htrip.
  assert (tripPath (App.planner v') = tripPath (App.planner v)) as Hpath
    by (unfold tripPath; by rewrite Htrip).
  rewrite <- Hpath. apply (handlePushToTrip_unasked w' (App.planner v') payload Hw').
  - unfold validCode. by rewrite Htrip.
  - by rewrite Hpath, Hsame.
  - intros t Ht. rewrite Hknown, Htrip, lookup_insert_eq.
    by rewrite (parseTripSyncPayload_timestamp _ _ _ _ Hparse), Ht.
Qed.



(** A client that pushes, and a second client that pulls the same code. *)
Definition confirmingWorld : App.World :=
  {| App.isTripSyncAvailable := true;
     App.remote := {[ "trips/ABCD" := peerDocument ]};
     App.getRejects := false;
     App.confirmAnswer := true;
     App.now := num 30;
     App.setRejects := false |}.

Definition worldAfter (remote : gmap string JValue) : App.World :=
  {| App.isTripSyncAvailable := true;
     App.remote := remote;
     App.getRejects := false;
     App.confirmAnswer := false;
     App.now := num 40;
     App.setRejects := false |}.

Definition emptyClient : App.View :=
  {| App.planner :=
       {| App.destinations := [];
          App.settings := {| PlannerSettings.totalBudget := 0;
                             PlannerSettings.peopleCount := 1 |};
          App.tripCode := "abcd";
          App.lastKnownRemoteByCode := ∅;
          App.lastLocalPushByCode := ∅;
          App.syncStatus := App.mkStatus App.neutral "";
          App.isPushing := false;
          App.latestRemoteUpdatedAt := None;
          App.syncClientId := "you" |};
     App.activeId := None;
     App.isPulling := false |}.

(** A remote document with [null] among the extra costs of a destination. *)
Definition brokenDocument : JValue :=
  ToJs.object
    [("destinations",
      JArr [ToJs.object [("id", JStr "d1"); ("name", JStr "Lisbon");
                         ("latitude", ToJs.number 0); ("longitude", ToJs.number 0);
                         ("extraCosts", JArr [JNull])]]);
     ("meta", ToJs.object [("updatedAt", ToJs.number (num 20))])].

Lemma wholeCounts_singleton (k : string) (c : Qc) :
  0 ≤ c → whole c → wholeCounts {[ k := c ]}.
Proof. intros Hc Hw k' c' [_ <-]%lookup_singleton_Some. done. Qed.

Lemma baselineExample_normal : normalDestination baselineExample.
Proof.
  split_and!; try done.
  - split.
    + by apply wholeCounts_singleton.
    + right. eexists. split_and!; try done.
  - repeat constructor; done.
Qed.

Lemma DEFAULT_SETTINGS_normal : normalSettings Normalize.DEFAULT_SETTINGS.
Proof. split_and!; [done | reflexivity | apply Math_floor_num]. Qed.

Lemma handlePullFromTrip_failure_keeps_witness :
  let v' := App.view (App.handlePullFromTrip quietHosts
                        (worldAfter {[ "trips/ABCD" := brokenDocument ]})
                        (App.mkView staleClient (Some "d1") false)) in
  App.destinations (App.planner v') = [baselineExample]
  ∧ App.message (App.syncStatus (App.planner v'))
    = "Failed to pull trip data. Please try again.".
Proof.
  intros v'. split; [|reflexivity].
  refine (proj1 (handlePullFromTrip_failure_keeps quietHosts
                   (worldAfter {[ "trips/ABCD" := brokenDocument ]})
                   (App.mkView staleClient (Some "d1") false) _)).
  vm_compute. discriminate.
Defined.

(** The remote store with one document, or none, at a path. *)
Definition holding (path : string) (document : option JValue) : gmap string JValue :=
  match document with
  | Some value => {[ path := value ]}
  | None => ∅
  end.

Lemma push_then_pull_witness :
  let written := App.store (App.handlePushToTrip confirmingWorld staleClient) !! "trips/ABCD" in
  let v' := App.view (App.handlePullFromTrip quietHosts
                        (worldAfter (holding "trips/ABCD" (written ≫= kept))) emptyClient) in
  App.destinations (App.planner v') = [baselineExample]
  ∧ App.settings (App.planner v') = Normalize.DEFAULT_SETTINGS
  ∧ App.activeId v' = Some "d1".
Proof.
  intros written v'.
  destruct (push_then_pull quietHosts confirmingWorld
              (worldAfter (holding "trips/ABCD" (written ≫= kept))) staleClient
              emptyClient) as (Hd & Hs & Ha & _).
  - apply Forall_singleton, baselineExample_normal.
  - apply Forall_singleton. reflexivity.
  - apply DEFAULT_SETTINGS_normal.
  - discriminate.
  - split_and!; reflexivity.
  - unfold validCode. vm_compute. lia.
  - reflexivity.
  - reflexivity.
  - reflexivity.
  - reflexivity.
  - reflexivity.
  - vm_compute. reflexivity.
  - split_and!; [exact Hd | exact Hs | exact Ha].
Defined.

(** The plan without destinations does not come back: the store keeps no
    empty array, so that the document read back has no [destinations], and
    the pull rejects it. *)
Example push_then_pull_empty_plan :
  let written :=
    App.store (App.handlePushToTrip confirmingWorld (App.planner emptyClient))
      !! "trips/ABCD" in
  let v' := App.view (App.handlePullFromTrip quietHosts
                        (worldAfter (holding "trips/ABCD" (written ≫= kept)))
                        (App.mkView staleClient (Some "d1") false)) in
  optProp (default JNull written) "destinations" = JArr []
  ∧ optProp (default JNull (written ≫= kept)) "destinations" = JUndefined
  ∧ App.message (App.syncStatus (App.planner v'))
    = "Trip data is invalid and could not be loaded."
  ∧ App.destinations (App.planner v') = [baselineExample].
Proof. split_and!; vm_compute; reflexivity. Qed.

Lemma pull_then_push_unasked_witness :
  let remote : gmap string JValue := {[ "trips/ABCD" := peerDocument ]} in
  let v' := App.view (App.handlePullFromTrip quietHosts (worldAfter remote)
                        (App.mkView staleClient None false)) in
  App.events (App.handlePushToTrip (worldAfter remote) (App.planner v'))
  = [App.EvGet "trips/ABCD";
     App.EvSet "trips/ABCD" (App.pushPayload (App.planner v') (num 40))].
Proof.
  intros remote v'.
  apply (pull_then_push_unasked quietHosts (worldAfter remote) (worldAfter remote)
           (App.mkView staleClient None false)).
  - vm_compute. reflexivity.
  - split_and!; reflexivity.
  - reflexivity.
Defined.


End sync.


(** ** Unsaved changes of the budget panel *)

Section unsaved.
Local Open Scope Qc_scope.

Lemma filter_bool {A} (f : A → bool) (l : list A) :
  List.filter f l = filter (λ x, f x = true) l.
Proof.
  induction l as [|x l IH]; [done|]. rewrite filter_cons. cbn [List.filter].
  rewrite IH. destruct (f x); by case_decide.
Qed.

Lemma size_filter_map_to_list {A} (P : string * A → Prop) `{!∀ x, Decision (P x)}
    (m : gmap string A) :
  size (filter P m) = length (filter P (map_to_list m)).
Proof.
  rewrite map_filter_alt, <- length_map_to_list. apply Permutation_length.
  apply map_to_list_to_map.
  eapply NoDup_fmap_fst.
  - intros k x y Hx%list_elem_of_filter Hy%list_elem_of_filter.
    destruct Hx as [_ Hx], Hy as [_ Hy].
    apply elem_of_map_to_list in Hx, Hy. congruence.
  - apply NoDup_filter, NoDup_map_to_list.
Qed.

(** The entries with a count above 0. *)
Definition positivePart (assignments : gmap string Qc) : gmap string Qc :=
  filter (λ entry, 0 < entry.2) assignments.

Lemma positive_entries (assignments : gmap string Qc) :
  List.filter (λ '(_, count), gtb count 0) (map_to_list assignments)
  = filter (λ entry : string * Qc, 0 < entry.2) (map_to_list assignments).
Proof.
  rewrite filter_bool. apply list_filter_iff. intros [k c]. cbn. unfold gtb.
  by rewrite bool_decide_eq_true.
Qed.

(** [areAssignmentsEqual] compares the entries with a count above 0: it
    answers [true] exactly when the two records have the same such entries,
    whatever entries with count 0, or below, either of them holds. *)
Theorem areAssignmentsEqual_spec (left right : gmap string Qc) :
  BudgetCalculator.areAssignmentsEqual left right = true
  ↔ positivePart left = positivePart right.
Proof.
  unfold BudgetCalculator.areAssignmentsEqual. rewrite !positive_entries.
  rewrite <- !size_filter_map_to_list. fold (positivePart left) (positivePart right).
  split.
  - destruct (size (positivePart left) =? size (positivePart right))%nat eqn:Hsize;
      [|done]. cbn [negb]. apply Nat.eqb_eq in Hsize.
    rewrite forallb_forall. intros Hall.
    apply map_subseteq_size_eq; [|lia].
    apply map_subseteq_spec. intros k c [Hk Hc]%map_lookup_filter_Some.
    apply map_lookup_filter_Some. split; [|done].
    specialize (Hall (k, c)). cbn in Hall. eapply bool_decide_eq_true_1, Hall.
    apply list_elem_of_In, list_elem_of_filter. split; [done|].
    by apply elem_of_map_to_list.
  - intros Heq. rewrite Heq, Nat.eqb_refl. cbn [negb].
    apply forallb_forall. intros [k c] Hin%list_elem_of_In%list_elem_of_filter.
    destruct Hin as [Hc Hk%elem_of_map_to_list]. apply bool_decide_eq_true_2.
    assert (positivePart left !! k = Some c) as Hl by by apply map_lookup_filter_Some.
    rewrite Heq in Hl. by apply map_lookup_filter_Some in Hl as [? _].
Qed.


Lemma areAssignmentsEqual_same (assignments : gmap string Qc) :
  BudgetCalculator.areAssignmentsEqual assignments assignments = true.
Proof.
  unfold BudgetCalculator.areAssignmentsEqual. rewrite Nat.eqb_refl. cbn [negb].
  apply forallb_forall. intros [k c] Hin%filter_In. destruct Hin as [Hin _].
  apply bool_decide_eq_true_2. by apply elem_of_map_to_list, list_elem_of_In.
Qed.

(** The panel of a destination after the callbacks of a handler have been
    served. *)
Definition panelAfter (settings : PlannerSettings.t) (destination : Destination.t)
    (callbacks : list BudgetCalculator.Callback) : BudgetCalculator.Props :=
  DestinationView.budgetCalculatorProps settings (dispatch callbacks destination).

Lemma hasUnsavedChanges_fresh (props : BudgetCalculator.Props) (saved : BudgetAttempt.t) :
  BudgetCalculator.savedAttempt props = Some saved →
  BudgetAttempt.selectedAccommodationId saved = BudgetCalculator.selectedAccommodationId props →
  BudgetAttempt.flightAssignments saved = BudgetCalculator.flightAssignments props →
  BudgetCalculator.hasUnsavedChanges props
  = negb (bool_decide (BudgetAttempt.totalCost saved
                       = Budget.totalCost (BudgetCalculator.snapshot props))).
Proof.
  intros Hsaved Hsel Hfa. unfold BudgetCalculator.hasUnsavedChanges.
  by rewrite Hsaved, Hsel, Hfa, String.eqb_refl, areAssignmentsEqual_same.
Qed.

Lemma savedAttempt_single (props : BudgetCalculator.Props) (attempt : BudgetAttempt.t) :
  BudgetCalculator.attempts props = [attempt] →
  BudgetCalculator.savedAttempt props = Some attempt.
Proof.
  intros Hattempts. unfold BudgetCalculator.savedAttempt. rewrite Hattempts. cbn.
  by destruct (_ =? _)%string.
Qed.

(** No unsaved changes right after saving.  Overriding the saved baseline
    with the current draft leaves a panel without unsaved changes, and so
    does saving a baseline into an empty slot.  Going back to the saved
    baseline restores its selection and assignments, and unsaved changes
    remain exactly when the total stored with the baseline is not the total
    of the snapshot that the restored draft gives now. *)
Theorem hasUnsavedChanges_after_saving (settings : PlannerSettings.t) (newId : string)
    (now : Qc) (destination : Destination.t) :
  let props := DestinationView.budgetCalculatorProps settings destination in
  let after := panelAfter settings destination in
  BudgetCalculator.hasUnsavedChanges
    (after (BudgetCalculator.replaceSavedWithCurrent now props)) = false
  ∧ (BudgetCalculator.savedAttempt props = None →
     BudgetCalculator.hasUnsavedChanges
       (after (BudgetCalculator.saveBaseline newId now props)) = false)
  ∧ (∀ saved, BudgetCalculator.savedAttempt props = Some saved →
       let restored := after (BudgetCalculator.applySavedBaseline props) in
       BudgetCalculator.flightAssignments restored = BudgetAttempt.flightAssignments saved
       ∧ BudgetCalculator.selectedAccommodationId restored
         = BudgetAttempt.selectedAccommodationId saved
       ∧ BudgetCalculator.hasUnsavedChanges restored
         = negb (bool_decide (BudgetAttempt.totalCost saved
                              = Budget.totalCost (BudgetCalculator.snapshot restored)))).
Proof.
  intros props after. split_and!.
  - unfold after, panelAfter, BudgetCalculator.replaceSavedWithCurrent.
    destruct (BudgetCalculator.savedAttempt props) as [saved|] eqn:Hsaved.
    + erewrite hasUnsavedChanges_fresh; [|by apply savedAttempt_single|done|done].
      apply negb_false_iff, bool_decide_eq_true_2. done.
    + cbn [dispatch foldl]. fold props. unfold BudgetCalculator.hasUnsavedChanges.
      by rewrite Hsaved.
  - intros Hsaved. unfold after, panelAfter, BudgetCalculator.saveBaseline.
    rewrite Hsaved.
    erewrite hasUnsavedChanges_fresh; [|by apply savedAttempt_single|done|done].
    apply negb_false_iff, bool_decide_eq_true_2. done.
  - intros saved Hsaved restored. unfold restored, after, panelAfter,
      BudgetCalculator.applySavedBaseline. rewrite Hsaved.
    split_and!; [done|done|]. by apply hasUnsavedChanges_fresh.
Qed.

Lemma hasUnsavedChanges_after_saving_witness :
  let props := DestinationView.budgetCalculatorProps Normalize.DEFAULT_SETTINGS baselineExample in
  BudgetCalculator.hasUnsavedChanges props = true
  ∧ BudgetCalculator.hasUnsavedChanges
      (panelAfter Normalize.DEFAULT_SETTINGS baselineExample
         (BudgetCalculator.replaceSavedWithCurrent (num 2) props)) = false.
Proof.
  intros props. split; [vm_compute; reflexivity|].
  apply (hasUnsavedChanges_after_saving Normalize.DEFAULT_SETTINGS "" (num 2) baselineExample).
Defined.

End unsaved.


(** ** The figures after a reconciliation *)

Section figures.
Local Open Scope Qc_scope.

Lemma sum_Permutation (l l' : list Qc) : l ≡ₚ l' → Spec.sum l = Spec.sum l'.
Proof.
  induction 1 as [|x l l' _ IH|x y l|l l' l'' _ IH1 _ IH2]; [done| | |congruence].
  - change (x + Spec.sum l = x + Spec.sum l'). by rewrite IH.
  - change (y + (x + Spec.sum l) = x + (y + Spec.sum l)). ring.
Qed.

(** Entries that count for nothing can be filtered out of a record without
    changing a sum over its entries. *)
Lemma sum_map_filter (f : string * Qc → Qc) (P : string * Qc → Prop)
    `{!∀ x, Decision (P x)} (m : gmap string Qc) :
  (∀ entry, ¬ P entry → f entry = 0) →
  Spec.sum (f <$> map_to_list (filter P m)) = Spec.sum (f <$> map_to_list m).
Proof.
  intros Hzero. induction m as [|k c m Hk _ IH] using map_first_key_ind.
  - by rewrite map_filter_empty.
  - rewrite (sum_Permutation (f <$> map_to_list (<[k:=c]> m))
               (f <$> (k, c) :: map_to_list m))
      by (apply fmap_Permutation, map_to_list_insert; done).
    change (Spec.sum (f <$> (k, c) :: map_to_list m))
      with (f (k, c) + Spec.sum (f <$> map_to_list m)).
    destruct (decide (P (k, c))) as [HP|HP].
    + rewrite map_filter_insert_True by done.
      rewrite (sum_Permutation (f <$> map_to_list (<[k:=c]> (filter P m)))
                 (f <$> (k, c) :: map_to_list (filter P m))).
      * change (f (k, c) + Spec.sum (f <$> map_to_list (filter P m))
                = f (k, c) + Spec.sum (f <$> map_to_list m)). by rewrite IH.
      * apply fmap_Permutation, map_to_list_insert.
        apply map_lookup_filter_None. by left.
    + rewrite map_filter_insert_not' by (done || by rewrite Hk).
      rewrite IH, (Hzero _ HP). change (Spec.sum (f <$> map_to_list m)
                                       = 0 + Spec.sum (f <$> map_to_list m)). ring.
Qed.

Lemma sum_filter_snd (P : string * Qc → Prop) `{!∀ x, Decision (P x)}
    (l : list (string * Qc)) :
  Spec.sum (snd <$> filter P l)
  = Spec.sum ((λ entry, if decide (P entry) then entry.2 else 0) <$> l).
Proof.
  induction l as [|e l IH]; [done|]. rewrite filter_cons, fmap_cons.
  change (Spec.sum ((if decide (P e) then e.2 else 0)
                    :: ((λ entry, if decide (P entry) then entry.2 else 0) <$> l)))
    with ((if decide (P e) then e.2 else 0)
          + Spec.sum ((λ entry, if decide (P entry) then entry.2 else 0) <$> l)).
  rewrite <- IH. destruct (decide (P e)).
  - done.
  - change (Spec.sum (snd <$> filter P l) = 0 + Spec.sum (snd <$> filter P l)). ring.
Qed.

(** Assignments whose key names no flight do not show in any figure. *)
Lemma calculateBudgetSnapshot_restrictTo (flights : list Flight.t)
    (accommodations : list Accommodation.t) (assignments : gmap string Qc)
    (selected : string) (extraCosts : list ExtraCost.t) (settings : PlannerSettings.t) :
  Budget.calculateBudgetSnapshot
    {| Budget.flights := flights; Budget.accommodations := accommodations;
       Budget.flightAssignments := restrictTo flights assignments;
       Budget.selectedAccommodationId := selected;
       Budget.extraCosts := extraCosts; Budget.settings := settings |}
  = Budget.calculateBudgetSnapshot
      {| Budget.flights := flights; Budget.accommodations := accommodations;
         Budget.flightAssignments := assignments;
         Budget.selectedAccommodationId := selected;
         Budget.extraCosts := extraCosts; Budget.settings := settings |}.
Proof.
  unfold Budget.calculateBudgetSnapshot.
  cbn [Budget.flights Budget.accommodations Budget.flightAssignments
       Budget.selectedAccommodationId Budget.extraCosts Budget.settings].
  rewrite !foldl_cost_sum, !foldl_count_sum, !sum_filter_snd.
  unfold restrictTo.
  rewrite (sum_map_filter (Spec.entryCost flights)).
  - rewrite (sum_map_filter (λ entry, if decide (entry.1 ∈ Flight.id <$> flights)
                                      then entry.2 else 0)); [done|].
    intros entry Hentry. by rewrite decide_False.
  - intros [k c] Hk. unfold Spec.entryCost. cbn [fst snd] in *.
    by rewrite (proj2 (flightFor_None flights k) Hk).
Qed.


(** Pruning is invisible in the figures.  After the flights of a
    destination have been replaced, the snapshot of the destination is the
    one that the new flights give with the assignments as they were before
    the dangling keys were pruned; and the totals stored with the saved
    baseline are those of the snapshot over its assignments as they were. *)
Theorem handleFlightsChange_figures (settings : PlannerSettings.t) (flights : list Flight.t)
    (current : Destination.t) :
  let next := DestinationView.handleFlightsChange settings flights current in
  let estimator := Destination.budgetEstimator current in
  let unpruned (assignments : gmap string Qc) (selected : string) :=
    Budget.calculateBudgetSnapshot
      {| Budget.flights := flights;
         Budget.accommodations := Destination.accommodations current;
         Budget.flightAssignments := assignments;
         Budget.selectedAccommodationId := selected;
         Budget.extraCosts := Destination.extraCosts current;
         Budget.settings := settings |} in
  DestinationView.budgetSnapshot settings next
  = unpruned (BudgetEstimatorState.flightAssignments estimator)
             (BudgetEstimatorState.selectedAccommodationId estimator)
  ∧ (λ attempt, (BudgetAttempt.totalCost attempt, BudgetAttempt.remaining attempt,
                 BudgetAttempt.perPersonTotal attempt))
    <$> BudgetEstimatorState.attempts (Destination.budgetEstimator next)
    = (λ attempt,
         let snapshot := unpruned (BudgetAttempt.flightAssignments attempt)
                                  (BudgetAttempt.selectedAccommodationId attempt) in
         (Budget.totalCost snapshot, Budget.remaining snapshot,
          Budget.perPersonTotal snapshot))
      <$> take 1 (BudgetEstimatorState.attempts estimator).
Proof.
  intros next estimator unpruned. subst next unpruned. split.
  - unfold DestinationView.budgetSnapshot, DestinationView.handleFlightsChange.
    cbn [Destination.flights Destination.accommodations Destination.extraCosts
         Destination.budgetEstimator BudgetEstimatorState.flightAssignments
         BudgetEstimatorState.selectedAccommodationId].
    rewrite keepValid_restrictTo. apply calculateBudgetSnapshot_restrictTo.
  - unfold DestinationView.handleFlightsChange.
    cbn [Destination.budgetEstimator BudgetEstimatorState.attempts].
    rewrite <- list_fmap_compose. apply list_fmap_ext. intros _ attempt _.
    cbn [compose BudgetAttempt.totalCost BudgetAttempt.remaining
         BudgetAttempt.perPersonTotal].
    by rewrite keepValid_restrictTo, calculateBudgetSnapshot_restrictTo.
Qed.

Lemma restrictTo_twice (flights : list Flight.t) (assignments : gmap string Qc) :
  restrictTo flights (restrictTo flights assignments) = restrictTo flights assignments.
Proof.
  unfold restrictTo. rewrite map_filter_filter. apply map_filter_ext.
  intros k c _. cbn. tauto.
Qed.

Lemma reselect_twice (accommodations : list Accommodation.t) (selected : string) :
  reselect accommodations (reselect accommodations selected)
  = reselect accommodations selected.
Proof.
  unfold reselect at 2 3. case_decide as Hin; unfold reselect.
  - by rewrite decide_True.
  - by case_decide.
Qed.


Lemma reselect_live (accommodations : list Accommodation.t) (selected : string) :
  (if bool_decide (selected ∈ Accommodation.id <$> accommodations) then selected else "")
  = reselect accommodations selected.
Proof. unfold reselect. case_bool_decide; by case_decide. Qed.

(** Reconciling twice is reconciling once: handing the same flights, or the
    same accommodations, to the view a second time changes nothing. *)
Theorem reconcile_twice (settings : PlannerSettings.t) (flights : list Flight.t)
    (accommodations : list Accommodation.t) (current : Destination.t) :
  DestinationView.handleFlightsChange settings flights
    (DestinationView.handleFlightsChange settings flights current)
  = DestinationView.handleFlightsChange settings flights current
  ∧ DestinationView.handleAccChange settings accommodations
      (DestinationView.handleAccChange settings accommodations current)
    = DestinationView.handleAccChange settings accommodations current.
Proof.
  destruct current as [cid cname lat lon notes extras [fa sel fixed attempts] fd ad fs accs].
  split.
  - unfold DestinationView.handleFlightsChange.
    cbn [Destination.id Destination.name Destination.latitude Destination.longitude
         Destination.notes Destination.extraCosts Destination.budgetEstimator
         Destination.flightDraft Destination.accommodationDraft Destination.flights
         Destination.accommodations BudgetEstimatorState.flightAssignments
         BudgetEstimatorState.selectedAccommodationId BudgetEstimatorState.attempts].
    rewrite !keepValid_restrictTo, restrictTo_twice.
    destruct attempts as [|attempt attempts]; [done|].
    cbn [take fmap list_fmap head BudgetAttempt.id BudgetAttempt.name
         BudgetAttempt.createdAt BudgetAttempt.flightAssignments
         BudgetAttempt.selectedAccommodationId].
    by rewrite !keepValid_restrictTo, restrictTo_twice.
  - unfold DestinationView.handleAccChange.
    cbn [Destination.id Destination.name Destination.latitude Destination.longitude
         Destination.notes Destination.extraCosts Destination.budgetEstimator
         Destination.flightDraft Destination.accommodationDraft Destination.flights
         Destination.accommodations BudgetEstimatorState.flightAssignments
         BudgetEstimatorState.selectedAccommodationId BudgetEstimatorState.attempts].
    rewrite !existsb_eqb_accommodation, !reselect_live, reselect_twice.
    destruct attempts as [|attempt attempts]; [done|].
    cbn [take fmap list_fmap head BudgetAttempt.id BudgetAttempt.name
         BudgetAttempt.createdAt BudgetAttempt.flightAssignments
         BudgetAttempt.selectedAccommodationId].
    by rewrite !reselect_has, reselect_twice.
Qed.

End figures.


(** ** The overview of a destination *)

Section overview.
Local Open Scope Qc_scope.

Lemma head_insertBy {A} (key : A → Qc) (x : A) (sorted : list A) :
  head (DestinationView.insertBy key x sorted)
  = match head sorted with
    | Some y => if geb (key y) (key x) then Some x else Some y
    | None => Some x
    end.
Proof. destruct sorted as [|y rest]; [done|]. cbn. by destruct (geb _ _). Qed.

(** What [sort(...)[0]] picks: the first of the elements with the least key. *)
Lemma head_sortBy {A} (key : A → Qc) (l : list A) :
  match head (DestinationView.sortBy key l) with
  | Some least =>
      ∃ before after,
        l = before ++ least :: after
        ∧ Forall (λ other, key least < key other) before
        ∧ Forall (λ other, key least ≤ key other) after
  | None => l = []
  end.
Proof.
  induction l as [|x l IH]; [done|].
  change (DestinationView.sortBy key (x :: l))
    with (DestinationView.insertBy key x (DestinationView.sortBy key l)).
  rewrite head_insertBy.
  destruct (head (DestinationView.sortBy key l)) as [y|].
  - destruct IH as (before & after & -> & Hbefore & Hafter). unfold geb.
    case_bool_decide as Hxy.
    + exists [], (before ++ y :: after). split_and!; [done|done|].
      apply Forall_app. split; [|constructor].
      * eapply Forall_impl; [exact Hbefore|]. intros z Hz. cbn in Hz.
        eapply Qcle_trans; [exact Hxy|]. by apply Qclt_le_weak.
      * done.
      * eapply Forall_impl; [exact Hafter|]. intros z Hz. cbn in Hz.
        by eapply Qcle_trans.
    + exists (x :: before), after. split_and!; [done| |done].
      constructor; [|done]. by apply Qcnot_le_lt.
  - subst l. by exists [], [].
Qed.

(** The cheapest options of the overview.  [cheapestFlight] is a flight of
    the destination whose price no other flight undercuts, and among the
    flights at that price it is the one that comes first in the list; there
    is none exactly when the destination has no flight.  The same holds of
    [cheapestAccommodation]. *)
Theorem cheapest_first_minimum (destination : Destination.t) :
  match DestinationView.cheapestFlight destination with
  | Some cheapest =>
      ∃ before after,
        Destination.flights destination = before ++ cheapest :: after
        ∧ Forall (λ other, Flight.pricePerPerson cheapest < Flight.pricePerPerson other) before
        ∧ Forall (λ other, Flight.pricePerPerson cheapest ≤ Flight.pricePerPerson other) after
  | None => Destination.flights destination = []
  end
  ∧ match DestinationView.cheapestAccommodation destination with
    | Some cheapest =>
        ∃ before after,
          Destination.accommodations destination = before ++ cheapest :: after
          ∧ Forall (λ other, Accommodation.totalPrice cheapest < Accommodation.totalPrice other)
                   before
          ∧ Forall (λ other, Accommodation.totalPrice cheapest ≤ Accommodation.totalPrice other)
                   after
    | None => Destination.accommodations destination = []
    end.
Proof.
  split.
  - unfold DestinationView.cheapestFlight.
    apply (head_sortBy Flight.pricePerPerson (Destination.flights destination)).
  - unfold DestinationView.cheapestAccommodation.
    apply (head_sortBy Accommodation.totalPrice (Destination.accommodations destination)).
Qed.


Lemma sum_omap {A B} (g : A → option B) (f : B → Qc) (h : A → Qc) (l : list A) :
  Forall (λ x, from_option f 0 (g x) = h x) l →
  Spec.sum (f <$> omap g l) = Spec.sum (h <$> l).
Proof.
  induction 1 as [|x l Hx _ IH]; [done|]. cbn [omap list_omap].
  change (Spec.sum (h <$> x :: l)) with (h x + Spec.sum (h <$> l)).
  rewrite <- IH, <- Hx. destruct (g x) as [y|]; cbn [from_option].
  - done.
  - change (Spec.sum (f <$> omap g l) = 0 + Spec.sum (f <$> omap g l)). ring.
Qed.

Lemma sum_nonneg (l : list Qc) : Forall (λ x, 0 ≤ x) l → 0 ≤ Spec.sum l.
Proof.
  induction 1 as [|x l Hx _ IH]; [done|].
  change (0 + 0 ≤ x + Spec.sum l). by apply Qcplus_le_compat.
Qed.

(** The count of an entry as the overview and the snapshot both see it. *)
Definition countedFor (flights : list Flight.t) (entry : string * Qc) : Qc :=
  if decide (entry.1 ∈ Flight.id <$> flights) then entry.2 else 0.

Lemma assignedFlights_entry (flights : list Flight.t) (k : string) (c : Qc) :
  0 ≤ c →
  let kept :=
    match find (λ flight, String.eqb (Flight.id flight) k) flights with
    | Some flight => if gtb c 0 then Some (flight, c) else None
    | None => None
    end in
  from_option (λ entry : Flight.t * Qc, entry.2) 0 kept = countedFor flights (k, c)
  ∧ from_option (λ entry : Flight.t * Qc, Flight.pricePerPerson entry.1 * entry.2) 0 kept
    = Spec.entryCost flights (k, c).
Proof.
  intros Hc kept. subst kept. unfold countedFor, Spec.entryCost. cbn [fst snd].
  rewrite find_eqb_flight.
  destruct (Spec.flightFor flights k) as [f|] eqn:Hf.
  - rewrite decide_True
      by (destruct (decide (k ∈ Flight.id <$> flights)) as [|Hk]; [done|];
          apply flightFor_None in Hk; congruence).
    unfold gtb. case_bool_decide as Hpos; [done|]. cbn.
    assert (c = 0) as -> by (apply Qcle_antisym; [by apply Qcnot_lt_le|done]).
    split; [done|ring].
  - apply flightFor_None in Hf. by rewrite decide_False.
Qed.


(** The overview agrees with the snapshot.  When no assignment count is
    negative, the travellers that the flight summary of the overview counts
    are the assigned people of the budget snapshot, and its average price
    per person is the flight cost of the snapshot divided by those
    travellers, or 0 when nobody is assigned. *)
Theorem assignedFlightsSummary_agrees (settings : PlannerSettings.t)
    (destination : Destination.t) :
  (∀ flightId count,
     BudgetEstimatorState.flightAssignments (Destination.budgetEstimator destination)
       !! flightId = Some count → 0 ≤ count) →
  let summary := DestinationView.assignedFlightsSummary destination in
  let snapshot := DestinationView.budgetSnapshot settings destination in
  DestinationView.assignedTravelers summary = Budget.assignedPeopleCount snapshot
  ∧ DestinationView.averagePerPerson summary
    = (if gtb (Budget.assignedPeopleCount snapshot) 0
       then Budget.flightCost snapshot / Budget.assignedPeopleCount snapshot
       else 0).
Proof.
  intros Hcounts summary snapshot.
  set (flights := Destination.flights destination).
  set (entries := map_to_list (BudgetEstimatorState.flightAssignments
                                 (Destination.budgetEstimator destination))).
  assert (Forall (λ entry : string * Qc, 0 ≤ entry.2) entries) as Hentries.
  { apply list.Forall_forall. intros [k c] Hin%elem_of_map_to_list. by eapply Hcounts. }
  assert (DestinationView.assignedTravelers summary
          = Spec.sum (countedFor flights <$> entries)) as Htravelers.
  { unfold summary, DestinationView.assignedFlightsSummary.
    cbn [DestinationView.assignedTravelers]. rewrite foldl_plus_sum.
    unfold DestinationView.assignedFlights. fold flights entries.
    rewrite (sum_omap _ _ (countedFor flights)).
    - change (0 + Spec.sum (countedFor flights <$> entries)
              = Spec.sum (countedFor flights <$> entries)). ring.
    - eapply Forall_impl; [exact Hentries|]. intros [k c] Hc.
      exact (proj1 (assignedFlights_entry flights k c Hc)). }
  assert (Budget.assignedPeopleCount snapshot
          = Spec.sum (countedFor flights <$> entries)) as Hassigned.
  { unfold snapshot, DestinationView.budgetSnapshot, Budget.calculateBudgetSnapshot.
    cbn [Budget.assignedPeopleCount Budget.flights Budget.flightAssignments].
    fold flights entries. rewrite foldl_count_sum, sum_filter_snd.
    change (0 + Spec.sum (countedFor flights <$> entries)
            = Spec.sum (countedFor flights <$> entries)). ring. }
  assert (Budget.flightCost snapshot = Spec.sum (Spec.entryCost flights <$> entries))
    as Hcost.
  { unfold snapshot, DestinationView.budgetSnapshot, Budget.calculateBudgetSnapshot.
    cbn [Budget.flightCost Budget.flights Budget.flightAssignments].
    fold flights entries. rewrite foldl_cost_sum.
    change (0 + Spec.sum (Spec.entryCost flights <$> entries)
            = Spec.sum (Spec.entryCost flights <$> entries)). ring. }
  split; [congruence|].
  rewrite Hcost, Hassigned. revert Htravelers.
  unfold summary, DestinationView.assignedFlightsSummary.
  cbn [DestinationView.assignedTravelers DestinationView.averagePerPerson].
  intros Htravelers. rewrite Htravelers. unfold gtb. case_bool_decide as Hpos; [|done].
  f_equal. rewrite foldl_plus_sum. unfold DestinationView.assignedFlights.
  fold flights entries. rewrite (sum_omap _ _ (Spec.entryCost flights)).
  - change (0 + Spec.sum (Spec.entryCost flights <$> entries)
            = Spec.sum (Spec.entryCost flights <$> entries)). ring.
  - eapply Forall_impl; [exact Hentries|]. intros [k c] Hc.
    exact (proj2 (assignedFlights_entry flights k c Hc)).
Qed.

Lemma assignedFlightsSummary_agrees_witness :
  let summary := DestinationView.assignedFlightsSummary baselineExample in
  let snapshot := DestinationView.budgetSnapshot Normalize.DEFAULT_SETTINGS baselineExample in
  DestinationView.assignedTravelers summary = Budget.assignedPeopleCount snapshot
  ∧ DestinationView.averagePerPerson summary
    = (if gtb (Budget.assignedPeopleCount snapshot) 0
       then Budget.flightCost snapshot / Budget.assignedPeopleCount snapshot
       else 0).
Proof.
  apply (assignedFlightsSummary_agrees Normalize.DEFAULT_SETTINGS baselineExample).
  intros flightId count Hcount.
  change (({[ "f1" := 1 ]} : gmap string Qc) !! flightId = Some count) in Hcount.
  apply lookup_singleton_Some in Hcount as [_ <-]. done.
Defined.

End overview.


(** ** The option managers, served by the view *)

Section managers.
Local Open Scope Qc_scope.

(** The destination after the updaters that the callbacks of a manager
    stand for have been applied, in the order of the calls. *)
Definition serveFlights (settings : PlannerSettings.t)
    (callbacks : list FlightManager.Callback) (destination : Destination.t) : Destination.t :=
  foldl (λ current callback, flightManagerHandler settings callback current)
        destination callbacks.

Definition serveAccommodations (settings : PlannerSettings.t)
    (callbacks : list AccommodationManager.Callback) (destination : Destination.t)
  : Destination.t :=
  foldl (λ current callback, accommodationManagerHandler settings callback current)
        destination callbacks.

Lemma filter_not_id (flights : list Flight.t) (id : string) :
  Flight.id <$> List.filter (λ flight, negb (String.eqb (Flight.id flight) id)) flights
  = filter (λ k, k ≠ id) (Flight.id <$> flights).
Proof.
  induction flights as [|f flights IH]; [done|]. cbn [List.filter].
  rewrite fmap_cons, filter_cons. destruct (String.eqb_spec (Flight.id f) id) as [Heq|Hne].
  - cbn [negb]. by rewrite decide_False by (intros H; by apply H).
  - cbn [negb]. rewrite decide_True by done. by rewrite fmap_cons, IH.
Qed.

(** Removing a flight.  After [handleRemove] of the flight manager has been
    served by the view, no flight has the removed id, the other flights are
    kept in their order, no assignment to the removed id is left, neither
    in the live draft nor in the saved baseline, and every assignment to a
    flight that remains is as it was. *)
Theorem flight_removed (settings : PlannerSettings.t) (destination : Destination.t)
    (id : string) :
  let next :=
    serveFlights settings
      (FlightManager.handleRemove (flightManagerProps destination) id) destination in
  let live d := BudgetEstimatorState.flightAssignments (Destination.budgetEstimator d) in
  Destination.flights next
  = filter (λ flight, Flight.id flight ≠ id) (Destination.flights destination)
  ∧ live next !! id = None
  ∧ (∀ flightId, flightId ≠ id → flightId ∈ Flight.id <$> Destination.flights destination →
       live next !! flightId = live destination !! flightId)
  ∧ BudgetAttempt.flightAssignments
      <$> BudgetEstimatorState.attempts (Destination.budgetEstimator next)
    = (λ attempt, restrictTo (Destination.flights next) (BudgetAttempt.flightAssignments attempt))
      <$> take 1 (BudgetEstimatorState.attempts (Destination.budgetEstimator destination)).
Proof.
  intros next live. subst next live.
  unfold serveFlights, FlightManager.handleRemove, flightManagerProps.
  cbn [foldl flightManagerHandler FlightManager.flights].
  set (kept := List.filter _ _).
  assert (kept = filter (λ flight, Flight.id flight ≠ id) (Destination.flights destination))
    as Hkept.
  { unfold kept. rewrite filter_bool. apply list_filter_iff. intros f.
    destruct (String.eqb_spec (Flight.id f) id); cbn; naive_solver. }
  assert (∀ k, k ∈ Flight.id <$> kept ↔ k ≠ id ∧ k ∈ Flight.id <$> Destination.flights destination)
    as Hids.
  { intros k. unfold kept. rewrite filter_not_id, list_elem_of_filter. done. }
  unfold DestinationView.handleFlightsChange.
  cbn [Destination.flights Destination.budgetEstimator
       BudgetEstimatorState.flightAssignments BudgetEstimatorState.attempts].
  rewrite keepValid_restrictTo. split_and!.
  - done.
  - apply map_lookup_filter_None. right. intros c _ Hin. cbn in Hin.
    apply Hids in Hin as [Hne _]. done.
  - intros k Hne Hin. unfold restrictTo.
    destruct (BudgetEstimatorState.flightAssignments _ !! k) as [c|] eqn:Hk.
    + apply map_lookup_filter_Some. split; [done|]. cbn. by apply Hids.
    + apply map_lookup_filter_None. by left.
  - rewrite <- list_fmap_compose. apply list_fmap_ext. intros _ attempt _. cbn.
    apply keepValid_restrictTo.
Qed.


Lemma filter_not_accommodation (accommodations : list Accommodation.t) (id selected : string) :
  selected ∈ Accommodation.id
               <$> List.filter (λ accommodation,
                                  negb (String.eqb (Accommodation.id accommodation) id))
                               accommodations
  ↔ selected ≠ id ∧ selected ∈ Accommodation.id <$> accommodations.
Proof.
  induction accommodations as [|a accommodations IH].
  - cbn. rewrite elem_of_nil. tauto.
  - cbn [List.filter]. destruct (String.eqb_spec (Accommodation.id a) id) as [Heq|Hne];
      cbn [negb]; rewrite ?fmap_cons, ?elem_of_cons, IH.
    + split; [tauto|]. intros [Hsel [Hhead|Htail]]; [congruence|done].
    + split; [|tauto]. intros [->|[Hsel Hin]]; tauto.
Qed.

(** Removing an accommodation.  After [handleRemove] of the accommodation
    manager has been served by the view, no accommodation has the removed
    id and the others are kept in their order; a selection of the removed
    accommodation is cleared, in the live draft and in the saved baseline,
    and a selection of an accommodation that remains is kept. *)
Theorem accommodation_removed (settings : PlannerSettings.t) (destination : Destination.t)
    (id : string) :
  let next :=
    serveAccommodations settings
      (AccommodationManager.handleRemove (accommodationManagerProps destination) id)
      destination in
  let selected d :=
    BudgetEstimatorState.selectedAccommodationId (Destination.budgetEstimator d) in
  let remains (wanted : string) :=
    if decide (wanted ≠ id ∧ wanted ∈ Accommodation.id <$> Destination.accommodations destination)
    then wanted else "" in
  Destination.accommodations next
  = filter (λ accommodation, Accommodation.id accommodation ≠ id)
           (Destination.accommodations destination)
  ∧ selected next = remains (selected destination)
  ∧ BudgetAttempt.selectedAccommodationId
      <$> BudgetEstimatorState.attempts (Destination.budgetEstimator next)
    = (λ attempt, remains (BudgetAttempt.selectedAccommodationId attempt))
      <$> take 1 (BudgetEstimatorState.attempts (Destination.budgetEstimator destination)).
Proof.
  intros next selected remains. subst next selected remains.
  unfold serveAccommodations, AccommodationManager.handleRemove, accommodationManagerProps.
  cbn [foldl accommodationManagerHandler AccommodationManager.accommodations].
  unfold DestinationView.handleAccChange.
  cbn [Destination.accommodations Destination.budgetEstimator
       BudgetEstimatorState.selectedAccommodationId BudgetEstimatorState.attempts].
  split_and!.
  - rewrite filter_bool. apply list_filter_iff. intros a.
    destruct (String.eqb_spec (Accommodation.id a) id); cbn; naive_solver.
  - rewrite existsb_eqb_accommodation. case_bool_decide as Hin;
      rewrite filter_not_accommodation in Hin; by case_decide.
  - rewrite <- list_fmap_compose. apply list_fmap_ext. intros _ attempt _. cbn.
    case_bool_decide as Hin;
      rewrite elem_of_list_to_set, filter_not_accommodation in Hin; by case_decide.
Qed.

(** A flight the quick-add form or the bulk import may add. *)
Definition addable (flight : Flight.t) : Prop :=
  Flight.link flight ≠ "" ∧ 0 < Flight.pricePerPerson flight.

Lemma rejected_false (link : string) (price : JNumber) :
  Bulk.rejected link price = false →
  link ≠ "" ∧ 0 < Bulk.finiteOrZero price.
Proof.
  unfold Bulk.rejected. intros [Hlink Hprice]%orb_false_iff. split.
  - by apply String.eqb_neq.
  - destruct price as [q| | |]; try done. cbn. unfold geb in Hprice.
    apply bool_decide_eq_false in Hprice. by apply Qcnot_le_lt.
Qed.

(** What the managers add.  Every list that [handleAdd] or [handleBulkImport]
    of the flight manager hands to the view is the list of the flights so
    far, in their order, followed by at least one new flight; and every new
    flight has a link that is not empty and a price above 0. *)
Theorem flights_added (newId : string) (newIds : nat → string) (props : FlightManager.Props)
    (bulkInput : string) (flights' : list Flight.t) :
  FlightManager.onChange flights' ∈ FlightManager.handleAdd newId props
  ∨ FlightManager.onChange flights' ∈ FlightManager.handleBulkImport newIds props bulkInput →
  ∃ added, flights' = FlightManager.flights props ++ added
           ∧ added ≠ [] ∧ Forall addable added.
Proof.
  intros [Hadd|Hbulk].
  - unfold FlightManager.handleAdd in Hadd.
    destruct (FlightDraft.link _) as [draftLink|]; [|by apply elem_of_nil in Hadd].
    destruct (FlightDraft.pricePerPerson _) as [draftPrice|]; [|by apply elem_of_nil in Hadd].
    destruct (String.eqb_spec draftLink "") as [|Hlink]; [by apply elem_of_nil in Hadd|].
    cbn [negb andb] in Hadd. unfold gtb in Hadd. case_bool_decide as Hprice;
      [|by apply elem_of_nil in Hadd].
    apply elem_of_cons in Hadd as [[= ->]|Hadd].
    + eexists. split_and!; [done|done|]. by apply Forall_singleton.
    + apply list_elem_of_singleton in Hadd. done.
  - unfold FlightManager.handleBulkImport in Hbulk.
    set (valid := List.filter _ _) in Hbulk.
    destruct (length valid =? 0)%nat eqn:Hlength; [by apply elem_of_nil in Hbulk|].
    apply list_elem_of_singleton in Hbulk as [= ->].
    eexists. split_and!; [done| |].
    { intros Hnil%(f_equal length). rewrite length_imap in Hnil.
      by rewrite Hnil in Hlength. }
    apply list.Forall_forall. intros f (i & r & -> & Hr)%elem_of_lookup_imap.
    apply list_elem_of_lookup_2 in Hr. unfold valid in Hr.
    apply list_elem_of_In, filter_In in Hr as [Hr Herror].
    apply list_elem_of_In, list_elem_of_fmap in Hr as (raw & -> & _).
    cbn [FlightManager.error] in Herror. unfold addable.
    cbn [Flight.link Flight.pricePerPerson FlightManager.link FlightManager.pricePerPerson].
    apply rejected_false. by destruct (Bulk.rejected _ _).
Qed.


(** Two lines for the bulk import: one complete, one without a price. *)
Definition bulkExample : string :=
  "Ryanair, 120.50, https://flights.example/r, 2026-06-01, 2026-06-05"
  +:+ String "010" "Train instead, , https://rail.example".

Definition bulkImported : list Flight.t :=
  match FlightManager.handleBulkImport (λ i, "new-" +:+ pretty i)
          (FlightManager.mkProps [] (FlightDraft.mk None None None None None)) bulkExample with
  | [FlightManager.onChange flights] => flights
  | _ => []
  end.

Lemma flights_added_witness :
  length bulkImported = 1%nat
  ∧ ∃ added, bulkImported = [] ++ added ∧ added ≠ [] ∧ Forall addable added.
Proof.
  split; [vm_compute; reflexivity|].
  apply (flights_added "" (λ i, "new-" +:+ pretty i)
           (FlightManager.mkProps [] (FlightDraft.mk None None None None None))
           bulkExample bulkImported).
  right. vm_compute. apply list_elem_of_here.
Defined.

End managers.


(** ** Settings, the destination on show, and edits *)

Section planner.
Local Open Scope Qc_scope.

Lemma num_zero (z : Z) : num z = 0 → z = 0%Z.
Proof.
  unfold num. intros H. change (Q2Qc (inject_Z z) = Q2Qc (inject_Z 0)) in H.
  apply Q2Qc_eq_iff in H. unfold Qeq in H. cbn in H. lia.
Qed.

Lemma Math_floor_zero (q : Qc) : 0 < q → Math_floor q = 0 → q < 1.
Proof.
  intros Hpos Hzero%num_zero. pose proof (Qlt_floor q) as Hlt.
  rewrite Hzero in Hlt. exact Hlt.
Qed.

(** The two inputs of the top bar.  The budget input stores a number that
    is not negative and leaves the people count alone.  The people input
    leaves the budget alone and stores a whole number that is not negative;
    it stores 0 exactly when the text reads as a number strictly between 0
    and 1, which is tested for [> 0] before it is floored. *)
Theorem settings_inputs (value : string) (previousSettings : PlannerSettings.t) :
  let budgeted := App.handleTotalBudgetChange value previousSettings in
  let counted := App.handlePeopleCountChange value previousSettings in
  0 ≤ PlannerSettings.totalBudget budgeted
  ∧ PlannerSettings.peopleCount budgeted = PlannerSettings.peopleCount previousSettings
  ∧ PlannerSettings.totalBudget counted = PlannerSettings.totalBudget previousSettings
  ∧ whole (PlannerSettings.peopleCount counted)
  ∧ 0 ≤ PlannerSettings.peopleCount counted
  ∧ (PlannerSettings.peopleCount counted = 0
     ↔ ∃ q, stringToNumber value = JFinite q ∧ 0 < q ∧ q < 1).
Proof.
  intros budgeted counted. subst budgeted counted.
  unfold App.handleTotalBudgetChange, App.handlePeopleCountChange.
  cbn [PlannerSettings.totalBudget PlannerSettings.peopleCount].
  assert (whole 1 ∧ 0 ≤ 1 ∧ (1 : Qc) ≠ 0) as (Hwhole & Hle & Hne)
    by (split_and!; [apply (Math_floor_num 1)|done|done]).
  destruct (stringToNumber value) as [q| | |].
  - split_and!; try done.
    + unfold geb. by case_bool_decide.
    + unfold gtb. case_bool_decide; [apply Math_floor_idem|done].
    + unfold gtb. case_bool_decide; [by apply Math_floor_pos|done].
    + unfold gtb. case_bool_decide as Hpos; split.
      * intros Hzero. exists q. split_and!; [done|done|by apply Math_floor_zero].
      * intros (q' & [= <-] & _ & Hone). by apply Math_floor_below_one.
      * done.
      * intros (q' & [= <-] & Hq & _). done.
  - split_and!; try done. split; [done|]. by intros (q & [=] & _).
  - split_and!; try done. split; [done|]. by intros (q & [=] & _).
  - split_and!; try done. split; [done|]. by intros (q & [=] & _).
Qed.

Lemma existsb_eqb_destination (ds : list Destination.t) (wanted : string) :
  existsb (λ destination, String.eqb (Destination.id destination) wanted) ds = true
  ↔ wanted ∈ Destination.id <$> ds.
Proof.
  rewrite existsb_exists, list_elem_of_fmap. split.
  - intros (d & Hin%list_elem_of_In & Heq%String.eqb_eq). by exists d.
  - intros (d & -> & Hin%list_elem_of_In). exists d. by rewrite String.eqb_refl.
Qed.


Lemma activeIdEffects_shows (ds : list Destination.t) (a : option string) :
  ds ≠ [] → ∃ d, d ∈ ds ∧ App.activeIdEffects ds a = Some (Destination.id d).
Proof.
  destruct ds as [|first rest]; [done|]. intros _.
  assert (first ∈ first :: rest) as Hfirst by apply list_elem_of_here.
  unfold App.activeIdEffects. destruct a as [current|]; cbn; [|by exists first].
  destruct (String.eqb_spec current "") as [->|Hcurrent]; [by exists first|].
  cbn.
  destruct (String.eqb_spec (Destination.id first) current) as [<-|Hne]; cbn;
    [by exists first|].
  destruct (existsb _ rest) eqn:Hexists; [|by exists first].
  apply existsb_exists in Hexists as (d & Hin%list_elem_of_In & <-%String.eqb_eq).
  exists d. split; [by apply list_elem_of_further|done].
Qed.

Lemma activeIdEffects_keeps (ds : list Destination.t) (current : string) :
  current ≠ "" → current ∈ Destination.id <$> ds →
  App.activeIdEffects ds (Some current) = Some current.
Proof.
  intros Hcurrent Hin%existsb_eqb_destination. unfold App.activeIdEffects.
  rewrite Hin. cbn. by destruct (String.eqb_spec current "").
Qed.

Lemma activeIdEffects_settled (ds : list Destination.t) (a : option string) :
  App.activeIdEffects ds (App.activeIdEffects ds a) = App.activeIdEffects ds a.
Proof.
  destruct ds as [|first rest].
  - unfold App.activeIdEffects. destruct a as [current|]; cbn; [|done].
    destruct (String.eqb_spec current "") as [->|Hcurrent]; cbn; [done|done].
  - destruct (activeIdEffects_shows (first :: rest) a) as (d & Hd & Hshown); [done|].
    rewrite Hshown. destruct (String.eqb_spec (Destination.id d) "") as [Hblank|Hid].
    + rewrite Hblank in Hshown |- *.
      assert (App.activeIdEffects (first :: rest) a = Some (Destination.id first)) as Hfirst.
      { revert Hshown. unfold App.activeIdEffects. destruct a as [current|]; cbn; [|done].
        destruct (String.eqb_spec current "") as [->|Hcurrent]; cbn; [done|].
        destruct (_ || _); [|done]. intros [= ->]. done. }
      rewrite Hfirst in Hshown. injection Hshown as Hshown. unfold App.activeIdEffects.
      cbn. by rewrite Hshown.
    + apply activeIdEffects_keeps; [done|]. apply list_elem_of_fmap. by exists d.
Qed.

(** Removing a destination.  [handleRemoveDestination] keeps the
    destinations with another id, in their order.  Once the effects that
    watch the active id have run, the destination on show is one of those
    that remain, if any remains; it is still the one that was on show when
    that one was not removed; and a further run of the effects changes
    nothing. *)
Theorem handleRemoveDestination_shows (id : string) (v : App.View) :
  let v' := App.handleRemoveDestination id v in
  let remaining := App.destinations (App.planner v') in
  let shown := App.activeIdEffects remaining (App.activeId v') in
  remaining
  = filter (λ destination, Destination.id destination ≠ id)
           (App.destinations (App.planner v))
  ∧ (remaining ≠ [] → ∃ d, d ∈ remaining ∧ shown = Some (Destination.id d))
  ∧ (∀ current, App.activeId v = Some current → current ≠ "" → current ≠ id →
       current ∈ Destination.id <$> App.destinations (App.planner v) →
       shown = Some current)
  ∧ App.activeIdEffects remaining shown = shown.
Proof.
  intros v' remaining shown.
  assert (remaining
          = filter (λ destination, Destination.id destination ≠ id)
                   (App.destinations (App.planner v))) as Hremaining.
  { unfold remaining, v', App.handleRemoveDestination.
    assert (∀ l, List.filter (λ destination, negb (String.eqb (Destination.id destination) id)) l
                 = filter (λ destination, Destination.id destination ≠ id) l) as Hfilter.
    { intros l. induction l as [|d l IH]; [done|]. cbn [List.filter].
      rewrite filter_cons, IH.
      destruct (String.eqb_spec (Destination.id d) id); cbn [negb]; by case_decide. }
    case_bool_decide; cbn; apply Hfilter. }
  split_and!.
  - done.
  - apply activeIdEffects_shows.
  - intros current Hactive Hcurrent Hne Hin. unfold shown.
    assert (App.activeId v' = Some current) as ->.
    { unfold v', App.handleRemoveDestination. rewrite Hactive.
      rewrite bool_decide_eq_false_2; [done|]. by intros [= ->]. }
    apply activeIdEffects_keeps; [done|]. rewrite Hremaining.
    apply list_elem_of_fmap in Hin as (d & -> & Hd). apply list_elem_of_fmap.
    exists d. split; [done|]. by apply list_elem_of_filter.
  - apply activeIdEffects_settled.
Qed.


(** What the destination view commits: a callback of the budget panel or of
    a manager, or an edit of the notes. *)
Inductive Commit :=
  | FromPanel (callback : BudgetCalculator.Callback)
  | FromFlightManager (callback : FlightManager.Callback)
  | FromAccommodationManager (callback : AccommodationManager.Callback)
  | NotesEdited (notes : string).

Definition updaterOf (settings : PlannerSettings.t) (commit : Commit)
  : DestinationView.Updater :=
  match commit with
  | FromPanel callback => DestinationView.handler callback
  | FromFlightManager callback => flightManagerHandler settings callback
  | FromAccommodationManager callback => accommodationManagerHandler settings callback
  | NotesEdited notes => DestinationView.handleNotesChange notes
  end.

(** Who and where a destination is. *)
Definition identity (d : Destination.t) : string * string * Qc * Qc :=
  (Destination.id d, Destination.name d, Destination.latitude d, Destination.longitude d).

Lemma updaterOf_identity (settings : PlannerSettings.t) (commit : Commit)
    (d : Destination.t) :
  identity (updaterOf settings commit d) = identity d.
Proof. destruct commit as [[]|[]|[]|]; done. Qed.

(** An edit stays where it is made.  Whatever the destination view commits,
    [handleUpdateDestination] changes neither the number nor the order of
    the destinations, nor the id, name or coordinates of any of them, and it
    leaves every destination with another id exactly as it was. *)
Theorem handleUpdateDestination_local (settings : PlannerSettings.t) (destinationId : string)
    (commit : Commit) (previousDestinations : list Destination.t) :
  let next :=
    App.handleUpdateDestination destinationId (updaterOf settings commit)
      previousDestinations in
  identity <$> next = identity <$> previousDestinations
  ∧ ∀ j d, previousDestinations !! j = Some d → Destination.id d ≠ destinationId →
           next !! j = Some d.
Proof.
  intros next. subst next. unfold App.handleUpdateDestination. split.
  - rewrite <- list_fmap_compose. apply list_fmap_ext. intros _ d _. cbn.
    destruct (String.eqb _ _); [apply updaterOf_identity|done].
  - intros j d Hj Hne. rewrite list_lookup_fmap, Hj. cbn.
    by destruct (String.eqb_spec (Destination.id d) destinationId).
Qed.

Lemma remove_last {A} (l : list A) (x : A) (offset : nat) :
  omap (λ o, o)
    (imap (λ currentIndex item,
             if negb (offset + currentIndex =? offset + length l)%nat
             then Some item else None)
          (l ++ [x]))
  = l.
Proof.
  revert offset. induction l as [|y l IH]; intros offset.
  - cbn. by rewrite Nat.eqb_refl.
  - cbn [app imap length].
    replace (offset + 0 =? offset + S (length l))%nat with false
      by (symmetry; apply Nat.eqb_neq; lia).
    cbn. f_equal. rewrite <- (IH (S offset)) at 2. f_equal. apply imap_ext.
    intros i z _. cbn. by replace (offset + S i)%nat with (S offset + i)%nat by lia;
      replace (offset + S (length l))%nat with (S offset + length l)%nat by lia.
Qed.

(** The row that [handleAddExtraCost] appends. *)
Definition blankRow : ExtraCost.t :=
  {| ExtraCost.description := ""; ExtraCost.value := 0 |}.

(** An extra-cost row that is added and not filled in.  The panel appends
    a row with an empty description and the value 0; the row changes no
    figure of the snapshot; normalization, as a pull or a repair runs it,
    drops the row; and removing the last row gives the destination back as
    it was. *)
Theorem blank_extra_cost (settings : PlannerSettings.t) (destination : Destination.t) :
  let props := DestinationView.budgetCalculatorProps settings destination in
  let added := dispatch (BudgetCalculator.handleAddExtraCost props) destination in
  Destination.extraCosts added = Destination.extraCosts destination ++ [blankRow]
  ∧ DestinationView.budgetSnapshot settings added
    = DestinationView.budgetSnapshot settings destination
  ∧ Normalize.normalizeExtraCosts (JArr (ToJs.extraCost <$> Destination.extraCosts added))
    = Normalize.normalizeExtraCosts
        (JArr (ToJs.extraCost <$> Destination.extraCosts destination))
  ∧ dispatch
      (BudgetCalculator.handleRemoveExtraCost
         (DestinationView.budgetCalculatorProps settings added)
         (length (Destination.extraCosts destination)))
      added
    = destination.
Proof.
  intros props added. subst props added.
  unfold BudgetCalculator.handleAddExtraCost, BudgetCalculator.handleRemoveExtraCost, dispatch.
  cbn [foldl DestinationView.handler]. unfold DestinationView.handleExtraCostsChange.
  cbn [DestinationView.budgetCalculatorProps BudgetCalculator.extraCosts
       Destination.extraCosts].
  fold blankRow. split_and!.
  - done.
  - unfold DestinationView.budgetSnapshot, Budget.calculateBudgetSnapshot.
    cbn [Destination.flights Destination.accommodations Destination.extraCosts
         Destination.budgetEstimator Budget.flights Budget.accommodations
         Budget.flightAssignments Budget.selectedAccommodationId Budget.extraCosts
         Budget.settings].
    rewrite foldl_app. cbn [foldl blankRow ExtraCost.value].
    set (extras := foldl _ 0 (Destination.extraCosts destination)).
    replace (extras + 0) with extras by ring. done.
  - rewrite !normalizeExtraCosts_array.
    + rewrite !fmap_app, List.filter_app. cbn [fmap list_fmap List.filter].
      rewrite extraCostOf_extraCost by done.
      replace (Spec.worthKeeping blankRow) with false by done.
      by rewrite app_nil_r.
    + apply list.Forall_forall. by intros item (e & -> & _)%list_elem_of_fmap.
    + apply list.Forall_forall. by intros item (e & -> & _)%list_elem_of_fmap.
  - pose proof (remove_last (Destination.extraCosts destination) blankRow 0) as Hremove.
    cbn [Nat.add] in Hremove. rewrite Hremove. by destruct destination.
Qed.

End planner.


(** ** The figures of a normalized plan, and what an import stores *)

Section invariants.
Local Open Scope Qc_scope.

Lemma whole_positive (c : Qc) : whole c → 0 < c → 1 ≤ c.
Proof.
  unfold whole, Math_floor. intros Hwhole Hpos. rewrite <- Hwhole in Hpos |- *.
  assert (0 < Qfloor c)%Z as Hfloor.
  { destruct (Z.lt_trichotomy 0 (Qfloor c)) as [|[Hzero|Hneg]]; [done| |].
    - rewrite <- Hzero in Hpos. by apply Qclt_not_le in Hpos.
    - exfalso. apply (Qclt_not_le _ _ Hpos). unfold num, Qcle. cbn [this Q2Qc].
      rewrite !Qred_correct. change 0%Q with (inject_Z 0). rewrite <- Zle_Qle. lia. }
  unfold num, Qcle. cbn [this Q2Qc]. rewrite !Qred_correct.
  change 1%Q with (inject_Z 1). rewrite <- Zle_Qle. lia.
Qed.

Lemma Math_max_one (people : Qc) : 1 ≤ people → Math_max 1 people = people.
Proof. intros Hpeople. unfold Math_max. by rewrite bool_decide_eq_true_2. Qed.

Lemma entryCost_nonneg (flights : list Flight.t) (entry : string * Qc) :
  Forall normalFlight flights → 0 ≤ entry.2 → 0 ≤ Spec.entryCost flights entry.
Proof.
  intros Hflights Hcount. unfold Spec.entryCost.
  destruct (Spec.flightFor flights entry.1) as [f|] eqn:Hf; [|done].
  assert (f ∈ flights) as Hin.
  { unfold Spec.flightFor in Hf. apply head_Some_elem_of in Hf.
    by apply list_elem_of_filter in Hf as [_ ?]. }
  rewrite list.Forall_forall in Hflights. destruct (Hflights f Hin) as [_ Hprice].
  replace 0 with (0 * entry.2) by ring. by apply Qcmult_le_compat_r.
Qed.


Lemma find_elem_of {A} (f : A → bool) (l : list A) (x : A) :
  find f l = Some x → x ∈ l.
Proof. intros [Hin _]%find_some. by apply list_elem_of_In. Qed.

(** The figures of a normalized plan.  For a destination and settings as
    normalization leaves them, no cost of the snapshot is negative, the
    remainder does not exceed the budget, no assigned head count is
    negative, and the per-person figures are the total cost and the
    remainder divided by the people count: the divisor
    [max(1, peopleCount)] is the people count itself. *)
Theorem snapshot_of_normalized (settings : PlannerSettings.t) (destination : Destination.t) :
  normalDestination destination → normalSettings settings →
  let snapshot := DestinationView.budgetSnapshot settings destination in
  0 ≤ Budget.flightCost snapshot
  ∧ 0 ≤ Budget.accommodationCost snapshot
  ∧ 0 ≤ Budget.extraCostsCost snapshot
  ∧ 0 ≤ Budget.totalCost snapshot
  ∧ 0 ≤ Budget.assignedPeopleCount snapshot
  ∧ Budget.remaining snapshot ≤ PlannerSettings.totalBudget settings
  ∧ Budget.perPersonTotal snapshot
    = Budget.totalCost snapshot / PlannerSettings.peopleCount settings
  ∧ Budget.perPersonRemaining snapshot
    = Budget.remaining snapshot / PlannerSettings.peopleCount settings.
Proof.
  intros (_ & _ & Hextras & [Hcounts _] & _ & _ & Hflights & Haccs) (_ & Hpeople & Hwhole)
    snapshot.
  pose proof (whole_positive _ Hwhole Hpeople) as Hone.
  set (entries := map_to_list (BudgetEstimatorState.flightAssignments
                                 (Destination.budgetEstimator destination))).
  assert (Forall (λ entry : string * Qc, 0 ≤ entry.2) entries) as Hentries.
  { apply list.Forall_forall. intros [k c] Hin%elem_of_map_to_list.
    by destruct (Hcounts k c Hin). }
  assert (0 ≤ Budget.flightCost snapshot) as Hflight.
  { unfold snapshot, DestinationView.budgetSnapshot, Budget.calculateBudgetSnapshot.
    cbn [Budget.flightCost Budget.flights Budget.flightAssignments]. fold entries.
    rewrite foldl_cost_sum.
    replace 0 with (0 + 0) at 1 by ring. apply Qcplus_le_compat; [done|].
    apply sum_nonneg, Forall_fmap. eapply Forall_impl; [exact Hentries|].
    intros entry Hentry. by apply entryCost_nonneg. }
  assert (0 ≤ Budget.assignedPeopleCount snapshot) as Hassigned.
  { unfold snapshot, DestinationView.budgetSnapshot, Budget.calculateBudgetSnapshot.
    cbn [Budget.assignedPeopleCount Budget.flights Budget.flightAssignments]. fold entries.
    rewrite foldl_count_sum.
    replace 0 with (0 + 0) at 1 by ring. apply Qcplus_le_compat; [done|].
    apply sum_nonneg, Forall_fmap. apply list.Forall_forall.
    intros entry [_ Hin]%list_elem_of_filter.
    by apply (proj1 (list.Forall_forall _ _) Hentries). }
  assert (0 ≤ Budget.accommodationCost snapshot) as Hacc.
  { unfold snapshot, DestinationView.budgetSnapshot, Budget.calculateBudgetSnapshot.
    cbn [Budget.accommodationCost Budget.accommodations Budget.selectedAccommodationId].
    destruct (find _ _) as [a|] eqn:Hfind; [|done].
    apply find_elem_of in Hfind. rewrite list.Forall_forall in Haccs.
    by destruct (Haccs a Hfind). }
  assert (0 ≤ Budget.extraCostsCost snapshot) as Hextra.
  { unfold snapshot, DestinationView.budgetSnapshot, Budget.calculateBudgetSnapshot.
    cbn [Budget.extraCostsCost Budget.extraCosts].
    rewrite (foldl_plus_sum ExtraCost.value).
    replace 0 with (0 + 0) at 1 by ring. apply Qcplus_le_compat; [done|].
    apply sum_nonneg, Forall_fmap. eapply Forall_impl; [exact Hextras|].
    by intros e [He _]. }
  assert (Budget.totalCost snapshot
          = Budget.flightCost snapshot + Budget.accommodationCost snapshot
            + Budget.extraCostsCost snapshot) as Htotal by done.
  assert (0 ≤ Budget.totalCost snapshot) as Hnonneg.
  { rewrite Htotal. replace 0 with (0 + 0 + 0) at 1 by ring.
    by repeat apply Qcplus_le_compat. }
  split_and!; try done.
  - change (PlannerSettings.totalBudget settings - Budget.totalCost snapshot
            ≤ PlannerSettings.totalBudget settings).
    apply Qcle_minus_iff.
    replace (PlannerSettings.totalBudget settings
             + - (PlannerSettings.totalBudget settings - Budget.totalCost snapshot))
      with (Budget.totalCost snapshot) by ring.
    done.
  - change (Budget.totalCost snapshot / Math_max 1 (PlannerSettings.peopleCount settings)
            = Budget.totalCost snapshot / PlannerSettings.peopleCount settings).
    by rewrite Math_max_one.
  - change (Budget.remaining snapshot / Math_max 1 (PlannerSettings.peopleCount settings)
            = Budget.remaining snapshot / PlannerSettings.peopleCount settings).
    by rewrite Math_max_one.
Qed.

Lemma snapshot_of_normalized_witness :
  let snapshot := DestinationView.budgetSnapshot Normalize.DEFAULT_SETTINGS baselineExample in
  0 ≤ Budget.totalCost snapshot
  ∧ Budget.perPersonTotal snapshot = Budget.totalCost snapshot / num 5.
Proof.
  intros snapshot.
  destruct (snapshot_of_normalized Normalize.DEFAULT_SETTINGS baselineExample)
    as (_ & _ & _ & Htotal & _ & _ & Hperson & _).
  - apply baselineExample_normal.
  - apply DEFAULT_SETTINGS_normal.
  - split; [exact Htotal|exact Hperson].
Defined.


Lemma repairEffect_None (hosts : nat → Host) (stored : list Normalize.LegacyDestination) :
  Validate.repairEffect hosts stored = Ok None
  ↔ Validate.someM Validate.missesFields stored = Ok false.
Proof.
  unfold Validate.repairEffect.
  destruct (Validate.someM _ _) as [[|]|]; cbn [mbind Result_bind bind]; [|done|done].
  by destruct (mapM _ _).
Qed.

Lemma someM_app {A} (f : A → Result bool) (l l' : list A) :
  Validate.someM f l = Ok false → Validate.someM f l' = Ok false →
  Validate.someM f (l ++ l') = Ok false.
Proof.
  intros Hl Hl'. induction l as [|x l IH]; [done|]. cbn [app Validate.someM] in Hl |- *.
  destruct (f x) as [[|]|]; cbn [mbind Result_bind bind] in Hl |- *; [done|by apply IH|done].
Qed.

(** What an import or a new destination stores needs no repair.  The list
    that [handleImport] stores has the ids of the imported destinations, in
    their order; the first of them is put on show; and the repair effect
    finds nothing missing in it.  The same holds of the list after
    [handleAddDestination] when the list before needed no repair. *)
Theorem import_needs_no_repair (hosts hosts' : nat → Host) (host : Host)
    (data : list Normalize.LegacyDestination) (newDest : Normalize.LegacyDestination)
    (v : App.View) :
  (∀ imported, App.handleImport hosts data v = Ok imported →
     Destination.id <$> App.destinations (App.planner imported) = Normalize.id <$> data
     ∧ (data ≠ [] → App.activeId imported = Normalize.id <$> head data)
     ∧ Validate.repairEffect hosts' (asLegacy <$> App.destinations (App.planner imported))
       = Ok None)
  ∧ (∀ added, App.handleAddDestination host newDest v = Ok added →
       Validate.repairEffect hosts' (asLegacy <$> App.destinations (App.planner v)) = Ok None →
       App.activeId added = Some (Normalize.id newDest)
       ∧ Destination.id <$> App.destinations (App.planner added)
         = (Destination.id <$> App.destinations (App.planner v)) ++ [Normalize.id newDest]
       ∧ Validate.repairEffect hosts' (asLegacy <$> App.destinations (App.planner added))
         = Ok None).
Proof.
  split.
  - intros imported. unfold App.handleImport.
    destruct (mapM _ _) as [normalizedData|] eqn:Hmap; [|done]. cbn [mbind Result_bind bind].
    apply normalizeAll_wellFormed in Hmap as (Hwell & Hids & _ & _).
    intros [= <-].
    assert (App.destinations
              (App.planner
                 match normalizedData with
                 | [] => App.setPlanner (App.setDestinations normalizedData) v
                 | first :: _ =>
                     App.setActiveId (Some (Destination.id first))
                       (App.setPlanner (App.setDestinations normalizedData) v)
                 end) = normalizedData) as -> by (by destruct normalizedData).
    split_and!.
    + done.
    + intros Hdata. destruct data as [|legacy data]; [done|].
      destruct normalizedData as [|first rest]; [done|].
      cbn in Hids |- *. by injection Hids as -> _.
    + unfold Validate.repairEffect. rewrite someM_false; [done|].
      intros legacy (d & -> & Hd)%list_elem_of_fmap.
      apply missesFields_wellFormed. by apply (proj1 (list.Forall_forall _ _) Hwell).
  - intros added. unfold App.handleAddDestination.
    destruct (Normalize.normalizeDestination host newDest) as [destination|] eqn:Hnew;
      [|done]. cbn [mbind Result_bind bind]. intros [= <-] Hsettled.
    apply normalizeDestination_wellFormed in Hnew as (Hwell & Hid & _ & _).
    cbn [App.activeId App.setActiveId App.planner App.setPlanner App.destinations
         App.setDestinations].
    split_and!.
    + done.
    + by rewrite fmap_app, <- Hid.
    + apply repairEffect_None in Hsettled. apply repairEffect_None.
      rewrite fmap_app. apply someM_app; [done|].
      cbn [fmap list_fmap Validate.someM]. by rewrite missesFields_wellFormed.
Qed.

End invariants.


(** ** What the accommodation manager adds *)

Section stays.
Local Open Scope Qc_scope.

(** An accommodation the quick-add form or the bulk import may add. *)
Definition bookable (accommodation : Accommodation.t) : Prop :=
  Accommodation.link accommodation ≠ "" ∧ 0 < Accommodation.totalPrice accommodation.

(** What the accommodation manager adds.  Every list that [handleAdd] or
    [handleBulkImport] of the accommodation manager hands to the view is the
    list of the accommodations so far, in their order, followed by at least
    one new accommodation; and every new one has a link that is not empty
    and a total price above 0. *)
Theorem accommodations_added (newId : string) (newIds : nat → string)
    (props : AccommodationManager.Props) (bulkInput : string)
    (accommodations' : list Accommodation.t) :
  AccommodationManager.onChange accommodations' ∈ AccommodationManager.handleAdd newId props
  ∨ AccommodationManager.onChange accommodations'
    ∈ AccommodationManager.handleBulkImport newIds props bulkInput →
  ∃ added, accommodations' = AccommodationManager.accommodations props ++ added
           ∧ added ≠ [] ∧ Forall bookable added.
Proof.
  intros [Hadd|Hbulk].
  - unfold AccommodationManager.handleAdd in Hadd.
    destruct (AccommodationDraft.link _) as [draftLink|]; [|by apply elem_of_nil in Hadd].
    destruct (AccommodationDraft.totalPrice _) as [draftPrice|];
      [|by apply elem_of_nil in Hadd].
    destruct (String.eqb_spec draftLink "") as [|Hlink]; [by apply elem_of_nil in Hadd|].
    cbn [negb andb] in Hadd. unfold gtb in Hadd. case_bool_decide as Hprice;
      [|by apply elem_of_nil in Hadd].
    apply elem_of_cons in Hadd as [[= ->]|Hadd].
    + eexists. split_and!; [done|done|]. by apply Forall_singleton.
    + apply list_elem_of_singleton in Hadd. done.
  - unfold AccommodationManager.handleBulkImport in Hbulk.
    set (valid := List.filter _ _) in Hbulk.
    destruct (length valid =? 0)%nat eqn:Hlength; [by apply elem_of_nil in Hbulk|].
    apply list_elem_of_singleton in Hbulk as [= ->].
    eexists. split_and!; [done| |].
    { intros Hnil%(f_equal length). rewrite length_imap in Hnil.
      by rewrite Hnil in Hlength. }
    apply list.Forall_forall. intros a (i & r & -> & Hr)%elem_of_lookup_imap.
    apply list_elem_of_lookup_2 in Hr. unfold valid in Hr.
    apply list_elem_of_In, filter_In in Hr as [Hr Herror].
    apply list_elem_of_In, list_elem_of_fmap in Hr as (raw & -> & _).
    cbn [AccommodationManager.error] in Herror. unfold bookable.
    cbn [Accommodation.link Accommodation.totalPrice AccommodationManager.link
         AccommodationManager.totalPrice].
    apply rejected_false. by destruct (Bulk.rejected _ _).
Qed.

(** A quick-add form that is filled in. *)
Definition stayDraft : AccommodationManager.Props :=
  {| AccommodationManager.accommodations := [];
     AccommodationManager.draft :=
       AccommodationDraft.mk (Some "https://stay.example/h") (Some "Hostel") None None
         (Some (num 400)) |}.

Definition stayAdded : list Accommodation.t :=
  match AccommodationManager.handleAdd "new-0" stayDraft with
  | AccommodationManager.onChange accommodations :: _ => accommodations
  | _ => []
  end.

Lemma accommodations_added_witness :
  length stayAdded = 1%nat
  ∧ ∃ added, stayAdded = [] ++ added ∧ added ≠ [] ∧ Forall bookable added.
Proof.
  split; [vm_compute; reflexivity|].
  apply (accommodations_added "new-0" (λ _, "") stayDraft "" stayAdded).
  left. vm_compute. apply list_elem_of_here.
Defined.

End stays.


(** ** Copies and extra-cost rows *)

Section rows.
Local Open Scope Qc_scope.

Lemma filter_fresh {A} (key : A → string) (l : list A) (fresh : string) :
  fresh ∉ key <$> l →
  List.filter (λ x, negb (String.eqb (key x) fresh)) l = l.
Proof.
  induction l as [|x l IH]; [done|]. rewrite fmap_cons, not_elem_of_cons.
  intros [Hx Hl]. cbn [List.filter].
  destruct (String.eqb_spec (key x) fresh) as [Heq|_]; [by destruct Hx|].
  cbn [negb]. by rewrite IH.
Qed.

(** Duplicate, then remove the copy.  A duplicate is appended after the
    options so far and differs from its original in the id and the
    description only; when its id is fresh, removing that id gives back the
    list as it was.  This holds in both managers. *)
Theorem duplicate_then_remove (newId : string) (flights : list Flight.t)
    (accommodations : list Accommodation.t) (flight : Flight.t)
    (accommodation : Accommodation.t) (fd : FlightDraft.t) (ad : AccommodationDraft.t) :
  newId ∉ Flight.id <$> flights →
  newId ∉ Accommodation.id <$> accommodations →
  (∃ copy,
     FlightManager.handleDuplicate newId (FlightManager.mkProps flights fd) flight
     = [FlightManager.onChange (flights ++ [copy])]
     ∧ Flight.id copy = newId
     ∧ (Flight.link copy, Flight.startDate copy, Flight.endDate copy,
        Flight.pricePerPerson copy)
       = (Flight.link flight, Flight.startDate flight, Flight.endDate flight,
          Flight.pricePerPerson flight)
     ∧ FlightManager.handleRemove (FlightManager.mkProps (flights ++ [copy]) fd) newId
       = [FlightManager.onChange flights])
  ∧ ∃ copy,
      AccommodationManager.handleDuplicate newId
        (AccommodationManager.mkProps accommodations ad) accommodation
      = [AccommodationManager.onChange (accommodations ++ [copy])]
      ∧ Accommodation.id copy = newId
      ∧ (Accommodation.link copy, Accommodation.startDate copy, Accommodation.endDate copy,
         Accommodation.totalPrice copy)
        = (Accommodation.link accommodation, Accommodation.startDate accommodation,
           Accommodation.endDate accommodation, Accommodation.totalPrice accommodation)
      ∧ AccommodationManager.handleRemove
          (AccommodationManager.mkProps (accommodations ++ [copy]) ad) newId
        = [AccommodationManager.onChange accommodations].
Proof.
  intros Hflights Haccommodations. split.
  - eexists. split_and!; [reflexivity|done|done|].
    unfold FlightManager.handleRemove. cbn [FlightManager.flights].
    rewrite List.filter_app, (filter_fresh Flight.id) by done.
    cbn [List.filter Flight.id]. by rewrite String.eqb_refl, app_nil_r.
  - eexists. split_and!; [reflexivity|done|done|].
    unfold AccommodationManager.handleRemove. cbn [AccommodationManager.accommodations].
    rewrite List.filter_app, (filter_fresh Accommodation.id) by done.
    cbn [List.filter Accommodation.id]. by rewrite String.eqb_refl, app_nil_r.
Qed.

Lemma duplicate_then_remove_witness :
  FlightManager.handleRemove
    (FlightManager.mkProps
       (match FlightManager.handleDuplicate "copy-id"
                (flightManagerProps baselineExample)
                {| Flight.id := "f1"; Flight.link := ""; Flight.description := "";
                   Flight.startDate := ""; Flight.endDate := "";
                   Flight.pricePerPerson := num 100 |} with
        | [FlightManager.onChange flights] => flights
        | _ => []
        end)
       (FlightDraft.mk None None None None None))
    "copy-id"
  = [FlightManager.onChange (Destination.flights baselineExample)].
Proof.
  destruct (duplicate_then_remove "copy-id" (Destination.flights baselineExample) []
              {| Flight.id := "f1"; Flight.link := ""; Flight.description := "";
                 Flight.startDate := ""; Flight.endDate := "";
                 Flight.pricePerPerson := num 100 |}
              (Accommodation.mk "" "" "" 0 "" "")
              (FlightDraft.mk None None None None None)
              (AccommodationDraft.mk None None None None None))
    as [(copy & Hduplicate & _ & _ & Hremove) _].
  - intros Hin. apply list_elem_of_singleton in Hin. discriminate.
  - apply not_elem_of_nil.
  - change (flightManagerProps baselineExample)
      with (FlightManager.mkProps (Destination.flights baselineExample)
              (FlightDraft.mk None None None None None)).
    rewrite Hduplicate. exact Hremove.
Defined.


Lemma imap_same {A} (l : list A) : imap (λ _ item, item) l = l.
Proof. induction l as [|x l IH]; [done|]. rewrite imap_cons. by rewrite <- IH at 2. Qed.

Lemma imap_alter {A} (g : A → A) (l : list A) (index offset : nat) :
  imap (λ currentIndex item,
          if negb (offset + currentIndex =? offset + index)%nat then item else g item) l
  = alter g index l.
Proof.
  revert index offset. induction l as [|x l IH]; intros index offset; [done|].
  rewrite imap_cons. destruct index as [|index].
  - rewrite Nat.eqb_refl. cbn [negb]. cbn [alter list_alter]. f_equal.
    rewrite <- (imap_same l) at 2. apply imap_ext. intros i y _. cbn.
    by replace (offset + S i =? offset + 0)%nat with false
      by (symmetry; apply Nat.eqb_neq; lia).
  - replace (offset + 0 =? offset + S index)%nat with false
      by (symmetry; apply Nat.eqb_neq; lia).
    cbn [negb]. cbn [alter list_alter]. f_equal. rewrite <- (IH index (S offset)).
    apply imap_ext. intros i y _. cbn.
    by replace (offset + S i)%nat with (S offset + i)%nat by lia;
      replace (offset + S index)%nat with (S offset + index)%nat by lia.
Qed.

Lemma alter_past_end {A} (g : A → A) (l : list A) (index : nat) :
  (length l ≤ index)%nat → alter g index l = l.
Proof.
  revert index. induction l as [|x l IH]; intros index Hlength; [done|].
  destruct index as [|index]; cbn in Hlength; [lia|].
  cbn [alter list_alter]. f_equal. apply IH. lia.
Qed.

(** A row after [{...extraCost, ...updates}]. *)
Definition merged (updates : BudgetCalculator.ExtraCostUpdates) (row : ExtraCost.t)
  : ExtraCost.t :=
  {| ExtraCost.description :=
       default (ExtraCost.description row) (BudgetCalculator.newDescription updates);
     ExtraCost.value := default (ExtraCost.value row) (BudgetCalculator.newValue updates) |}.

Lemma values_alter (g : ExtraCost.t → ExtraCost.t) (l : list ExtraCost.t) (index : nat) :
  (∀ row, l !! index = Some row → ExtraCost.value (g row) = ExtraCost.value row) →
  ExtraCost.value <$> alter g index l = ExtraCost.value <$> l.
Proof.
  revert index. induction l as [|y l IH]; intros index Hsame; [done|].
  destruct index as [|index]; cbn [alter list_alter]; rewrite !fmap_cons.
  - f_equal. by apply Hsame.
  - f_equal. apply IH. intros row Hrow. by apply Hsame.
Qed.

(** Editing an extra-cost row.  [handleExtraCostChange] changes the row at
    the index, and no other; an index past the end changes nothing.  Of
    the figures of the snapshot, the flight cost, the accommodation cost
    and the assigned head count stay as they were; when the value of the
    row is unchanged, as it is when only the description is edited, the
    whole snapshot stays as it was. *)
Theorem extra_cost_edited (settings : PlannerSettings.t) (destination : Destination.t)
    (index : nat) (updates : BudgetCalculator.ExtraCostUpdates) :
  let props := DestinationView.budgetCalculatorProps settings destination in
  let edited :=
    dispatch (BudgetCalculator.handleExtraCostChange props index updates) destination in
  let before := DestinationView.budgetSnapshot settings destination in
  let after := DestinationView.budgetSnapshot settings edited in
  Destination.extraCosts edited
  = alter (merged updates) index (Destination.extraCosts destination)
  ∧ ((length (Destination.extraCosts destination) ≤ index)%nat → edited = destination)
  ∧ Budget.flightCost after = Budget.flightCost before
  ∧ Budget.accommodationCost after = Budget.accommodationCost before
  ∧ Budget.assignedPeopleCount after = Budget.assignedPeopleCount before
  ∧ ((∀ row, Destination.extraCosts destination !! index = Some row →
        ExtraCost.value (merged updates row) = ExtraCost.value row) →
     after = before)
  ∧ (BudgetCalculator.newValue updates = None → after = before).
Proof.
  intros props edited before after.
  assert (Destination.extraCosts edited
          = alter (merged updates) index (Destination.extraCosts destination)) as Hrows.
  { unfold edited, props, BudgetCalculator.handleExtraCostChange, dispatch.
    cbn [foldl DestinationView.handler]. unfold DestinationView.handleExtraCostsChange.
    cbn [Destination.extraCosts DestinationView.budgetCalculatorProps
         BudgetCalculator.extraCosts].
    apply (imap_alter (merged updates) _ index 0). }
  assert (edited
          = DestinationView.handleExtraCostsChange (Destination.extraCosts edited) destination)
    as Hedited by done.
  assert ((∀ row, Destination.extraCosts destination !! index = Some row →
             ExtraCost.value (merged updates row) = ExtraCost.value row) →
          after = before) as Hsame.
  { intros Hvalue. unfold after, before. rewrite Hedited, Hrows.
    unfold DestinationView.budgetSnapshot, DestinationView.handleExtraCostsChange,
      Budget.calculateBudgetSnapshot.
    cbn [Budget.flights Budget.accommodations Budget.flightAssignments
         Budget.selectedAccommodationId Budget.extraCosts Budget.settings
         Destination.flights Destination.accommodations Destination.extraCosts
         Destination.budgetEstimator].
    rewrite !(foldl_plus_sum ExtraCost.value), (values_alter _ _ _ Hvalue). done. }
  split_and!.
  - done.
  - intros Hlength. rewrite Hedited, Hrows.
    rewrite alter_past_end by done. by destruct destination.
  - unfold after, before. by rewrite Hedited.
  - unfold after, before. by rewrite Hedited.
  - unfold after, before. by rewrite Hedited.
  - exact Hsame.
  - intros Hnone. apply Hsame. intros row _. unfold merged. by rewrite Hnone.
Qed.

End rows.


(** ** The edit form of the flight manager *)

Section edits.
Local Open Scope Qc_scope.

Definition withPrice (flight : Flight.t) (price : Qc) : Flight.t :=
  {| Flight.id := Flight.id flight;
     Flight.link := Flight.link flight;
     Flight.description := Flight.description flight;
     Flight.startDate := Flight.startDate flight;
     Flight.endDate := Flight.endDate flight;
     Flight.pricePerPerson := price |}.

(** The edit form checks less than the add form.  When a flight with an id
    and a link is put under edit and its price is set to a number other
    than 0, [saveEdit] stores that price, negative or not, in every flight
    that has the id, and leaves the other flights, their number and their
    order alone; the quick-add form, given the same link and a price that
    is not above 0, adds nothing. *)
Theorem saveEdit_price (props : FlightManager.Props) (flight : Flight.t) (price : Qc)
    (newId : string) (description startDate endDate : option string) :
  Flight.id flight ≠ "" → Flight.link flight ≠ "" → price ≠ 0 →
  FlightManager.saveEdit (FlightManager.startEdit flight).1
    (FlightManager.editPrice price (FlightManager.startEdit flight).2) props
  = [FlightManager.onChange
       ((λ other, if decide (Flight.id other = Flight.id flight)
                  then withPrice flight price else other)
        <$> FlightManager.flights props)]
  ∧ (price ≤ 0 →
     FlightManager.handleAdd newId
       (FlightManager.mkProps (FlightManager.flights props)
          (FlightDraft.mk (Some (Flight.link flight)) description startDate endDate
             (Some price)))
     = []).
Proof.
  intros Hid Hlink Hprice. split.
  - unfold FlightManager.saveEdit, FlightManager.startEdit, FlightManager.editPrice.
    cbn [fst snd FlightManager.formId FlightManager.formLink FlightManager.formDescription
         FlightManager.formStartDate FlightManager.formEndDate FlightManager.formPrice].
    destruct (String.eqb_spec (Flight.id flight) "") as [|_]; [done|].
    destruct (String.eqb_spec (Flight.link flight) "") as [|_]; [done|].
    rewrite bool_decide_eq_false_2 by done. cbn [negb andb from_option].
    f_equal. f_equal. apply list_fmap_ext. intros _ other _.
    destruct (String.eqb_spec (Flight.id other) (Flight.id flight)) as [Heq|Hne]; cbn [negb].
    + by rewrite decide_True.
    + by rewrite decide_False.
  - intros Hnegative. unfold FlightManager.handleAdd.
    cbn [FlightManager.draft FlightDraft.link FlightDraft.pricePerPerson].
    unfold gtb. rewrite (bool_decide_eq_false_2 (0 < price)); [|by apply Qcle_not_lt].
    by rewrite andb_false_r.
Qed.

Lemma saveEdit_price_witness :
  let flight := {| Flight.id := "f1"; Flight.link := "https://x.example";
                   Flight.description := ""; Flight.startDate := ""; Flight.endDate := "";
                   Flight.pricePerPerson := num 100 |} in
  let props := FlightManager.mkProps [flight] (FlightDraft.mk None None None None None) in
  FlightManager.saveEdit (Some "f1")
    (FlightManager.editPrice (num (-5)) (FlightManager.startEdit flight).2) props
  = [FlightManager.onChange [withPrice flight (num (-5))]].
Proof.
  intros flight props.
  refine (proj1 (saveEdit_price props flight (num (-5)) "" None None None _ _ _));
    discriminate.
Defined.

End edits.
